(** * Attendance reconciliation: a shallow embedding of the biometrics
      integration scripts (redginger.py, westlands.py, westlands-break.py)

    The development follows the three scripts of [Biometrics Integration]:
    - [Py]: the fragment of Python's strings, [int], [datetime] the scripts use;
    - [RedGinger]: [AttendanceProcessor] of redginger.py, the classifier and
      the reconciler over an explicit model of the two databases;
    - [Westlands]: [BiometricETLPipeline] of westlands.py;
    - [WestlandsBreak]: the break ETL of westlands-break.py.

    Modelling conventions.
    - A Python [str] is a Rocq [string] whose characters are the code points
      0..255; code points above 255 are outside the model.
    - A [datetime.time] is its number of seconds since midnight
      (0 <= t < 86400, microseconds are never produced by the scripts); a
      [datetime.date] is its proleptic ordinal; a [datetime.datetime] is
      [86400 * date + time]. Python orders all three as these numbers.
    - A function whose body is wrapped in [try ... except] is written as the
      body in [option] ([None] = an exception was raised) followed by the
      handler.
    - The wall clock ([datetime.now()]) is an explicit argument [now].
    - The database tables are lists of rows in insertion order; nullable
      columns are [option]s; [commit] is implicit, and the database is
      assumed not to fail (no rollback path is taken). *)

From Stdlib Require Import ZArith List String Ascii Bool Lia.
Import ListNotations.
Open Scope string_scope.
Open Scope Z_scope.

(* ================================================================== *)
(** * Python values *)
(* ================================================================== *)

Module Py.

Definition time := Z.
Definition date := Z.
Definition datetime := Z.

Definition hms (h m s : Z) : time := 3600 * h + 60 * m + s.

(** [datetime.time(h, m, s)]: [None] stands for [ValueError]. *)
Definition time_new (h m s : Z) : option time :=
  if (0 <=? h) && (h <=? 23) && (0 <=? m) && (m <=? 59) && (0 <=? s) && (s <=? 59)
  then Some (hms h m s) else None.

Definition midnight : time := hms 0 0 0.

Definition valid_time (t : time) : Prop := 0 <= t < 86400.

(** [datetime.combine(d, t)], [dt.date()], [dt.time()]. *)
Definition combine (d : date) (t : time) : datetime := 86400 * d + t.
Definition date_of (dt : datetime) : date := dt / 86400.
Definition time_of (dt : datetime) : time := dt mod 86400.

(** The values that reach the classifiers' dynamically typed arguments. *)
Inductive pyval :=
| PyNone
| PyBool (b : bool)
| PyInt (z : Z)
| PyStr (s : string)
| PyTime (t : time).

(** [bool(v)]. *)
Definition truthy (v : pyval) : bool :=
  match v with
  | PyNone => false
  | PyBool b => b
  | PyInt z => negb (z =? 0)
  | PyStr s => negb (String.eqb s "")
  | PyTime _ => true
  end.

(** ** Characters *)

Definition code (c : ascii) : Z := Z.of_N (N_of_ascii c).

(** [str.isspace] on the code points below 256. *)
Definition is_space (c : ascii) : bool :=
  let n := code c in
  ((9 <=? n) && (n <=? 13)) || ((28 <=? n) && (n <=? 32)) || (n =? 133) || (n =? 160).

(** The white space [int()] skips: the C locale's, plus the two Latin-1
    spaces that it first rewrites to a blank. *)
Definition is_int_space (c : ascii) : bool :=
  let n := code c in
  ((9 <=? n) && (n <=? 13)) || (n =? 32) || (n =? 133) || (n =? 160).

Definition is_digit (c : ascii) : bool :=
  let n := code c in (48 <=? n) && (n <=? 57).

(** [str.isdigit] also accepts the superscripts 2, 3 and 1. *)
Definition is_digit_char (c : ascii) : bool :=
  let n := code c in
  is_digit c || (n =? 178) || (n =? 179) || (n =? 185).

Definition digit_val (c : ascii) : Z := code c - 48.

Definition lower_char (c : ascii) : ascii :=
  let n := code c in
  if ((65 <=? n) && (n <=? 90)) || ((192 <=? n) && (n <=? 222) && negb (n =? 215))
  then ascii_of_N (Z.to_N (n + 32)) else c.

(** ** Strings as character lists *)

Definition chars (s : string) : list ascii := list_ascii_of_string s.
Definition str (l : list ascii) : string := string_of_list_ascii l.

Fixpoint drop_while (p : ascii -> bool) (l : list ascii) : list ascii :=
  match l with
  | [] => []
  | c :: r => if p c then drop_while p r else l
  end.

Definition strip_with (p : ascii -> bool) (l : list ascii) : list ascii :=
  rev (drop_while p (rev (drop_while p l))).

(** [s.strip()], [s.lower()]. *)
Definition strip (s : string) : string := str (strip_with is_space (chars s)).
Definition lower (s : string) : string := str (map lower_char (chars s)).

(** [sep in s] for a one-character [sep]. *)
Definition contains (sep : ascii) (s : string) : bool :=
  existsb (Ascii.eqb sep) (chars s).

(** [s.split(sep)] for a one-character [sep]: never empty. *)
Fixpoint split_aux (sep : ascii) (cur : list ascii) (l : list ascii) : list (list ascii) :=
  match l with
  | [] => [rev cur]
  | c :: r => if Ascii.eqb c sep then rev cur :: split_aux sep [] r
              else split_aux sep (c :: cur) r
  end.

Definition split (sep : ascii) (s : string) : list string :=
  map str (split_aux sep [] (chars s)).

(** [s.isdigit()]. *)
Definition isdigit (s : string) : bool :=
  match chars s with
  | [] => false
  | l => forallb is_digit_char l
  end.

(** ** [int(s)] in base ten

    Digits, with single underscores between digits, after an optional sign,
    the whole between optional white space. [None] stands for [ValueError];
    so does a literal of more than [int_max_str_digits] digits. *)

Definition int_max_str_digits : Z := 4300.

Fixpoint int_digits (acc n : Z) (after_us : bool) (l : list ascii) : option Z :=
  match l with
  | [] => if after_us then None
          else if n <=? int_max_str_digits then Some acc else None
  | c :: r =>
      if is_digit c then int_digits (10 * acc + digit_val c) (n + 1) false r
      else if Ascii.eqb c "_"%char
           then if after_us then None else int_digits acc n true r
           else None
  end.

Definition int_unsigned (l : list ascii) : option Z :=
  match l with
  | c :: _ => if is_digit c then int_digits 0 0 false l else None
  | [] => None
  end.

Definition int_of_chars (l : list ascii) : option Z :=
  match strip_with is_int_space l with
  | "+"%char :: r => int_unsigned r
  | "-"%char :: r => option_map Z.opp (int_unsigned r)
  | r => int_unsigned r
  end.

Definition int (s : string) : option Z := int_of_chars (chars s).

(** ** [datetime.strptime(s, fmt).time()] for the formats [%H:%M:%S] and [%H:%M]

    A field is one or two decimal digits; hours stop at 23, minutes and
    seconds at 59 (the pattern lets 60 and 61 through for seconds, and the
    constructor then refuses them). Nothing may follow the last field. *)

Definition strptime_field (bound : Z) (l : list ascii) : option Z :=
  match l with
  | [a] => if is_digit a then Some (digit_val a) else None
  | [a; b] =>
      if is_digit a && is_digit b
      then let v := 10 * digit_val a + digit_val b in
           if v <=? bound then Some v else None
      else None
  | _ => None
  end.

Definition strptime_HMS (s : string) : option time :=
  match split_aux ":"%char [] (chars s) with
  | [h; m; sec] =>
      match strptime_field 23 h, strptime_field 59 m, strptime_field 59 sec with
      | Some h', Some m', Some s' => Some (hms h' m' s')
      | _, _, _ => None
      end
  | _ => None
  end.

Definition strptime_HM (s : string) : option time :=
  match split_aux ":"%char [] (chars s) with
  | [h; m] =>
      match strptime_field 23 h, strptime_field 59 m with
      | Some h', Some m' => Some (hms h' m' 0)
      | _, _ => None
      end
  | _ => None
  end.

End Py.

(* ================================================================== *)
(** * redginger.py: the classifier *)
(* ================================================================== *)

Module RedGinger.
Import Py.

(** The body of [parse_time_string] for a string that contains a colon:
    [None] when [int] or [time(...)] raises. A fourth and later part of the
    split is ignored. *)
Definition parse_parts (s : string) : option time :=
  match split ":"%char s with
  | h :: m :: rest =>
      match int h, int m with
      | Some h', Some m' =>
          match rest with
          | sec :: _ =>
              match int sec with
              | Some s' => time_new h' m' s'
              | None => None
              end
          | [] => time_new h' m' 0
          end
      | _, _ => None
      end
  | _ => None
  end.

(** [parse_time_string]: midnight for a string without colon, for a value
    that is neither a string nor a time, and for any parsing error. *)
Definition parse_time_string (v : pyval) : time :=
  match v with
  | PyStr s =>
      if contains ":"%char s
      then match parse_parts s with
           | Some t => t
           | None => midnight
           end
      else midnight
  | PyTime t => t
  | _ => midnight
  end.

Definition grace_minutes : Z := 10.

(** [(datetime.combine(datetime.today(), shift_t) + timedelta(minutes=10)).time()]:
    the time of day ten minutes after [shift_t]; the sum is taken on the
    datetime, so it passes midnight into the next day and [.time()] drops
    the day. ([datetime.today()] is assumed not to be the last
    representable day, where the sum would overflow.) *)
Definition grace_time (shift_t : time) : time :=
  time_of (combine 0 shift_t + 60 * grace_minutes).

(** [calculate_punch_status(punch_time, shift_time, is_checkin)]. *)
Definition calculate_punch_status (punch_time shift_time : pyval) (is_checkin : bool)
  : string * string :=
  let punch_t := parse_time_string punch_time in
  let shift_t := parse_time_string shift_time in
  if is_checkin then
    if punch_t <=? grace_time shift_t then ("ontime", "") else ("late", "late")
  else
    if shift_t <=? punch_t then ("auto", "") else ("earlycheckout", "earlycheckout").



(** ** The tables

    [biometrics_master] and [test_tymeplususerpunchactions] live in the
    target database, [tymeplushr_attendance_logs] in the source database.
    The time columns are TIME columns: the driver hands them over as
    [datetime.time] values, which [parse_time_string] returns unchanged.
    The shift columns of the master table are kept as text ([str(...)] of
    them is the text itself); coordinates are kept as their decimal text. *)

Record biometrics := mk_biometrics {
  bm_shiftstarttime : string;
  bm_shiftendtime : string;
  bm_clientid : string;
  bm_employeeid : string;
  bm_fullname : string;
  bm_reportingmanager : string;
  bm_userid : string;
  bm_basedepartmentid : string;
  bm_overtimestatus : option string;
  bm_statusid : string
}.

(** An attendance record as the functions receive it (a dictionary with
    these four keys). *)
Record punch := mk_punch {
  user_id : string;
  punch_date : date;
  punch_time : time;
  punch_type : string
}.

Record log := mk_log {
  l_punch : punch;
  device_id : string;
  migration_status : string
}.

Record session := mk_session {
  userpunchactionid : Z;
  clientid : string;
  employeeid : string;
  fullname : string;
  shiftendtime : string;
  shiftstarttime : string;
  statusid : Z;
  reportingmanager : string;
  checkindate : option date;
  checkindatetime : option date;
  checkintime : option time;
  loginlatitude : string;
  loginlocationid : Z;
  loginlocationname : string;
  loginlongitude : string;
  overtimeid : option Z;
  punchinid : Z;
  punchinreason : string;
  punchinstatus : string;
  skipdistancechecking : bool;
  userid : string;
  departmentid : string;
  departmentname : string;
  checkoutdate : option date;
  checkouttime : option time;
  checkoutdatetime : option datetime;
  punchoutid : option Z;
  logoutlatitude : option string;
  logoutlocationid : option Z;
  logoutlocationname : option string;
  logoutlongitude : option string;
  punchoutreason : option string;
  punchoutstatus : option string
}.

(** [DEFAULT_VALUES] and [DEPARTMENT_MAP]. *)
Definition default_loginlatitude : string := "-1.2605476".
Definition default_loginlocationid : Z := 2.
Definition default_loginlocationname : string := "Red Ginger Eatery Ltd".
Definition default_loginlongitude : string := "36.816796".
Definition default_logoutlatitude : string := "-1.2605476".
Definition default_logoutlocationid : Z := 2.
Definition default_logoutlocationname : string := "Red Ginger Eatery Ltd".
Definition default_logoutlongitude : string := "36.816796".
Definition default_punchinid : Z := 1.
Definition default_punchoutid : Z := 2.
Definition default_skipdistancechecking : bool := false.
Definition default_statusid : Z := 1.

Definition DEPARTMENT_MAP (k : string) : string :=
  if String.eqb k "1" then "Service Bar"
  else if String.eqb k "2" then "Service Banda"
  else if String.eqb k "3" then "Kitchen"
  else if String.eqb k "4" then "Service Restaurant"
  else if String.eqb k "5" then "Back Office"
  else if String.eqb k "6" then "Management"
  else "Unknown".

(** [datetime(2025, 8, 1).date()]. *)
Definition min_date : date := 739464.

(** The next-day deadline of the forced checkout, ["05:00:00"]. *)
Definition auto_checkout_time : time := hms 5 0 0.

(** ** Column tests *)

Definition is_null {A} (o : option A) : bool :=
  match o with None => true | Some _ => false end.

Definition not_null {A} (o : option A) : bool := negb (is_null o).

(** SQL [col = value] on a nullable date column: never true on NULL. *)
Definition date_is (o : option date) (d : date) : bool :=
  match o with Some x => x =? d | None => false end.

Definition time_is (o : option time) (t : time) : bool :=
  match o with Some x => x =? t | None => false end.

(** SQL [col >= value]. *)
Definition date_geb (o : option date) (d : date) : bool :=
  match o with Some x => d <=? x | None => false end.

Definition date_ltb (o : option date) (d : date) : bool :=
  match o with Some x => x <? d | None => false end.

(** The value [parse_time_string] receives from a nullable TIME column. *)
Definition time_col (o : option time) : pyval :=
  match o with Some t => PyTime t | None => PyNone end.

(** ** The state of one processor

    The two databases, the sequence that numbers new session rows, and the
    processor's own fields. A record key is the tuple the code joins with
    underscores. *)

Definition record_key : Type := string * date * time * string.

Definition key_eqb (a b : record_key) : bool :=
  let '(u1, d1, t1, k1) := a in
  let '(u2, d2, t2, k2) := b in
  String.eqb u1 u2 && (d1 =? d2) && (t1 =? t2) && String.eqb k1 k2.

Record state := mk_state {
  logs : list log;
  actions : list session;
  next_id : Z;
  processed_records : list record_key;
  last_sync_time : option datetime
}.

Definition with_logs (st : state) (l : list log) : state :=
  mk_state l (actions st) (next_id st) (processed_records st) (last_sync_time st).

Definition with_actions (st : state) (a : list session) : state :=
  mk_state (logs st) a (next_id st) (processed_records st) (last_sync_time st).

Definition with_processed (st : state) (p : list record_key) : state :=
  mk_state (logs st) (actions st) (next_id st) p (last_sync_time st).

Definition with_last_sync_time (st : state) (t : option datetime) : state :=
  mk_state (logs st) (actions st) (next_id st) (processed_records st) t.

Definition create_record_key (u : string) (d : date) (t : time) (k : string) : record_key :=
  (u, d, t, k).

Definition is_processed (k : record_key) (st : state) : bool :=
  existsb (key_eqb k) (processed_records st).

Definition add_processed (k : record_key) (st : state) : state :=
  with_processed st (k :: processed_records st).

(** ** Sorting and grouping *)

Fixpoint insert_by {A} (leb : A -> A -> bool) (x : A) (l : list A) : list A :=
  match l with
  | [] => [x]
  | y :: r => if leb x y then x :: l else y :: insert_by leb x r
  end.

(** A stable sort, as [list.sort] is; the order an [ORDER BY] leaves open
    among equal keys is taken to be the table's. *)
Definition sort_by {A} (leb : A -> A -> bool) (l : list A) : list A :=
  fold_right (insert_by leb) [] l.

Fixpoint distinct (l : list string) : list string :=
  match l with
  | [] => []
  | x :: r => x :: filter (fun y => negb (String.eqb x y)) (distinct r)
  end.

(** [defaultdict(list)] filled from [records]: the users in the order of
    their first record, each with its records in order. *)
Definition group_by_user (records : list punch) : list (string * list punch) :=
  map (fun u => (u, filter (fun r => String.eqb (user_id r) u) records))
      (distinct (map user_id records)).

Definition is_checkin (r : punch) : bool := String.eqb (lower (punch_type r)) "checkin".
Definition is_checkout (r : punch) : bool := String.eqb (lower (punch_type r)) "checkout".

Definition date_time_leb (a b : punch) : bool :=
  (punch_date a <? punch_date b)
  || ((punch_date a =? punch_date b) && (punch_time a <=? punch_time b)).

Definition date_time_kind_leb (prio : punch -> Z) (a b : punch) : bool :=
  (punch_date a <? punch_date b)
  || ((punch_date a =? punch_date b)
      && ((punch_time a <? punch_time b)
          || ((punch_time a =? punch_time b) && (prio a <=? prio b)))).

(** [CASE WHEN punch_type = 'checkin' THEN 1 ELSE 2 END]. *)
Definition sql_prio (r : punch) : Z := if String.eqb (punch_type r) "checkin" then 1 else 2.

(** [0 if x['punch_type'].lower() == 'checkin' else 1]. *)
Definition py_prio (r : punch) : Z := if is_checkin r then 0 else 1.

(** ** Row updates *)

(** The [SET] list of the checkout [UPDATE] in [process_checkout]. *)
Definition set_checkout (t : time) (d : date) (dt : datetime)
    (reason status : string) (r : session) : session :=
  mk_session (userpunchactionid r) (clientid r) (employeeid r) (fullname r)
    (shiftendtime r) (shiftstarttime r) (statusid r) (reportingmanager r)
    (checkindate r) (checkindatetime r) (checkintime r)
    (loginlatitude r) (loginlocationid r) (loginlocationname r) (loginlongitude r)
    (overtimeid r) (punchinid r) (punchinreason r) (punchinstatus r)
    (skipdistancechecking r) (userid r) (departmentid r) (departmentname r)
    (Some d) (Some t) (Some dt)
    (Some default_punchoutid) (Some default_logoutlatitude)
    (Some default_logoutlocationid) (Some default_logoutlocationname)
    (Some default_logoutlongitude) (Some reason) (Some status).

(** The [SET ... = NULL] list of the two repairs in
    [validate_and_fix_time_anomalies]. *)
Definition clear_checkout (r : session) : session :=
  mk_session (userpunchactionid r) (clientid r) (employeeid r) (fullname r)
    (shiftendtime r) (shiftstarttime r) (statusid r) (reportingmanager r)
    (checkindate r) (checkindatetime r) (checkintime r)
    (loginlatitude r) (loginlocationid r) (loginlocationname r) (loginlongitude r)
    (overtimeid r) (punchinid r) (punchinreason r) (punchinstatus r)
    (skipdistancechecking r) (userid r) (departmentid r) (departmentname r)
    None None None None None None None None None None.

(** [UPDATE ... WHERE userpunchactionid = id] and [DELETE ... WHERE
    userpunchactionid = id]. *)
Definition update_by_id (id : Z) (f : session -> session) (rows : list session)
  : list session :=
  map (fun r => if userpunchactionid r =? id then f r else r) rows.

Definition delete_by_id (id : Z) (rows : list session) : list session :=
  filter (fun r => negb (userpunchactionid r =? id)) rows.

(** [UPDATE tymeplushr_attendance_logs SET migration_status = 'Yes' WHERE
    user_id = .. AND punch_date = .. AND punch_time = .. AND punch_type = ..]. *)
Definition same_punch (p : punch) (l : log) : bool :=
  String.eqb (user_id (l_punch l)) (user_id p)
  && (punch_date (l_punch l) =? punch_date p)
  && (punch_time (l_punch l) =? punch_time p)
  && String.eqb (punch_type (l_punch l)) (punch_type p).

Definition mark_migrated (p : punch) (ls : list log) : list log :=
  map (fun l => if same_punch p l then mk_log (l_punch l) (device_id l) "Yes" else l) ls.

Section Reconciler.

(** The master table is only read; the clock is read once per cycle. *)
Variable master : list biometrics.
Variable now : datetime.

(** ** Lookups *)

(** [get_biometrics_data]: the first active master row of the employee. *)
Definition get_biometrics_data (u : string) : option biometrics :=
  find (fun b => String.eqb (bm_employeeid b) u && String.eqb (bm_statusid b) "1") master.

(** [resolve_overtime_flag]; the query replaces a NULL status by ['no']. *)
Definition resolve_overtime_flag (b : biometrics) : Z :=
  let status := match bm_overtimestatus b with Some s => s | None => "no" end in
  if String.eqb (lower status) "yes" then 1 else 0.

(** [get_attendance_logs_by_date_range]: the pending logs of the range,
    the start raised to [min_date], in the query's order. *)
Definition get_attendance_logs_by_date_range (start_date end_date : date) (st : state)
  : list punch :=
  let start_date := if start_date <? min_date then min_date else start_date in
  sort_by (date_time_kind_leb sql_prio)
    (map l_punch
       (filter (fun l => (start_date <=? punch_date (l_punch l))
                         && (punch_date (l_punch l) <=? end_date)
                         && String.eqb (migration_status l) "No")
               (logs st))).

(** [validate_checkout_time_logic]. A NULL checkin date makes [combine]
    raise, and the handler answers [False]. *)
Definition validate_checkout_time_logic (checkin_date : option date) (checkin_time : pyval)
    (checkout_date : date) (checkout_time : pyval) : bool :=
  match checkin_date with
  | None => false
  | Some cd =>
      let checkin_dt := combine cd (parse_time_string checkin_time) in
      let checkout_dt := combine checkout_date (parse_time_string checkout_time) in
      if checkout_dt <=? checkin_dt then false
      else if (cd =? checkout_date) && (checkout_dt - checkin_dt <? 3600) then false
      else true
  end.

(** [find_checkout_for_checkin]: the earliest checkout log of the employee
    later on the checkin day, else, for a checkin day before today, the
    earliest one of the next day. The migration flag is not looked at. *)
Definition checkout_logs_on (u : string) (d : date) (st : state) : list punch :=
  filter (fun p => String.eqb (user_id p) u && String.eqb (punch_type p) "checkout"
                   && (punch_date p =? d))
         (map l_punch (logs st)).

Definition find_checkout_for_checkin (u : string) (checkin_date : date) (checkin_time : time)
    (st : state) : option punch :=
  let current_date := date_of now in
  match sort_by (fun a b => punch_time a <=? punch_time b)
          (filter (fun p => checkin_time <? punch_time p) (checkout_logs_on u checkin_date st)) with
  | same_day_checkout :: _ => Some same_day_checkout
  | [] =>
      if checkin_date <? current_date then
        match sort_by (fun a b => punch_time a <=? punch_time b)
                (checkout_logs_on u (checkin_date + 1) st) with
        | next_day_checkout :: _ => Some next_day_checkout
        | [] => None
        end
      else None
  end.

(** [ORDER BY checkindate DESC, checkintime DESC LIMIT 1] over rows of one
    checkin date: the greatest checkin time, NULL above every time. *)
Definition checkintime_geb (a b : option time) : bool :=
  match a, b with
  | None, _ => true
  | Some _, None => false
  | Some x, Some y => y <=? x
  end.

Definition latest_checkin (rows : list session) : option session :=
  fold_left (fun best r =>
               match best with
               | None => Some r
               | Some b => if checkintime_geb (checkintime b) (checkintime r)
                           then Some b else Some r
               end) rows None.

Definition open_sessions_on (u : string) (d : date) (st : state) : list session :=
  filter (fun r => String.eqb (employeeid r) u && date_is (checkindate r) d
                   && is_null (checkouttime r))
         (actions st).

(** [find_checkin_for_checkout]: the checkout day, the day before, two
    days before, in this order; the first of them whose latest open session
    starts before the checkout. *)
Fixpoint search_checkin (u : string) (checkout_date : date) (checkout_time : time)
    (search_dates : list date) (st : state) : option session :=
  match search_dates with
  | [] => None
  | search_date :: rest =>
      match latest_checkin (open_sessions_on u search_date st) with
      | Some checkin_record =>
          let checkin_datetime :=
            combine search_date (parse_time_string (time_col (checkintime checkin_record))) in
          let checkout_datetime := combine checkout_date (parse_time_string (PyTime checkout_time)) in
          if checkin_datetime <? checkout_datetime then Some checkin_record
          else search_checkin u checkout_date checkout_time rest st
      | None => search_checkin u checkout_date checkout_time rest st
      end
  end.

Definition find_checkin_for_checkout (u : string) (checkout_date : date) (checkout_time : time)
    (st : state) : option session :=
  search_checkin u checkout_date checkout_time
    [checkout_date; checkout_date - 1; checkout_date - 2] st.

(** ** [process_checkout] *)

Definition overtime_allowed (r : session) : bool :=
  match overtimeid r with Some z => negb (z =? 0) | None => false end.

(** The status and reason of lines 590-603. *)
Definition checkout_status (force_auto : bool) (punch_dt actual_shift_end : datetime)
    (overtime : bool) : string * string :=
  if force_auto then ("auto", "")
  else if punch_dt <? actual_shift_end then ("earlycheckout", "earlycheckout")
  else if overtime then ("overtime", "") else ("manual", "").

Definition checkout_exists (u : string) (d : date) (st : state) : bool :=
  existsb (fun r => String.eqb (employeeid r) u && date_is (checkoutdate r) d
                    && not_null (checkouttime r))
          (actions st).

Definition process_checkout (attendance_record : punch) (force_auto : bool) (st : state)
  : bool * state :=
  let u := user_id attendance_record in
  let pd := punch_date attendance_record in
  let pt := punch_time attendance_record in
  let key := create_record_key u pd pt "checkout" in
  if is_processed key st then (true, st)
  else
    match get_biometrics_data u with
    | None => (false, st)
    | Some biometrics =>
        if checkout_exists u pd st then (true, add_processed key st)
        else
          match find_checkin_for_checkout u pd pt st with
          | None => (false, st)
          | Some checkin_record =>
              if negb (validate_checkout_time_logic (checkindate checkin_record)
                         (time_col (checkintime checkin_record)) pd (PyTime pt))
              then (false, st)
              else
                match checkindate checkin_record with
                | None => (false, st)
                | Some cd =>
                    let actual_shift_end :=
                      combine cd (parse_time_string (PyStr (bm_shiftendtime biometrics))) in
                    let punch_dt := combine pd (parse_time_string (PyTime pt)) in
                    let '(punchout_status, punchout_reason) :=
                      checkout_status force_auto punch_dt actual_shift_end
                        (overtime_allowed checkin_record) in
                    (true,
                     add_processed key
                       (with_actions st
                          (update_by_id (userpunchactionid checkin_record)
                             (set_checkout pt pd punch_dt punchout_reason punchout_status)
                             (actions st))))
                end
          end
    end.

(** ** [process_checkin] *)

Definition session_exists (u : string) (d : date) (st : state) : bool :=
  existsb (fun r => String.eqb (employeeid r) u && date_is (checkindate r) d) (actions st).

Definition new_session (id : Z) (b : biometrics) (p : punch) (status reason : string)
  : session :=
  mk_session id (bm_clientid b) (bm_employeeid b) (bm_fullname b)
    (bm_shiftendtime b) (bm_shiftstarttime b) default_statusid (bm_reportingmanager b)
    (Some (punch_date p)) (Some (punch_date p)) (Some (punch_time p))
    default_loginlatitude default_loginlocationid default_loginlocationname
    default_loginlongitude
    (Some (resolve_overtime_flag b)) default_punchinid reason status
    default_skipdistancechecking (bm_userid b) (bm_basedepartmentid b)
    (DEPARTMENT_MAP (bm_basedepartmentid b))
    None None None None None None None None None None.

(** The forced checkout of lines 732-743. *)
Definition auto_checkout_record (u : string) (checkin_date : date) : punch :=
  mk_punch u (checkin_date + 1) auto_checkout_time "checkout".

Definition process_checkin (attendance_record : punch) (st : state) : bool * state :=
  let u := user_id attendance_record in
  let pd := punch_date attendance_record in
  let pt := punch_time attendance_record in
  let key := create_record_key u pd pt "checkin" in
  if is_processed key st then (true, st)
  else
    match get_biometrics_data u with
    | None => (false, st)
    | Some biometrics =>
        if session_exists u pd st then (true, add_processed key st)
        else
          let '(punch_status, punch_reason) :=
            calculate_punch_status (PyTime pt) (PyStr (bm_shiftstarttime biometrics)) true in
          let row := new_session (next_id st) biometrics attendance_record
                       punch_status punch_reason in
          let st1 :=
            add_processed key
              (mk_state (mark_migrated attendance_record (logs st))
                        (actions st ++ [row]) (next_id st + 1)
                        (processed_records st) (last_sync_time st)) in
          let current_date := date_of now in
          match find_checkout_for_checkin u pd pt st1 with
          | Some checkout_record => (true, snd (process_checkout checkout_record false st1))
          | None =>
              if pd =? current_date then (true, st1)
              else if combine (pd + 1) auto_checkout_time <? now
              then (true, snd (process_checkout (auto_checkout_record u pd) true st1))
              else (true, st1)
          end
    end.

(** ** The repair passes *)

(** A [GROUP BY employeeid, <date column>] key; NULL dates group together. *)
Definition group_key : Type := string * option date.

Definition group_key_eqb (a b : group_key) : bool :=
  String.eqb (fst a) (fst b)
  && match snd a, snd b with
     | Some x, Some y => x =? y
     | None, None => true
     | _, _ => false
     end.

Fixpoint distinct_keys (l : list group_key) : list group_key :=
  match l with
  | [] => []
  | k :: r => k :: filter (fun k' => negb (group_key_eqb k k')) (distinct_keys r)
  end.

(** [ORDER BY <date column> DESC]: NULL first. *)
Definition key_date_desc (a b : group_key) : bool :=
  match snd a, snd b with
  | None, _ => true
  | Some _, None => false
  | Some x, Some y => y <=? x
  end.

(** [GROUP BY ... HAVING COUNT( * ) > 1 ORDER BY <date column> DESC]. *)
Definition duplicate_groups (keys : list group_key) : list group_key :=
  sort_by key_date_desc
    (filter (fun k => 1 <? Z.of_nat (List.length (filter (group_key_eqb k) keys)))
            (distinct_keys keys)).

(** [SELECT MIN(userpunchactionid)]: NULL over no rows. *)
Definition min_id (rows : list session) : option Z :=
  fold_left (fun m r =>
               match m with
               | None => Some (userpunchactionid r)
               | Some x => Some (Z.min x (userpunchactionid r))
               end) rows None.

(** [DELETE ... WHERE sel AND userpunchactionid NOT IN (SELECT MIN(..) ...
    WHERE sel)]: [NOT IN (NULL)] deletes nothing. *)
Definition delete_all_but_min (sel : session -> bool) (rows : list session)
  : list session :=
  match min_id (filter sel rows) with
  | None => rows
  | Some m => filter (fun r => negb (sel r && negb (userpunchactionid r =? m))) rows
  end.

(** The row tests of the two [DELETE]s of [validate_and_cleanup_duplicates];
    an SQL equality with a NULL date selects nothing. *)
Definition open_on (k : group_key) (r : session) : bool :=
  match snd k with
  | Some d => String.eqb (employeeid r) (fst k) && date_is (checkindate r) d
              && is_null (checkouttime r)
  | None => false
  end.

Definition closed_on (k : group_key) (r : session) : bool :=
  match snd k with
  | Some d => String.eqb (employeeid r) (fst k) && date_is (checkoutdate r) d
              && not_null (checkouttime r)
  | None => false
  end.

Definition cleanup_open (rows : list session) : list session :=
  let duplicate_checkins :=
    duplicate_groups (map (fun r => (employeeid r, checkindate r))
                          (filter (fun r => is_null (checkouttime r)) rows)) in
  fold_left (fun rs k => delete_all_but_min (open_on k) rs) duplicate_checkins rows.

Definition cleanup_closed (rows : list session) : list session :=
  let duplicate_checkouts :=
    duplicate_groups (map (fun r => (employeeid r, checkoutdate r))
                          (filter (fun r => not_null (checkouttime r)) rows)) in
  fold_left (fun rs k => delete_all_but_min (closed_on k) rs) duplicate_checkouts rows.

(** [validate_and_cleanup_duplicates]: the open rows by checkin date, then
    the closed rows by checkout date. *)
Definition validate_and_cleanup_duplicates (st : state) : state :=
  with_actions st (cleanup_closed (cleanup_open (actions st))).

(** [validate_and_fix_time_anomalies]. *)
Definition same_day (r : session) : bool :=
  match checkindate r, checkoutdate r with
  | Some a, Some b => a =? b
  | _, _ => false
  end.

Definition time_anomaly (r : session) : bool :=
  match checkintime r, checkouttime r with
  | Some ci, Some co =>
      same_day r && (co <? ci) && date_geb (checkindate r) min_date
  | _, _ => false
  end.

Definition early_checkout_anomaly (r : session) : bool :=
  match checkintime r, checkouttime r with
  | Some ci, Some co =>
      same_day r && (co <? hms 6 0 0) && (hms 12 0 0 <=? ci)
      && date_geb (checkindate r) min_date
  | _, _ => false
  end.

Definition checkindate_desc (a b : session) : bool :=
  match checkindate a, checkindate b with
  | None, _ => true
  | Some _, None => false
  | Some x, Some y => y <=? x
  end.

(** One repair query with its loop of [UPDATE]s. *)
Definition clear_selected (sel : session -> bool) (rows : list session) : list session :=
  fold_left (fun rs anomaly => update_by_id (userpunchactionid anomaly) clear_checkout rs)
            (sort_by checkindate_desc (filter sel rows)) rows.

Definition validate_and_fix_time_anomalies (st : state) : state :=
  with_actions st
    (clear_selected early_checkout_anomaly (clear_selected time_anomaly (actions st))).

(** [find_and_fix_mismatched_data]: orphaned checkouts are deleted,
    incomplete rows are only reported, and rows with a checkin time are
    reduced to one per employee and checkin date. *)
Definition orphaned_checkout (r : session) : bool :=
  not_null (checkouttime r) && is_null (checkintime r)
  && date_geb (checkoutdate r) min_date.

Definition checkin_on (k : group_key) (r : session) : bool :=
  match snd k with
  | Some d => String.eqb (employeeid r) (fst k) && date_is (checkindate r) d
              && not_null (checkintime r)
  | None => false
  end.

Definition find_and_fix_mismatched_data (st : state) : state :=
  let rows := actions st in
  let rows1 :=
    fold_left (fun rs orphan => delete_by_id (userpunchactionid orphan) rs)
              (filter orphaned_checkout rows) rows in
  let duplicate_checkins :=
    filter (fun k => 1 <? Z.of_nat (List.length
              (filter (group_key_eqb k)
                 (map (fun r => (employeeid r, checkindate r))
                    (filter (fun r => not_null (checkintime r)
                                      && date_geb (checkindate r) min_date) rows1)))))
      (distinct_keys
         (map (fun r => (employeeid r, checkindate r))
            (filter (fun r => not_null (checkintime r)
                              && date_geb (checkindate r) min_date) rows1))) in
  with_actions st
    (fold_left (fun rs k => delete_all_but_min (checkin_on k) rs) duplicate_checkins rows1).

(** ** The per-date pass *)

(** The loop over one user's sorted records in [process_attendance_by_date];
    [processed_checkins] holds the dates whose checkin went through. *)
Fixpoint process_user_records (records : list punch) (processed_checkins : list date)
    (st : state) : state :=
  match records with
  | [] => st
  | record :: rest =>
      if is_checkin record then
        if existsb (Z.eqb (punch_date record)) processed_checkins
        then process_user_records rest processed_checkins st
        else
          let '(ok, st') := process_checkin record st in
          process_user_records rest
            (if ok then punch_date record :: processed_checkins else processed_checkins) st'
      else if is_checkout record then
        process_user_records rest processed_checkins (snd (process_checkout record false st))
      else process_user_records rest processed_checkins st
  end.

Definition process_attendance_by_date (target_date : date) (st : state) : state :=
  let all_records := get_attendance_logs_by_date_range target_date (target_date + 1) st in
  fold_left (fun s ur =>
               process_user_records (sort_by (date_time_kind_leb py_prio) (snd ur)) [] s)
            (group_by_user all_records) st.

(** ** The cross-day pass *)

(** The loop over one user's sorted records in [handle_cross_day_scenarios]:
    for a checkin, the first checkout of a later date among the next nine
    records ends the search. *)
Fixpoint cross_day_user (records : list punch) (st : state) : state :=
  match records with
  | [] => st
  | record :: rest =>
      let st' :=
        if is_checkin record then
          match find (fun c => is_checkout c && (punch_date record <? punch_date c))
                     (firstn 9 rest) with
          | Some checkout_record =>
              let checkin_dt :=
                combine (punch_date record) (parse_time_string (PyTime (punch_time record))) in
              let checkout_dt :=
                combine (punch_date checkout_record)
                        (parse_time_string (PyTime (punch_time checkout_record))) in
              if checkin_dt <? checkout_dt then
                let '(ok, st1) := process_checkin record st in
                if ok then snd (process_checkout checkout_record false st1) else st1
              else st
          | None => st
          end
        else st in
      cross_day_user rest st'
  end.

Definition handle_cross_day_scenarios (start_date end_date : date) (st : state) : state :=
  let all_records := get_attendance_logs_by_date_range start_date end_date st in
  fold_left (fun s ur => cross_day_user (sort_by date_time_leb (snd ur)) s)
            (group_by_user all_records) st.

(** ** The auto-checkout sweep *)

(** The first pending checkout log of the employee between the checkin day
    and the day after. *)
Definition pending_checkout (u : string) (checkin_date : date) (st : state) : option punch :=
  match sort_by date_time_leb
          (map l_punch
             (filter (fun l => String.eqb (user_id (l_punch l)) u
                               && String.eqb (punch_type (l_punch l)) "checkout"
                               && (checkin_date <=? punch_date (l_punch l))
                               && (punch_date (l_punch l) <=? checkin_date + 1)
                               && String.eqb (migration_status l) "No")
                     (logs st))) with
  | p :: _ => Some p
  | [] => None
  end.

Definition auto_checkout_exists (u : string) (d : date) (st : state) : bool :=
  existsb (fun r => String.eqb (employeeid r) u && date_is (checkoutdate r) d
                    && time_is (checkouttime r) auto_checkout_time)
          (actions st).

(** The body of the sweep's loop for one row of the snapshot. *)
Definition auto_checkout_step (st : state) (incomplete_record : session) : state :=
  match checkindate incomplete_record with
  | None => st
  | Some checkin_date =>
      let employee_id := employeeid incomplete_record in
      if combine (checkin_date + 1) auto_checkout_time <? now then
        match pending_checkout employee_id checkin_date st with
        | Some actual_checkout =>
            let '(ok, st') := process_checkout actual_checkout false st in
            if ok then with_logs st' (mark_migrated actual_checkout (logs st')) else st'
        | None =>
            if auto_checkout_exists employee_id (checkin_date + 1) st then st
            else snd (process_checkout (auto_checkout_record employee_id checkin_date) true st)
        end
      else st
  end.

Definition process_auto_checkouts_for_incomplete_records (st : state) : state :=
  let current_date := date_of now in
  let incomplete_records :=
    sort_by checkindate_desc
      (filter (fun r => is_null (checkouttime r) && date_geb (checkindate r) min_date
                        && date_ltb (checkindate r) current_date)
              (actions st)) in
  fold_left auto_checkout_step incomplete_records st.

(** ** The driver *)

Definition get_date_range_to_process (st : state) : date * date :=
  let start_date :=
    match last_sync_time st with
    | Some t => Z.max (date_of t) min_date
    | None => min_date
    end in
  (start_date, date_of now).

(** [while current_date <= end_date]: [n] is the number of days left. *)
Fixpoint process_dates (n : nat) (current_date : date) (st : state) : state :=
  match n with
  | O => st
  | S n' => process_dates n' (current_date + 1) (process_attendance_by_date current_date st)
  end.

(** [sync_incremental]. *)
Definition sync_incremental (st : state) : state :=
  let st1 := find_and_fix_mismatched_data st in
  let st2 := validate_and_fix_time_anomalies st1 in
  let '(start_date, end_date) := get_date_range_to_process st2 in
  let st4 := handle_cross_day_scenarios start_date end_date st2 in
  let st5 := process_dates (Z.to_nat (end_date - start_date + 1)) start_date st4 in
  let st6 := process_auto_checkouts_for_incomplete_records st5 in
  let st7 := validate_and_cleanup_duplicates st6 in
  with_last_sync_time st7 (Some now).

End Reconciler.

End RedGinger.
(* ================================================================== *)
(** * westlands.py: the classifier *)
(* ================================================================== *)

Module Westlands.
Import Py.

(** The nested [parse_time]: [strip], then [%H:%M:%S], then [%H:%M].
    [None] stands for the exception that leaves [calculate_punch_status]'s
    [try] block: [AttributeError] for a value without [strip],
    [ValueError] for a string in neither format. *)
Definition parse_time (v : pyval) : option time :=
  match v with
  | PyStr s =>
      let s' := strip s in
      match strptime_HMS s' with
      | Some t => Some t
      | None => strptime_HM s'
      end
  | _ => None
  end.

(** The conversion of [overtime_allowed] to a boolean; [None] when
    [int(val)] raises (a string of digits that is not a decimal literal). *)
Definition overtime_flag (overtime_allowed : pyval) : option bool :=
  match overtime_allowed with
  | PyStr s =>
      let val := lower (strip s) in
      if isdigit val
      then option_map (fun z => negb (z =? 0)) (int val)
      else Some (String.eqb val "yes" || String.eqb val "true" || String.eqb val "1")
  | v => Some (truthy v)
  end.

(** The [try] block of [calculate_punch_status]. The outer [option] is
    [None] when an exception is raised; the inner one is [None] when the
    block ends without a [return] (a punch type that is neither checkin nor
    checkout), and Python then returns [None]. *)
Definition calculate_punch_status_body
    (punch_time shift_start_time : pyval) (punch_type : string)
    (shift_end_time overtime_allowed : pyval)
  : option (option (string * string)) :=
  match parse_time punch_time with
  | None => None
  | Some punch_time_obj =>
      if String.eqb (lower punch_type) "checkin" then
        match parse_time shift_start_time with
        | None => None
        | Some shift_start_time_obj =>
            if punch_time_obj <=? shift_start_time_obj
            then Some (Some ("ontime", "ontime"))
            else Some (Some ("late", "late"))
        end
      else if String.eqb (lower punch_type) "checkout" then
        if negb (truthy shift_end_time) then Some (Some ("manual", "manual"))
        else
          match parse_time shift_end_time with
          | None => None
          | Some shift_end_time_obj =>
              match overtime_flag overtime_allowed with
              | None => None
              | Some flag =>
                  if punch_time_obj <? shift_end_time_obj
                  then Some (Some ("earlycheckout", "earlycheckout"))
                  else if shift_end_time_obj <=? punch_time_obj
                  then if flag then Some (Some ("overtime", "overtime"))
                       else Some (Some ("manual", "manual"))
                  else Some None
              end
          end
      else Some None
  end.

(** [calculate_punch_status(punch_time, shift_start_time, punch_type,
    shift_end_time=None, overtime_allowed=False)] with its handler. *)
Definition calculate_punch_status
    (punch_time shift_start_time : pyval) (punch_type : string)
    (shift_end_time overtime_allowed : pyval)
  : option (string * string) :=
  match calculate_punch_status_body punch_time shift_start_time punch_type
          shift_end_time overtime_allowed with
  | Some r => r
  | None =>
      if String.eqb (lower punch_type) "checkin" then Some ("late", "late")
      else Some ("manual", "manual")
  end.



(** ** The tables and the collaborators

    [tymeplushr_attendance_logs] (source) and [tymeplususerpunchactions]
    (target) have the columns redginger.py uses; here the punch times are
    kept as the driver hands them over, since the classifier calls [strip]
    on them and the pipeline formats them into the datetime texts. A
    datetime text [f"{date}T{time}.000Z"] is kept as the pair it is built
    from. The master table and the two DynamoDB tables are read-only
    lookups. *)

Record bio_data := mk_bio_data {
  bd_statusid : string;
  bd_reportingmanager : string;
  bd_overtimestatus : string;
  bd_fullname : string;
  bd_employeeid : string;
  bd_basedepartmentid : string;
  bd_userid : string;
  bd_clientid : string
}.

Record shift_data := mk_shift_data {
  starttime : pyval;
  endtime : pyval
}.

Record log := mk_log {
  user_id : string;
  punch_date : date;
  punch_time : pyval;
  punch_type : string;
  migration_status : string;
  device_id : string
}.

Record session := mk_session {
  clientid : string;
  employeeid : string;
  fullname : string;
  shiftendtime : pyval;
  shiftstarttime : pyval;
  statusid : Z;
  reportingmanager : string;
  checkindate : option date;
  checkindatetime : option (date * pyval);
  checkintime : option pyval;
  loginlatitude : string;
  loginlocationid : Z;
  loginlocationname : string;
  loginlongitude : string;
  overtimeid : option Z;
  punchinid : Z;
  punchoutid : option Z;
  punchinreason : string;
  punchinstatus : string;
  skipdistancechecking : bool;
  userid : string;
  departmentid : string;
  departmentname : string;
  checkoutdate : option date;
  checkouttime : option pyval;
  checkoutdatetime : option (date * pyval);
  logoutlatitude : option string;
  logoutlocationid : option Z;
  logoutlocationname : option string;
  logoutlongitude : option string;
  punchoutreason : option string;
  punchoutstatus : option string
}.

Definition DEVICE_ID : string := "GED7243200199".
Definition AUTO_CHECKOUT_TIME : string := "21:00".

Definition default_loginlatitude : string := "10.7904833".
Definition default_loginlocationid : Z := 2.
Definition default_loginlocationname : string := "Kenrail Towers".
Definition default_loginlongitude : string := "78.7046725".
Definition default_logoutlatitude : string := "10.7904833".
Definition default_logoutlocationid : Z := 2.
Definition default_logoutlocationname : string := "Kenrail Towers".
Definition default_logoutlongitude : string := "78.7046725".
Definition default_punchinid : Z := 1.
Definition default_skipdistancechecking : bool := false.
Definition default_statusid : Z := 1.

Definition DEPARTMENT_MAP (k : string) : string :=
  if String.eqb k "1" then "Reception"
  else if String.eqb k "2" then "OPD1"
  else if String.eqb k "3" then "OPD2"
  else if String.eqb k "4" then "Consultant"
  else if String.eqb k "5" then "OT"
  else if String.eqb k "6" then "Insurance"
  else if String.eqb k "7" then "Optical"
  else if String.eqb k "8" then "House Keeping"
  else if String.eqb k "9" then "Driver"
  else if String.eqb k "10" then "Accounts"
  else "".

Record state := mk_state {
  logs : list log;
  actions : list session
}.

Definition date_is (o : option date) (d : date) : bool :=
  match o with Some x => x =? d | None => false end.

Definition is_null {A} (o : option A) : bool :=
  match o with None => true | Some _ => false end.

(** The [SET] list shared by [update_checkout] and [auto_checkout]. *)
Definition set_checkout (t : pyval) (d : date) (dt : date * pyval)
    (reason status : string) (r : session) : session :=
  mk_session (clientid r) (employeeid r) (fullname r) (shiftendtime r) (shiftstarttime r)
    (statusid r) (reportingmanager r) (checkindate r) (checkindatetime r) (checkintime r)
    (loginlatitude r) (loginlocationid r) (loginlocationname r) (loginlongitude r)
    (overtimeid r) (punchinid r) (Some 2) (punchinreason r) (punchinstatus r)
    (skipdistancechecking r) (userid r) (departmentid r) (departmentname r)
    (Some d) (Some t) (Some dt)
    (Some default_logoutlatitude) (Some default_logoutlocationid)
    (Some default_logoutlocationname) (Some default_logoutlongitude)
    (Some reason) (Some status).

Section Pipeline.

Variable get_biometrics_master_data : string -> option bio_data.
Variable get_shift_allocation : string -> date -> option Z.
Variable get_shift_management : Z -> option shift_data.

(** [check_existing_checkin]: the first session of the user on the date. *)
Definition check_existing_checkin (u : string) (d : date) (st : state) : option session :=
  find (fun r => String.eqb (userid r) u && date_is (checkindate r) d) (actions st).

(** [insert_checkin]; the classifier answers for every checkin, the
    fall-back pair stands for the [None] it cannot return here. *)
Definition insert_checkin (bio : bio_data) (shift : shift_data) (log_data : log)
    (st : state) : state :=
  let '(punch_status, punch_reason) :=
    match calculate_punch_status (punch_time log_data) (starttime shift) "checkin"
            PyNone (PyBool false) with
    | Some p => p
    | None => ("late", "late")
    end in
  let overtime_id := if String.eqb (lower (bd_overtimestatus bio)) "yes" then 1 else 0 in
  let row :=
    mk_session (bd_clientid bio) (bd_employeeid bio) (bd_fullname bio)
      (endtime shift) (starttime shift) default_statusid (bd_reportingmanager bio)
      (Some (punch_date log_data)) (Some (punch_date log_data, punch_time log_data))
      (Some (punch_time log_data))
      default_loginlatitude default_loginlocationid default_loginlocationname
      default_loginlongitude (Some overtime_id) default_punchinid (Some 0)
      punch_reason punch_status default_skipdistancechecking (bd_userid bio)
      (bd_basedepartmentid bio) (DEPARTMENT_MAP (bd_basedepartmentid bio))
      None None None None None None None None None in
  mk_state (logs st) (actions st ++ [row]).

(** [update_checkout]: the [UPDATE] reaches every session of the user and
    checkin date. *)
Definition update_checkout (u : string) (checkin_date : date) (log_data : log)
    (shift : shift_data) (overtime_allowed : bool) (st : state) : state :=
  let '(punch_status, punch_reason) :=
    match calculate_punch_status (punch_time log_data) (starttime shift) "checkout"
            (endtime shift) (PyBool overtime_allowed) with
    | Some p => p
    | None => ("manual", "manual")
    end in
  mk_state (logs st)
    (map (fun r => if String.eqb (userid r) u && date_is (checkindate r) checkin_date
                   then set_checkout (punch_time log_data) (punch_date log_data)
                          (punch_date log_data, punch_time log_data)
                          punch_reason punch_status r
                   else r)
         (actions st)).

(** [auto_checkout]: the open sessions of the user and date are closed at
    21:00 of the checkin date, with status and reason ['auto checkout']. *)
Definition auto_checkout (u : string) (checkin_date : date) (st : state) : state :=
  mk_state (logs st)
    (map (fun r => if String.eqb (userid r) u && date_is (checkindate r) checkin_date
                      && is_null (checkouttime r)
                   then set_checkout (PyStr AUTO_CHECKOUT_TIME) checkin_date
                          (checkin_date, PyStr (AUTO_CHECKOUT_TIME ++ ":00"))
                          "auto checkout" "auto checkout" r
                   else r)
         (actions st)).

(** [update_migration_status]: every log of the employee, date and type. *)
Definition update_migration_status (employee_id : string) (d : date)
    (kind status : string) (st : state) : state :=
  mk_state
    (map (fun l => if String.eqb (user_id l) employee_id && (punch_date l =? d)
                      && String.eqb (punch_type l) kind
                   then mk_log (user_id l) (punch_date l) (punch_time l) (punch_type l)
                          status (device_id l)
                   else l)
         (logs st))
    (actions st).

(** A loop that issues the same [update_migration_status] once per log. *)
Definition mark_each (ls : list log) (employee_id : string) (d : date)
    (kind status : string) (st : state) : state :=
  fold_left (fun s _ => update_migration_status employee_id d kind status s) ls st.

Definition overtime_truthy (o : option Z) : bool :=
  match o with Some z => negb (z =? 0) | None => false end.

Definition has_checkout (r : session) : bool :=
  match checkouttime r with Some v => truthy v | None => false end.

(** [process_user_attendance]. *)
Definition process_user_attendance (user_logs : list log) (current_date : date)
    (st : state) : state :=
  match user_logs with
  | [] => st
  | first :: _ =>
      let employee_id := user_id first in
      match get_biometrics_master_data employee_id with
      | None => st
      | Some bio =>
          if negb (String.eqb (bd_statusid bio) "1") then st
          else
            let u := bd_userid bio in
            match get_shift_allocation u current_date with
            | None => st
            | Some shift_id =>
                match get_shift_management shift_id with
                | None => st
                | Some shift =>
                    let checkin_logs :=
                      filter (fun l => String.eqb (lower (punch_type l)) "checkin") user_logs in
                    let checkout_logs :=
                      filter (fun l => String.eqb (lower (punch_type l)) "checkout") user_logs in
                    let st1 :=
                      match checkin_logs with
                      | [] => st
                      | first_checkin :: extra =>
                          match check_existing_checkin u current_date st with
                          | None =>
                              let s1 := insert_checkin bio shift first_checkin st in
                              let s2 := update_migration_status employee_id current_date
                                          "checkin" "Yes" s1 in
                              mark_each extra employee_id current_date "checkin" "Duplicate" s2
                          | Some _ =>
                              mark_each checkin_logs employee_id current_date
                                "checkin" "Duplicate" st
                          end
                      end in
                    match check_existing_checkin u current_date st1, checkout_logs with
                    | Some existing_record, first_checkout :: extra =>
                        if negb (has_checkout existing_record) then
                          let s1 := update_checkout u current_date first_checkout shift
                                      (overtime_truthy (overtimeid existing_record)) st1 in
                          let s2 := update_migration_status employee_id current_date
                                      "checkout" "Yes" s1 in
                          mark_each extra employee_id current_date "checkout" "Duplicate" s2
                        else
                          mark_each checkout_logs employee_id current_date
                            "checkout" "Duplicate" st1
                    | _, _ => st1
                    end
                end
            end
      end
  end.

(** [process_auto_checkouts]: from 21:00 on, every session of the current
    date without checkout is closed by [auto_checkout]. [now_time] is the
    time of day of the clock. *)
Definition process_auto_checkouts (now_time : time) (current_date : date) (st : state)
  : state :=
  match strptime_HM AUTO_CHECKOUT_TIME with
  | Some auto_checkout_dt =>
      if now_time <? auto_checkout_dt then st
      else
        fold_left (fun s record =>
                     match checkindate record with
                     | Some d => auto_checkout (userid record) d s
                     | None => s
                     end)
                  (filter (fun r => date_is (checkindate r) current_date
                                    && is_null (checkouttime r))
                          (actions st))
                  st
  | None => st
  end.

End Pipeline.

(** ** The run *)

Fixpoint insert_by {A} (leb : A -> A -> bool) (x : A) (l : list A) : list A :=
  match l with
  | [] => [x]
  | y :: r => if leb x y then x :: l else y :: insert_by leb x r
  end.

(** A stable sort for the [ORDER BY] of the fetch. *)
Definition sort_by {A} (leb : A -> A -> bool) (l : list A) : list A :=
  fold_right (insert_by leb) [] l.

Fixpoint distinct (l : list string) : list string :=
  match l with
  | [] => []
  | x :: r => x :: filter (fun y => negb (String.eqb x y)) (distinct r)
  end.

Section Run.

Variable get_biometrics_master_data : string -> option bio_data.
Variable get_shift_allocation : string -> date -> option Z.
Variable get_shift_management : Z -> option shift_data.

(** The order of the values of the punch time column. *)
Variable punch_time_leb : pyval -> pyval -> bool.

Definition user_time_leb (a b : log) : bool :=
  match String.compare (user_id a) (user_id b) with
  | Lt => true
  | Eq => punch_time_leb (punch_time a) (punch_time b)
  | Gt => false
  end.

(** [fetch_attendance_logs]: every log of the device and date, whatever
    its migration flag, [ORDER BY user_id, punch_time]. *)
Definition fetch_attendance_logs (d : date) (st : state) : list log :=
  sort_by user_time_leb
    (filter (fun l => String.eqb (device_id l) DEVICE_ID && (punch_date l =? d)) (logs st)).

(** [run]: [current_date] is the date and [now_time] the time of day of the
    clock. Without a log of the day the run ends before the auto
    checkouts. *)
Definition run (current_date : date) (now_time : time) (st : state) : state :=
  let attendance_logs := fetch_attendance_logs current_date st in
  match attendance_logs with
  | [] => st
  | _ :: _ =>
      let st1 :=
        fold_left
          (fun s u =>
             process_user_attendance get_biometrics_master_data get_shift_allocation
               get_shift_management
               (filter (fun l => String.eqb (user_id l) u) attendance_logs) current_date s)
          (distinct (map user_id attendance_logs)) st in
      process_auto_checkouts now_time current_date st1
  end.

End Run.

End Westlands.

(* ================================================================== *)
(** * westlands-break.py: the break ETL *)
(* ================================================================== *)

Module WestlandsBreak.
Import Py.

Definition DEVICE_ID : string := "GED7243200199".
Definition CLIENT_ID : string := "WEKOQEJ".
Definition BREAK_ID_DEFAULT : Z := 1.
Definition PUNCHIN_ID_DEFAULT : Z := 3.
Definition PUNCHOUT_ID_DEFAULT : Z := 4.
Definition AUTO_BREAK_START : time := hms 13 0 0.
Definition AUTO_BREAK_DURATION_MIN : Z := 30.

(** A row of [tymeplushr_attendance_logs]; the punch time is the value the
    driver hands over. *)
Record log := mk_log {
  user_id : string;
  punch_type : string;
  punch_date : date;
  punch_time : pyval;
  migration_status : string;
  device_id : string
}.

(** The columns [fetch_user_punch_actions] and [process_type2] read from
    [tymeplususerpunchactions]. *)
Record punch_action := mk_punch_action {
  pa_userid : string;
  pa_employeeid : string;
  pa_fullname : string;
  pa_departmentid : string;
  pa_departmentname : string;
  pa_reportingmanager : string;
  pa_checkindate : option date
}.

(** A row of [tymeplususerbreak]. *)
Record break_row := mk_break_row {
  userid : string;
  breakpunchactionid : Z;
  employeeid : string;
  clientid : string;
  fullname : string;
  departmentid : string;
  departmentname : string;
  breakid : Z;
  breakpunchinid : Z;
  breakstartdatetime : datetime;
  breakstartdate : date;
  breakstarttime : time;
  reportingmanager : string;
  breakpunchoutid : Z;
  breakenddatetime : datetime;
  breakenddate : date;
  breakendtime : time;
  break_status : string
}.

Record state := mk_state {
  logs : list log;
  punch_actions : list punch_action;
  breaks : list break_row
}.

Definition pyval_eqb (a b : pyval) : bool :=
  match a, b with
  | PyNone, PyNone => true
  | PyBool x, PyBool y => Bool.eqb x y
  | PyInt x, PyInt y => x =? y
  | PyStr x, PyStr y => String.eqb x y
  | PyTime x, PyTime y => x =? y
  | _, _ => false
  end.

Fixpoint insert_by {A} (leb : A -> A -> bool) (x : A) (l : list A) : list A :=
  match l with
  | [] => [x]
  | y :: r => if leb x y then x :: l else y :: insert_by leb x r
  end.

(** A stable sort, as [list.sort] is. *)
Definition sort_by {A} (leb : A -> A -> bool) (l : list A) : list A :=
  fold_right (insert_by leb) [] l.

Fixpoint distinct (l : list string) : list string :=
  match l with
  | [] => []
  | x :: r => x :: filter (fun y => negb (String.eqb x y)) (distinct r)
  end.

Section ETL.

(** [TODAY], the answer of [is_end_of_day()], [dt.time.fromisoformat] with
    its [dt.datetime.fromisoformat] fall-back ([None]: both raise
    [ValueError]), and the order of the punch time column's values. *)
Variable TODAY : date.
Variable end_of_day : bool.
Variable fromisoformat : string -> option time.
Variable punch_time_leb : pyval -> pyval -> bool.

(** [_to_time]: [None] stands for [TypeError]. *)
Definition to_time (val : pyval) : option time :=
  match val with
  | PyTime t => Some t
  | PyStr s => fromisoformat s
  | _ => None
  end.

(** [next_breakpunchactionid]: [COALESCE(MAX(breakpunchactionid), 0) + 1]. *)
Definition next_breakpunchactionid (st : state) : Z :=
  fold_left (fun m b => Z.max m (breakpunchactionid b)) (breaks st) 0 + 1.

(** [fetch_attendance_break_logs]. *)
Definition is_break_punch (l : log) : bool :=
  String.eqb (device_id l) DEVICE_ID && (punch_date l =? TODAY)
  && String.eqb (migration_status l) "No"
  && (String.eqb (punch_type l) "breakin" || String.eqb (punch_type l) "breakout").

Definition user_time_leb (a b : log) : bool :=
  match String.compare (user_id a) (user_id b) with
  | Lt => true
  | Eq => punch_time_leb (punch_time a) (punch_time b)
  | Gt => false
  end.

Definition fetch_attendance_break_logs (st : state) : list log :=
  sort_by user_time_leb (filter is_break_punch (logs st)).

(** [user_meta.get(uid)]: of the punch actions of the employee and day the
    dictionary keeps the last. *)
Definition user_meta (uid : string) (st : state) : option punch_action :=
  find (fun r => String.eqb (pa_employeeid r) uid
                 && match pa_checkindate r with Some d => d =? TODAY | None => false end)
       (rev (punch_actions st)).

Definition existing_break_for_day (emp : string) (st : state) : bool :=
  existsb (fun b => String.eqb (employeeid b) emp && (breakstartdate b =? TODAY))
          (breaks st).

Definition insert_break (meta : punch_action) (start_dt end_dt : datetime)
    (status : string) (st : state) : state :=
  mk_state (logs st) (punch_actions st)
    (breaks st ++
     [mk_break_row (pa_userid meta) (next_breakpunchactionid st) (pa_employeeid meta)
        CLIENT_ID (pa_fullname meta) (pa_departmentid meta) (pa_departmentname meta)
        BREAK_ID_DEFAULT PUNCHIN_ID_DEFAULT start_dt (date_of start_dt) (time_of start_dt)
        (pa_reportingmanager meta) PUNCHOUT_ID_DEFAULT end_dt (date_of end_dt)
        (time_of end_dt) status]).

Definition mark_attendance_migrated (uid : string) (ptime : pyval) (st : state) : state :=
  mk_state
    (map (fun l => if String.eqb (user_id l) uid && (punch_date l =? TODAY)
                      && pyval_eqb (punch_time l) ptime
                      && String.eqb (device_id l) DEVICE_ID
                   then mk_log (user_id l) (punch_type l) (punch_date l) (punch_time l)
                          "Yes" (device_id l)
                   else l)
         (logs st))
    (punch_actions st) (breaks st).

(** The body of the loop of [process_type1] for one user and the punches
    the fetch grouped under it; [None] when [_to_time] raises. *)
Definition process_user (uid : string) (punches : list log) (st : state) : option state :=
  match user_meta uid st with
  | None => Some st
  | Some meta =>
      if existing_break_for_day uid st then Some st
      else
        match sort_by (fun a b => punch_time_leb (punch_time a) (punch_time b)) punches with
        | first_punch :: second_punch :: _ =>
            match to_time (punch_time first_punch) with
            | None => None
            | Some start_time =>
                match to_time (punch_time second_punch) with
                | None => None
                | Some end_time =>
                    let start_dt := combine (punch_date first_punch) start_time in
                    let end_dt := combine (punch_date second_punch) end_time in
                    if (start_dt <? end_dt) && (end_dt <=? start_dt + 2 * 3600)
                    then Some (mark_attendance_migrated uid (punch_time second_punch)
                                 (mark_attendance_migrated uid (punch_time first_punch)
                                    (insert_break meta start_dt end_dt "manual" st)))
                    else Some st
                end
            end
        | [single_punch] =>
            match to_time (punch_time single_punch) with
            | None => None
            | Some start_time =>
                let start_dt := combine (punch_date single_punch) start_time in
                if end_of_day then
                  let end_dt := start_dt + 60 * AUTO_BREAK_DURATION_MIN in
                  Some (mark_attendance_migrated uid (punch_time single_punch)
                          (insert_break meta start_dt end_dt "auto" st))
                else Some st
            end
        | [] => Some st
        end
  end.

Fixpoint process_users (logs0 : list log) (uids : list string) (st : state) : option state :=
  match uids with
  | [] => Some st
  | uid :: rest =>
      match process_user uid (filter (fun l => String.eqb (user_id l) uid) logs0) st with
      | None => None
      | Some st' => process_users logs0 rest st'
      end
  end.

(** [process_type1]: the logs are fetched and grouped once, the users
    follow in the order of their first log. [None]: an exception left the
    function, and the enclosing transactions are rolled back. *)
Definition process_type1 (st : state) : option state :=
  let logs0 := fetch_attendance_break_logs st in
  process_users logs0 (distinct (map user_id logs0)) st.

(** [process_type2]: at the end of the day every employee checked in today
    without a break gets the break 13:00-13:30 with status auto. *)
Definition process_type2 (st : state) : state :=
  if negb end_of_day then st
  else
    fold_left (fun s meta =>
                 if existing_break_for_day (pa_employeeid meta) s then s
                 else
                   let start_dt := combine TODAY AUTO_BREAK_START in
                   insert_break meta start_dt (start_dt + 60 * AUTO_BREAK_DURATION_MIN)
                     "auto" s)
              (filter (fun r => match pa_checkindate r with
                                | Some d => d =? TODAY
                                | None => false
                                end)
                      (punch_actions st))
              st.

End ETL.

(** [main]: both steps inside the two transactions; [None]: an exception
    left [process_type1], nothing is committed. [is_end_of_day()] is asked
    by each step for itself. *)
Definition main (TODAY : date) (end_of_day1 end_of_day2 : bool)
    (fromisoformat : string -> option time) (punch_time_leb : pyval -> pyval -> bool)
    (st : state) : option state :=
  match process_type1 TODAY end_of_day1 fromisoformat punch_time_leb st with
  | Some st1 => Some (process_type2 TODAY end_of_day2 st1)
  | None => None
  end.

End WestlandsBreak.

(* ================================================================== *)
(** * Properties of session rows used in the statements *)
(* ================================================================== *)

Module Props.
Import Py RedGinger.

(** The primary key of the session table. *)
Definition unique_ids (rows : list session) : Prop :=
  NoDup (map userpunchactionid rows).

(** [r'] carries the identity, master and checkin columns of [r]: every
    column but the ten checkout columns. *)
Definition same_checkin_columns (r r' : session) : Prop :=
  userpunchactionid r' = userpunchactionid r
  /\ clientid r' = clientid r
  /\ employeeid r' = employeeid r
  /\ fullname r' = fullname r
  /\ shiftendtime r' = shiftendtime r
  /\ shiftstarttime r' = shiftstarttime r
  /\ statusid r' = statusid r
  /\ reportingmanager r' = reportingmanager r
  /\ checkindate r' = checkindate r
  /\ checkindatetime r' = checkindatetime r
  /\ checkintime r' = checkintime r
  /\ loginlatitude r' = loginlatitude r
  /\ loginlocationid r' = loginlocationid r
  /\ loginlocationname r' = loginlocationname r
  /\ loginlongitude r' = loginlongitude r
  /\ overtimeid r' = overtimeid r
  /\ punchinid r' = punchinid r
  /\ punchinreason r' = punchinreason r
  /\ punchinstatus r' = punchinstatus r
  /\ skipdistancechecking r' = skipdistancechecking r
  /\ userid r' = userid r
  /\ departmentid r' = departmentid r
  /\ departmentname r' = departmentname r.

(** The ten checkout columns are NULL. *)
Definition checkout_columns_null (r : session) : Prop :=
  checkoutdate r = None /\ checkouttime r = None /\ checkoutdatetime r = None
  /\ punchoutid r = None /\ logoutlatitude r = None /\ logoutlocationid r = None
  /\ logoutlocationname r = None /\ logoutlongitude r = None
  /\ punchoutreason r = None /\ punchoutstatus r = None.

(** The two repair conditions of the scanner, as the queries state them. *)
Definition checkout_before_checkin (r : session) : Prop :=
  exists d ci co,
    checkindate r = Some d /\ checkoutdate r = Some d
    /\ checkintime r = Some ci /\ checkouttime r = Some co
    /\ co < ci.

Definition predawn_checkout (r : session) : Prop :=
  exists d ci co,
    checkindate r = Some d /\ checkoutdate r = Some d
    /\ checkintime r = Some ci /\ checkouttime r = Some co
    /\ hms 12 0 0 <= ci /\ co < hms 6 0 0.

Definition from_min_date (r : session) : Prop :=
  exists d, checkindate r = Some d /\ min_date <= d.

(** The ways [process_checkout] ends, in the order of its tests. *)
Inductive checkout_outcome (master : list biometrics) (rec : punch) (force_auto : bool)
    (st : state) : bool * state -> Prop :=
| checkout_seen :
    is_processed (create_record_key (user_id rec) (punch_date rec) (punch_time rec) "checkout") st
    = true ->
    checkout_outcome master rec force_auto st (true, st)
| checkout_no_master :
    get_biometrics_data master (user_id rec) = None ->
    checkout_outcome master rec force_auto st (false, st)
| checkout_absorbed :
    checkout_exists (user_id rec) (punch_date rec) st = true ->
    checkout_outcome master rec force_auto st
      (true,
       add_processed
         (create_record_key (user_id rec) (punch_date rec) (punch_time rec) "checkout") st)
| checkout_deferred :
    find_checkin_for_checkout (user_id rec) (punch_date rec) (punch_time rec) st = None ->
    checkout_outcome master rec force_auto st (false, st)
| checkout_rejected checkin_record :
    find_checkin_for_checkout (user_id rec) (punch_date rec) (punch_time rec) st
    = Some checkin_record ->
    validate_checkout_time_logic (checkindate checkin_record)
      (time_col (checkintime checkin_record)) (punch_date rec) (PyTime (punch_time rec))
    = false ->
    checkout_outcome master rec force_auto st (false, st)
| checkout_applied biometrics checkin_record cd :
    is_processed (create_record_key (user_id rec) (punch_date rec) (punch_time rec) "checkout") st
    = false ->
    get_biometrics_data master (user_id rec) = Some biometrics ->
    checkout_exists (user_id rec) (punch_date rec) st = false ->
    find_checkin_for_checkout (user_id rec) (punch_date rec) (punch_time rec) st
    = Some checkin_record ->
    validate_checkout_time_logic (checkindate checkin_record)
      (time_col (checkintime checkin_record)) (punch_date rec) (PyTime (punch_time rec))
    = true ->
    checkindate checkin_record = Some cd ->
    checkout_outcome master rec force_auto st
      (true,
       add_processed
         (create_record_key (user_id rec) (punch_date rec) (punch_time rec) "checkout")
         (with_actions st
            (update_by_id (userpunchactionid checkin_record)
               (set_checkout (punch_time rec) (punch_date rec)
                  (combine (punch_date rec) (punch_time rec))
                  (snd (checkout_status force_auto
                          (combine (punch_date rec) (punch_time rec))
                          (combine cd (parse_time_string (PyStr (bm_shiftendtime biometrics))))
                          (overtime_allowed checkin_record)))
                  (fst (checkout_status force_auto
                          (combine (punch_date rec) (punch_time rec))
                          (combine cd (parse_time_string (PyStr (bm_shiftendtime biometrics))))
                          (overtime_allowed checkin_record))))
               (actions st)))).

(** The checkin timestamp the reconciler compares a checkout with: a NULL
    checkin time counts as midnight. *)
Definition checkin_timestamp (cd : date) (r : session) : datetime :=
  combine cd (parse_time_string (time_col (checkintime r))).

(** A checkout at [pd], [pt] is in order for a session checked in on [cd]. *)
Definition checkout_in_order (cd : date) (r : session) (pd : date) (pt : time) : Prop :=
  checkin_timestamp cd r < combine pd pt
  /\ (cd = pd -> 3600 <= combine pd pt - checkin_timestamp cd r).

(** No checkout log of the employee later on the checkin day or on the day
    after. *)
Definition no_checkout_logged (u : string) (pd : date) (pt : time) (ls : list log) : Prop :=
  forall l, In l ls ->
    user_id (l_punch l) = u -> punch_type (l_punch l) = "checkout" ->
    ~ (punch_date (l_punch l) = pd /\ pt < punch_time (l_punch l))
    /\ punch_date (l_punch l) <> pd + 1.

(** One duplicate-removal query of the passes: [in_table] is the [WHERE]
    of the grouping query, [key_of] its [GROUP BY], [selk k] the [WHERE] of
    the [DELETE] for the group [k]. *)
Definition pass (in_table : session -> bool) (key_of : session -> group_key)
    (selk : group_key -> session -> bool) (rows : list session) : list session :=
  fold_left (fun rs k => delete_all_but_min (selk k) rs)
            (duplicate_groups (map key_of (filter in_table rows))) rows.

(** The logs of [st'] are those of [st], log by log, up to migration
    flags that were set to [Yes]. *)
Definition only_flags (st st' : state) : Prop :=
  Forall2 (fun l l' =>
             l_punch l' = l_punch l /\ device_id l' = device_id l
             /\ (migration_status l' = migration_status l \/ migration_status l' = "Yes"))
          (logs st) (logs st').

End Props.

Module PipelineProps.
Import Py Westlands.

(** The columns of a westlands log that identify the punch: all but the
    migration flag. *)
Definition punch_of (l : log) : string * date * pyval * string * string :=
  (user_id l, punch_date l, punch_time l, punch_type l, device_id l).

(** [st'] has [n] sessions more than [st], and the logs of [st] up to
    their migration flags. *)
Definition grows_by (n : nat) (st st' : state) : Prop :=
  List.length (actions st') = (List.length (actions st) + n)%nat
  /\ map punch_of (logs st') = map punch_of (logs st).

End PipelineProps.

Module BreakProps.
Import Py WestlandsBreak.

(** The break rows and the logs of one employee. *)
Definition employee_breaks (uid : string) (st : state) : list break_row :=
  filter (fun b => String.eqb (employeeid b) uid) (breaks st).

Definition employee_logs (uid : string) (st : state) : list log :=
  filter (fun l => String.eqb (user_id l) uid) (logs st).

(** [st'] has the punch actions of [st], and for the employee the same
    break rows and logs. *)
Definition same_for (uid : string) (st st' : state) : Prop :=
  punch_actions st' = punch_actions st
  /\ employee_breaks uid st' = employee_breaks uid st
  /\ employee_logs uid st' = employee_logs uid st.

(** The break row [insert_break] writes, but for its id. *)
Definition break_of (b : break_row) (meta : punch_action) (start_dt end_dt : datetime)
    (status : string) : Prop :=
  b = mk_break_row (pa_userid meta) (breakpunchactionid b) (pa_employeeid meta)
        CLIENT_ID (pa_fullname meta) (pa_departmentid meta) (pa_departmentname meta)
        BREAK_ID_DEFAULT PUNCHIN_ID_DEFAULT start_dt (date_of start_dt) (time_of start_dt)
        (pa_reportingmanager meta) PUNCHOUT_ID_DEFAULT end_dt (date_of end_dt)
        (time_of end_dt) status.

(** A row of the automatic break 13:00-13:30 of the day, written for an
    employee who is checked in today and had no break row of the day in
    [st]. *)
Definition auto_break_of (TODAY : date) (st : state) (b : break_row) : Prop :=
  break_status b = "auto"
  /\ breakstartdatetime b = combine TODAY AUTO_BREAK_START
  /\ breakenddatetime b = combine TODAY AUTO_BREAK_START + 60 * AUTO_BREAK_DURATION_MIN
  /\ breakstartdate b = TODAY
  /\ existing_break_for_day TODAY (employeeid b) st = false
  /\ exists meta, In meta (punch_actions st) /\ pa_checkindate meta = Some TODAY
                  /\ employeeid b = pa_employeeid meta.

End BreakProps.

(* ================================================================== *)
(** * Sample data for the concrete instances *)
(* ================================================================== *)

Module Samples.
Import Py RedGinger.

(** Monday 2025-08-04. *)
Definition monday : date := 739467.

Definition tuesday : date := monday + 1.
Definition wednesday : date := monday + 2.
Definition thursday : date := monday + 3.

Definition emp1 : biometrics :=
  mk_biometrics "09:00:00" "17:00:00" "C1" "E1" "Employee One" "M1" "U1" "3" (Some "no") "1".

Definition master1 : list biometrics := [emp1].

(** An open session of [E1] as [process_checkin] writes it. *)
Definition open_session (id : Z) (d : date) (ci : time) : session :=
  new_session id emp1 (mk_punch "E1" d ci "checkin") "ontime" "".

(** The same session closed by a checkout. *)
Definition closed_session (id : Z) (d : date) (ci : time) (cod : date) (co : time) : session :=
  set_checkout co cod (combine cod co) "" "manual" (open_session id d ci).

Definition pending (u : string) (d : date) (t : time) (k : string) : log :=
  mk_log (mk_punch u d t k) "GED7243200199" "No".

Definition store_of (rows : list session) (next : Z) : state :=
  mk_state [] rows next [] None.

(** A pre-dawn checkout against an afternoon checkin, and a checkout before
    the checkin, both on the Monday; the second pair a day before
    [min_date]. *)
Definition anomalous_store : state :=
  store_of [closed_session 1 monday (hms 14 0 0) monday (hms 5 30 0);
            closed_session 2 monday (hms 9 0 0) monday (hms 8 0 0);
            closed_session 3 monday (hms 9 0 0) monday (hms 17 0 0)] 4.

Definition old_anomalous_store : state :=
  store_of [closed_session 1 (min_date - 1) (hms 9 0 0) (min_date - 1) (hms 8 0 0)] 2.

(** A closed and an open session of the same employee and checkin date,
    next to two open duplicates of the Tuesday. *)
Definition duplicate_store : state :=
  store_of [closed_session 1 monday (hms 9 0 0) monday (hms 17 0 0);
            open_session 2 monday (hms 9 5 0);
            open_session 4 tuesday (hms 9 0 0);
            open_session 3 tuesday (hms 9 0 0)] 5.

Definition mixed_store : state :=
  store_of [closed_session 1 monday (hms 9 0 0) monday (hms 17 0 0);
            open_session 2 monday (hms 9 5 0)] 3.

(** A checkout without checkin: a closed session whose checkin time is
    NULL. *)
Definition orphan_session (id : Z) (d : date) (co : time) : session :=
  let r := closed_session id d (hms 9 0 0) d co in
  mk_session (userpunchactionid r) (clientid r) (employeeid r) (fullname r)
    (shiftendtime r) (shiftstarttime r) (statusid r) (reportingmanager r)
    None None None
    (loginlatitude r) (loginlocationid r) (loginlocationname r) (loginlongitude r)
    (overtimeid r) (punchinid r) (punchinreason r) (punchinstatus r)
    (skipdistancechecking r) (userid r) (departmentid r) (departmentname r)
    (checkoutdate r) (checkouttime r) (checkoutdatetime r)
    (punchoutid r) (logoutlatitude r) (logoutlocationid r) (logoutlocationname r)
    (logoutlongitude r) (punchoutreason r) (punchoutstatus r).

Definition orphan_store : state :=
  store_of [orphan_session 1 monday (hms 17 0 0);
            closed_session 2 monday (hms 9 0 0) monday (hms 17 0 0)] 3.

(** One open session of the Monday, and two candidate checkouts. *)
Definition open_store : state :=
  store_of [open_session 1 monday (hms 9 0 0)] 2.

Definition checkout_1700 : punch := mk_punch "E1" monday (hms 17 0 0) "checkout".
Definition checkout_0930 : punch := mk_punch "E1" monday (hms 9 30 0) "checkout".

(** A Monday session exists, and a second Monday checkin of the same
    employee waits in the logs. *)
Definition late_checkin : punch := mk_punch "E1" monday (hms 9 10 0) "checkin".

Definition absorbing_store : state :=
  mk_state [mk_log late_checkin "GED7243200199" "No"]
           [open_session 1 monday (hms 9 0 0)] 2 [] None.

Definition noon (d : date) : datetime := combine d (hms 12 0 0).

(** Nothing reconciled yet: a Monday checkin without checkout, a Tuesday
    checkin and a Tuesday checkout; the cycle runs on Thursday noon. *)
Definition fresh_store : state :=
  mk_state [pending "E1" monday (hms 9 0 0) "checkin";
            pending "E1" tuesday (hms 9 0 0) "checkin";
            pending "E1" tuesday (hms 23 0 0) "checkout"]
           [] 1 [] None.

(** A single Monday checkin in the logs, nothing else. *)
Definition monday_checkin : punch := mk_punch "E1" monday (hms 9 0 0) "checkin".

Definition lone_checkin_store : state :=
  mk_state [mk_log monday_checkin "GED7243200199" "No"] [] 1 [] None.

(** The westlands pipeline: one employee with a shift 09:00-17:00. *)
Definition wl_bio : Westlands.bio_data :=
  Westlands.mk_bio_data "1" "M1" "no" "Employee One" "E1" "3" "U1" "WEKOQEJ".

Definition wl_master (e : string) : option Westlands.bio_data :=
  if String.eqb e "E1" then Some wl_bio else None.

Definition wl_allocation (u : string) (d : date) : option Z :=
  if String.eqb u "U1" then Some 7 else None.

Definition wl_shift (id : Z) : option Westlands.shift_data :=
  if id =? 7 then Some (Westlands.mk_shift_data (PyStr "09:00") (PyStr "17:00")) else None.

Definition wl_log (t : string) (k : string) : Westlands.log :=
  Westlands.mk_log "E1" monday (PyStr t) k "No" "GED7243200199".

(** The session [insert_checkin] writes for a Monday checkin at [t]. *)
Definition wl_open_session (t : string) : Westlands.session :=
  match Westlands.actions
          (Westlands.insert_checkin wl_bio
             (Westlands.mk_shift_data (PyStr "09:00") (PyStr "17:00"))
             (wl_log t "checkin") (Westlands.mk_state [] [])) with
  | r :: _ => r
  | [] => Westlands.mk_session "" "" "" PyNone PyNone 0 "" None None None "" 0 "" ""
            None 0 None "" "" false "" "" "" None None None None None None None None None
  end.

Definition wl_store : Westlands.state :=
  Westlands.mk_state [wl_log "09:10:00" "checkin"] [wl_open_session "09:00:00"].

(** A session checked in at 21:30, still open at the end of the day. *)
Definition wl_late_store : Westlands.state :=
  Westlands.mk_state [] [wl_open_session "21:30:00"].

(** ** The break ETL: two employees checked in on Monday; E1 punched a
    break from 13:00 to 13:30, E2 from 12:00 to 15:00. The punch times are
    TIME values, compared as such. *)
Definition brk_time_leb (a b : pyval) : bool :=
  match a, b with
  | PyTime x, PyTime y => x <=? y
  | _, _ => true
  end.

(** No text reaches [_to_time] in the sample; the stand-in reads a text
    [HH:MM:SS]. *)
Definition brk_fromisoformat (s : string) : option time := strptime_HMS s.

Definition brk_log (u : string) (t : time) (k : string) : WestlandsBreak.log :=
  WestlandsBreak.mk_log u k monday (PyTime t) "No" "GED7243200199".

Definition brk_action (u e : string) : WestlandsBreak.punch_action :=
  WestlandsBreak.mk_punch_action u e "Ann" "1" "Reception" "M1" (Some monday).

Definition brk_store : WestlandsBreak.state :=
  WestlandsBreak.mk_state
    [brk_log "E2" (hms 15 0 0) "breakout"; brk_log "E1" (hms 13 30 0) "breakout";
     brk_log "E1" (hms 13 0 0) "breakin"; brk_log "E2" (hms 12 0 0) "breakin"]
    [brk_action "U1" "E1"; brk_action "U2" "E2"] [].

(** E1 punched once, at 13:00. E9 punched on another device and has no
    punch action of the day. *)
Definition brk_single_store : WestlandsBreak.state :=
  WestlandsBreak.mk_state
    [brk_log "E1" (hms 13 0 0) "breakin";
     WestlandsBreak.mk_log "E9" "breakin" monday (PyTime (hms 13 5 0)) "No" "OTHER"]
    [brk_action "U1" "E1"; brk_action "U2" "E2"] [].

End Samples.

(* ================================================================== *)
(** * The punch classifiers *)
(* ================================================================== *)

Module ClassifierProofs.
Import Py.

Lemma time_new_valid h m s t : time_new h m s = Some t -> valid_time t.
Proof.
  unfold time_new.
  destruct ((0 <=? h) && (h <=? 23) && (0 <=? m) && (m <=? 59) && (0 <=? s) && (s <=? 59)) eqn:E;
    [|discriminate].
  intros Heq. assert (Ht : t = hms h m s) by congruence. subst t.
  repeat (apply andb_prop in E; destruct E as [E ?]).
  repeat match goal with H : (_ <=? _) = true |- _ => apply Z.leb_le in H end.
  unfold valid_time, hms. lia.
Qed.

Lemma midnight_valid : valid_time midnight.
Proof. unfold valid_time, midnight, hms. lia. Qed.

Lemma parse_parts_valid s t : RedGinger.parse_parts s = Some t -> valid_time t.
Proof.
  unfold RedGinger.parse_parts.
  destruct (split ":" s) as [|h [|m rest]]; try discriminate.
  destruct (int h) as [h'|]; try discriminate.
  destruct (int m) as [m'|]; try discriminate.
  destruct rest as [|sec rest'].
  - apply time_new_valid.
  - destruct (int sec) as [s'|]; try discriminate. apply time_new_valid.
Qed.

(** Whatever the string, [parse_time_string] yields a time of day. *)
Lemma parse_time_string_str_valid s : valid_time (RedGinger.parse_time_string (PyStr s)).
Proof.
  unfold RedGinger.parse_time_string.
  destruct (contains ":" s); [|apply midnight_valid].
  destruct (RedGinger.parse_parts s) eqn:E; [|apply midnight_valid].
  eapply parse_parts_valid; eauto.
Qed.

(** Ten minutes after a shift start before 23:50:00 is the plain sum. *)
Lemma grace_time_no_wrap t :
  0 <= t -> t + 600 < 86400 -> RedGinger.grace_time t = t + 600.
Proof.
  intros H0 H1. unfold RedGinger.grace_time, time_of, combine, RedGinger.grace_minutes.
  rewrite Z.mod_small; lia.
Qed.

(** Past 23:50:00 the sum falls into the next day and [.time()] drops the day. *)
Lemma grace_time_wrap t :
  86400 <= t + 600 -> t < 86400 -> RedGinger.grace_time t = t + 600 - 86400.
Proof.
  intros H0 H1. unfold RedGinger.grace_time, time_of, combine, RedGinger.grace_minutes.
  replace (86400 * 0 + t + 60 * 10) with (t + 600 - 86400 + 1 * 86400) by lia.
  rewrite Z.mod_add by lia. rewrite Z.mod_small; lia.
Qed.

(** The checkin rule of redginger.py for a shift that starts before
    23:50:00: on time up to ten minutes after the start, late afterwards. *)
Lemma redginger_checkin_grace punch_time shift_time :
  let p := RedGinger.parse_time_string punch_time in
  let s := RedGinger.parse_time_string shift_time in
  0 <= s -> s + 60 * RedGinger.grace_minutes < 86400 ->
  (p <= s + 60 * RedGinger.grace_minutes ->
   RedGinger.calculate_punch_status punch_time shift_time true = ("ontime", ""))
  /\ (s + 60 * RedGinger.grace_minutes < p ->
      RedGinger.calculate_punch_status punch_time shift_time true = ("late", "late")).
Proof.
  intros p s H0 H1. unfold RedGinger.calculate_punch_status.
  fold p s. unfold RedGinger.grace_minutes in *.
  rewrite grace_time_no_wrap by lia.
  split; intros H.
  - destruct (Z.leb_spec p (s + 600)); [reflexivity | lia].
  - destruct (Z.leb_spec p (s + 600)); [lia | reflexivity].
Qed.

(** The checkin rule of westlands.py: no grace at all. *)
Lemma westlands_checkin_zero_grace punch_time shift_start kind shift_end ot p s :
  lower kind = "checkin" ->
  Westlands.parse_time punch_time = Some p ->
  Westlands.parse_time shift_start = Some s ->
  (p <= s ->
   Westlands.calculate_punch_status punch_time shift_start kind shift_end ot
   = Some ("ontime", "ontime"))
  /\ (s < p ->
      Westlands.calculate_punch_status punch_time shift_start kind shift_end ot
      = Some ("late", "late")).
Proof.
  intros Hk Hp Hs.
  unfold Westlands.calculate_punch_status, Westlands.calculate_punch_status_body.
  rewrite Hp, Hk, Hs. cbn [String.eqb Ascii.eqb Bool.eqb].
  split; intros H; destruct (Z.leb_spec p s); try lia; reflexivity.
Qed.






(** C3 (at the input where the code leaves it). With a shift start of
    23:55:00 a checkin at 23:56:00 lies inside the ten-minute window that
    opens at the shift start, and [calculate_punch_status] of redginger.py
    classifies it late: the end of the window is reduced to the time of day
    00:05:00 and the punch compared with that. *)
Theorem C3_grace_window_lost_at_midnight :
  RedGinger.parse_time_string (PyStr "23:55:00")
    <= RedGinger.parse_time_string (PyStr "23:56:00")
    <= RedGinger.parse_time_string (PyStr "23:55:00") + 60 * RedGinger.grace_minutes
  /\ RedGinger.grace_time (RedGinger.parse_time_string (PyStr "23:55:00")) = hms 0 5 0
  /\ RedGinger.calculate_punch_status (PyStr "23:56:00") (PyStr "23:55:00") true
     = ("late", "late").
Proof.
  split; [|split]; vm_compute; try reflexivity.
  split; discriminate.
Qed.

(** C9. Both classifiers answer on every punch time string and never
    raise. redginger.py reads an unparsable string as midnight and
    classifies that; westlands.py answers late/late for a checkin and
    manual/manual for a checkout whose punch time it cannot read. *)
Theorem C9_classifier_total (s : string) :
  (valid_time (RedGinger.parse_time_string (PyStr s))
   /\ (contains ":" s = false \/ RedGinger.parse_parts s = None ->
       RedGinger.parse_time_string (PyStr s) = midnight
       /\ forall shift is_checkin,
           RedGinger.calculate_punch_status (PyStr s) shift is_checkin
           = RedGinger.calculate_punch_status (PyTime midnight) shift is_checkin)
   /\ (forall shift,
          RedGinger.calculate_punch_status (PyStr s) shift true = ("ontime", "")
          \/ RedGinger.calculate_punch_status (PyStr s) shift true = ("late", "late"))
   /\ (forall shift,
          RedGinger.calculate_punch_status (PyStr s) shift false = ("auto", "")
          \/ RedGinger.calculate_punch_status (PyStr s) shift false
             = ("earlycheckout", "earlycheckout")))
  /\ (forall kind shift_start shift_end ot,
         lower kind = "checkin" \/ lower kind = "checkout" ->
         exists status reason,
           Westlands.calculate_punch_status (PyStr s) shift_start kind shift_end ot
           = Some (status, reason))
  /\ (Westlands.parse_time (PyStr s) = None ->
      forall kind shift_start shift_end ot,
        (lower kind = "checkin" ->
         Westlands.calculate_punch_status (PyStr s) shift_start kind shift_end ot
         = Some ("late", "late"))
        /\ (lower kind = "checkout" ->
            Westlands.calculate_punch_status (PyStr s) shift_start kind shift_end ot
            = Some ("manual", "manual"))).
Proof.
  split; [|split].
  - split; [apply parse_time_string_str_valid|]. split; [|split].
    + intros H.
      assert (E : RedGinger.parse_time_string (PyStr s) = midnight).
      { unfold RedGinger.parse_time_string. destruct H as [H|H]; rewrite H.
        - reflexivity.
        - destruct (contains ":" s); reflexivity. }
      split; [exact E|]. intros shift k. unfold RedGinger.calculate_punch_status.
      rewrite E. reflexivity.
    + intros shift. unfold RedGinger.calculate_punch_status.
      destruct (_ <=? _); auto.
    + intros shift. unfold RedGinger.calculate_punch_status.
      destruct (_ <=? _); auto.
  - intros kind shift_start shift_end ot Hk.
    unfold Westlands.calculate_punch_status, Westlands.calculate_punch_status_body.
    destruct (Westlands.parse_time (PyStr s)) as [p|].
    + destruct Hk as [Hk|Hk]; rewrite Hk; cbn [String.eqb Ascii.eqb Bool.eqb].
      * destruct (Westlands.parse_time shift_start) as [q|]; [|eauto].
        destruct (p <=? q); eauto.
      * destruct (negb (truthy shift_end)); [eauto|].
        destruct (Westlands.parse_time shift_end) as [e|]; [|eauto].
        destruct (Westlands.overtime_flag ot) as [flag|]; [|eauto].
        destruct (Z.ltb_spec p e); [eauto|].
        destruct (Z.leb_spec e p); [|lia].
        destruct flag; eauto.
    + destruct Hk as [Hk|Hk]; rewrite Hk; cbn [String.eqb Ascii.eqb Bool.eqb]; eauto.
  - intros Hp kind shift_start shift_end ot.
    unfold Westlands.calculate_punch_status, Westlands.calculate_punch_status_body.
    rewrite Hp. split; intros Hk; rewrite Hk; reflexivity.
Qed.

Lemma C9_classifier_total_witness :
  RedGinger.parse_time_string (PyStr "9.30am") = midnight
  /\ RedGinger.parse_time_string (PyStr "25:00:00") = midnight
  /\ (exists status reason,
         Westlands.calculate_punch_status (PyStr "09:30") (PyStr "09:00") "CheckIn"
           PyNone (PyBool false) = Some (status, reason))
  /\ Westlands.calculate_punch_status (PyStr "9.30am") (PyStr "09:00") "checkin"
       PyNone (PyBool false) = Some ("late", "late")
  /\ Westlands.calculate_punch_status (PyStr "9.30am") (PyStr "09:00") "checkout"
       (PyStr "17:00") (PyBool true) = Some ("manual", "manual").
Proof.
  split; [|split; [|split; [|split]]].
  - apply (C9_classifier_total "9.30am"). left. reflexivity.
  - apply (C9_classifier_total "25:00:00"). right. reflexivity.
  - apply (C9_classifier_total "09:30"). left. reflexivity.
  - apply (C9_classifier_total "9.30am"); reflexivity.
  - apply (C9_classifier_total "9.30am"); reflexivity.
Defined.

End ClassifierProofs.

(* ================================================================== *)
(** * The anomaly scanner *)
(* ================================================================== *)

Module ScannerProofs.
Import Py RedGinger Props.

Section ListFacts.
Context {A : Type}.

Lemma insert_by_In (leb : A -> A -> bool) x y l :
  In y (insert_by leb x l) <-> y = x \/ In y l.
Proof.
  induction l as [|z l IH]; simpl.
  - intuition.
  - destruct (leb x z); simpl; [intuition|].
    rewrite IH. intuition.
Qed.

(** Sorting keeps the elements. *)
Lemma sort_by_In (leb : A -> A -> bool) x l : In x (sort_by leb l) <-> In x l.
Proof.
  induction l as [|y l IH]; simpl; [tauto|].
  unfold sort_by in *. simpl. rewrite insert_by_In, IH. intuition.
Qed.

End ListFacts.

(** Under the primary key a row is determined by its id. *)
Lemma unique_ids_inj rows a b :
  unique_ids rows -> In a rows -> In b rows ->
  userpunchactionid a = userpunchactionid b -> a = b.
Proof.
  unfold unique_ids. induction rows as [|r rows IH]; simpl; [tauto|].
  intros Hnd Ha Hb E. inversion Hnd as [|? ? Hnot Hnd']; subst.
  destruct Ha as [<-|Ha], Hb as [<-|Hb]; auto.
  - exfalso. apply Hnot. rewrite E. apply in_map. exact Hb.
  - exfalso. apply Hnot. rewrite <- E. apply in_map. exact Ha.
Qed.

Lemma clear_checkout_id r : userpunchactionid (clear_checkout r) = userpunchactionid r.
Proof. reflexivity. Qed.

Lemma clear_checkout_idem r : clear_checkout (clear_checkout r) = clear_checkout r.
Proof. reflexivity. Qed.

(** A loop of [UPDATE ... WHERE userpunchactionid = id] over the selected
    rows clears the rows whose id was selected. *)
Lemma fold_clear_map (sel : list session) (rows : list session) :
  fold_left (fun rs a => update_by_id (userpunchactionid a) clear_checkout rs) sel rows
  = map (fun r => if existsb (fun a => userpunchactionid r =? userpunchactionid a) sel
                  then clear_checkout r else r) rows.
Proof.
  revert rows. induction sel as [|a sel IH]; intros rows; simpl.
  - symmetry. apply map_id.
  - rewrite IH. unfold update_by_id. rewrite map_map. apply map_ext. intros r.
    destruct (userpunchactionid r =? userpunchactionid a) eqn:E; simpl.
    + destruct (existsb _ sel); reflexivity.
    + reflexivity.
Qed.

Lemma clear_selected_map (sel : session -> bool) rows :
  unique_ids rows ->
  clear_selected sel rows = map (fun r => if sel r then clear_checkout r else r) rows.
Proof.
  intros Hu. unfold clear_selected. rewrite fold_clear_map.
  apply map_ext_in. intros r Hr.
  destruct (sel r) eqn:Es.
  - replace (existsb _ _) with true; [reflexivity|].
    symmetry. apply existsb_exists. exists r. split.
    + apply sort_by_In. apply filter_In. auto.
    + apply Z.eqb_refl.
  - replace (existsb _ _) with false; [reflexivity|].
    symmetry. apply not_true_is_false. intros H.
    apply existsb_exists in H. destruct H as [a [Ha E]].
    apply sort_by_In in Ha. apply filter_In in Ha. destruct Ha as [Ha Hs].
    apply Z.eqb_eq in E.
    assert (r = a) by (eapply unique_ids_inj; eauto). subst a. congruence.
Qed.

Lemma unique_ids_map f rows :
  (forall r, userpunchactionid (f r) = userpunchactionid r) ->
  unique_ids rows -> unique_ids (map f rows).
Proof.
  intros Hf. unfold unique_ids. rewrite map_map.
  rewrite (map_ext _ userpunchactionid Hf). tauto.
Qed.

Lemma early_checkout_anomaly_cleared r :
  early_checkout_anomaly (clear_checkout r) = false.
Proof. unfold early_checkout_anomaly. simpl. destruct (checkintime r); reflexivity. Qed.

(** What the scanner does to the table: the rows one of the two queries
    selects are cleared in place, all others are left as they are. *)
Lemma scanner_map st :
  unique_ids (actions st) ->
  actions (validate_and_fix_time_anomalies st)
  = map (fun r => if time_anomaly r || early_checkout_anomaly r
                  then clear_checkout r else r) (actions st).
Proof.
  intros Hu. unfold validate_and_fix_time_anomalies. simpl.
  rewrite (clear_selected_map time_anomaly) by exact Hu.
  rewrite clear_selected_map.
  - rewrite map_map. apply map_ext. intros r.
    destruct (time_anomaly r); simpl.
    + rewrite early_checkout_anomaly_cleared. reflexivity.
    + destruct (early_checkout_anomaly r); reflexivity.
  - apply unique_ids_map; [|exact Hu].
    intros r. destruct (time_anomaly r); reflexivity.
Qed.

(** The queries' conditions in the words of the rules. *)
Lemma time_anomaly_spec r :
  time_anomaly r = true <-> checkout_before_checkin r /\ from_min_date r.
Proof.
  unfold time_anomaly, checkout_before_checkin, from_min_date, same_day, date_geb.
  destruct (checkintime r) as [ci|], (checkouttime r) as [co|],
           (checkindate r) as [d|], (checkoutdate r) as [d'|];
    simpl; split; try discriminate;
    try (intros [(? & ? & ? & ? & ? & ? & ? & ?) _]; discriminate).
  - rewrite !andb_true_iff, Z.eqb_eq, Z.ltb_lt, Z.leb_le. intros [[-> H1] H2].
    split; [exists d', ci, co | exists d']; auto.
  - intros [(x & ci' & co' & [= ->] & [= ->] & [= ->] & [= ->] & H) (y & [= ->] & Hm)].
    rewrite !andb_true_iff, Z.eqb_eq, Z.ltb_lt, Z.leb_le. auto.
Qed.

Lemma early_checkout_anomaly_spec r :
  early_checkout_anomaly r = true <-> predawn_checkout r /\ from_min_date r.
Proof.
  unfold early_checkout_anomaly, predawn_checkout, from_min_date, same_day, date_geb.
  destruct (checkintime r) as [ci|], (checkouttime r) as [co|],
           (checkindate r) as [d|], (checkoutdate r) as [d'|];
    simpl; split; try discriminate;
    try (intros [(? & ? & ? & ? & ? & ? & ? & ? & ?) _]; discriminate).
  - rewrite !andb_true_iff, Z.eqb_eq, Z.ltb_lt, !Z.leb_le. intros [[[-> H1] H2] H3].
    split; [exists d', ci, co | exists d']; auto 8.
  - intros [(x & ci' & co' & [= ->] & [= ->] & [= ->] & [= ->] & H & H') (y & [= ->] & Hm)].
    rewrite !andb_true_iff, Z.eqb_eq, Z.ltb_lt, !Z.leb_le. auto.
Qed.

Lemma Forall2_map_right {A B} (R : A -> B -> Prop) (f : A -> B) l :
  (forall x, In x l -> R x (f x)) -> Forall2 R l (map f l).
Proof.
  induction l as [|x l IH]; simpl; intros H; constructor; auto.
Qed.

Lemma clear_checkout_frame r :
  same_checkin_columns r (clear_checkout r) /\ checkout_columns_null (clear_checkout r).
Proof.
  unfold same_checkin_columns, checkout_columns_null. simpl. intuition reflexivity.
Qed.

(** C8 (as amended). The scanner walks the session table row by row: a
    same-day session dated [min_date] (2025-08-01) or later whose checkout
    time is before its checkin time, or whose checkin is at or after 12:00
    with a checkout before 06:00, has its ten checkout columns set to NULL
    and nothing else; every other row is left as it is; no row is deleted or
    added, and the attendance logs are not written to. *)
Theorem C8_scanner_clears_checkout_only st :
  unique_ids (actions st) ->
  let st' := validate_and_fix_time_anomalies st in
  logs st' = logs st
  /\ Forall2
       (fun r r' =>
          (from_min_date r /\ (checkout_before_checkin r \/ predawn_checkout r) ->
           r' = clear_checkout r
           /\ same_checkin_columns r r' /\ checkout_columns_null r')
          /\ (~ (from_min_date r /\ (checkout_before_checkin r \/ predawn_checkout r)) ->
              r' = r))
       (actions st) (actions st').
Proof.
  intros Hu st'. split; [reflexivity|].
  unfold st'. rewrite scanner_map by exact Hu.
  apply Forall2_map_right. intros r _.
  destruct (time_anomaly r || early_checkout_anomaly r) eqn:E.
  - split.
    + intros _. split; [reflexivity | apply clear_checkout_frame].
    + intros H. exfalso. apply H. apply orb_true_iff in E.
      destruct E as [E|E];
        [apply time_anomaly_spec in E | apply early_checkout_anomaly_spec in E];
        tauto.
  - split.
    + intros [Hm [H|H]]; exfalso.
      * assert (time_anomaly r = true) by (apply time_anomaly_spec; tauto).
        destruct (time_anomaly r); discriminate.
      * assert (early_checkout_anomaly r = true)
          by (apply early_checkout_anomaly_spec; tauto).
        destruct (early_checkout_anomaly r), (time_anomaly r); discriminate.
    + reflexivity.
Qed.

Lemma C8_scanner_clears_checkout_only_witness :
  unique_ids (actions Samples.anomalous_store)
  /\ Forall2
       (fun r r' =>
          (from_min_date r /\ (checkout_before_checkin r \/ predawn_checkout r) ->
           r' = clear_checkout r
           /\ same_checkin_columns r r' /\ checkout_columns_null r')
          /\ (~ (from_min_date r /\ (checkout_before_checkin r \/ predawn_checkout r)) ->
              r' = r))
       (actions Samples.anomalous_store)
       (actions (validate_and_fix_time_anomalies Samples.anomalous_store)).
Proof.
  assert (Hu : unique_ids (actions Samples.anomalous_store)).
  { unfold unique_ids. simpl. repeat constructor; simpl; intuition discriminate. }
  split; [exact Hu|].
  apply (C8_scanner_clears_checkout_only Samples.anomalous_store Hu).
Defined.

(** A session of 2025-07-31 whose checkout (08:00) is before its checkin
    (09:00) on the same day: the scanner leaves it closed. *)
Lemma C8_old_session_not_repaired :
  (forall r, In r (actions Samples.old_anomalous_store) -> checkout_before_checkin r)
  /\ actions (validate_and_fix_time_anomalies Samples.old_anomalous_store)
     = actions Samples.old_anomalous_store
  /\ (forall r, In r (actions (validate_and_fix_time_anomalies Samples.old_anomalous_store)) ->
        checkouttime r = Some (hms 8 0 0)).
Proof.
  split; [|split].
  - intros r [<-|[]]. exists (min_date - 1), (hms 9 0 0), (hms 8 0 0).
    repeat split; reflexivity.
  - vm_compute. reflexivity.
  - intros r H. vm_compute in H. destruct H as [<-|[]]. reflexivity.
Qed.

End ScannerProofs.

(* ================================================================== *)
(** * The deduplication pass *)
(* ================================================================== *)

Module DedupProofs.
Import Py RedGinger Props.

(** ** [MIN(userpunchactionid)] *)

Lemma min_id_fold l acc :
  match fold_left (fun m r =>
                     match m with
                     | None => Some (userpunchactionid r)
                     | Some x => Some (Z.min x (userpunchactionid r))
                     end) l acc with
  | None => acc = None /\ l = []
  | Some m =>
      (acc = Some m \/ exists r, In r l /\ userpunchactionid r = m)
      /\ (forall r, In r l -> m <= userpunchactionid r)
      /\ (forall a, acc = Some a -> m <= a)
  end.
Proof.
  revert acc. induction l as [|x l IH]; intros acc; simpl.
  - destruct acc as [a|]; [|auto].
    split; [auto|]. split; [tauto|]. intros ? [= ->]. lia.
  - specialize (IH (match acc with
                    | None => Some (userpunchactionid x)
                    | Some a => Some (Z.min a (userpunchactionid x))
                    end)).
    destruct (fold_left _ l _) as [m|].
    + destruct IH as (Hm & Hle & Hacc). split; [|split].
      * destruct Hm as [Hm|[r [Hr E]]]; [|right; exists r; auto].
        destruct acc as [a|]; injection Hm as Hm.
        -- destruct (Z.min_spec a (userpunchactionid x)) as [[_ E]|[_ E]];
             rewrite E in Hm; [left; congruence | right; exists x; auto].
        -- right. exists x. auto.
      * intros r [<-|Hr]; [|auto].
        destruct acc as [a|]; specialize (Hacc _ eq_refl); lia.
      * intros a ->. specialize (Hacc _ eq_refl). lia.
    + destruct IH as [IH _]. destruct acc; discriminate.
Qed.

Lemma min_id_none l : min_id l = None -> l = [].
Proof.
  intros H. pose proof (min_id_fold l None) as S. unfold min_id in H.
  rewrite H in S. tauto.
Qed.

Lemma min_id_some l m :
  min_id l = Some m ->
  (exists r, In r l /\ userpunchactionid r = m)
  /\ forall r, In r l -> m <= userpunchactionid r.
Proof.
  intros H. pose proof (min_id_fold l None) as S. unfold min_id in H.
  rewrite H in S. destruct S as ([S|S] & Hle & _); [discriminate | auto].
Qed.

(** The minimum is decided by its two properties. *)
Lemma min_id_unique l m :
  (exists r, In r l /\ userpunchactionid r = m) ->
  (forall r, In r l -> m <= userpunchactionid r) ->
  min_id l = Some m.
Proof.
  intros [r [Hr E]] Hle. destruct (min_id l) as [m'|] eqn:Hm.
  - apply min_id_some in Hm. destruct Hm as [[r' [Hr' E']] Hle'].
    f_equal. specialize (Hle _ Hr'). specialize (Hle' _ Hr). lia.
  - apply min_id_none in Hm. subst l. destruct Hr.
Qed.

(** ** One [DELETE ... NOT IN (SELECT MIN ...)] *)

Lemma delete_all_but_min_In sel rows r :
  In r (delete_all_but_min sel rows)
  <-> In r rows /\ (sel r = true -> min_id (filter sel rows) = Some (userpunchactionid r)).
Proof.
  unfold delete_all_but_min. destruct (min_id (filter sel rows)) as [m|] eqn:Hm.
  - rewrite filter_In. split.
    + intros [Hr H]. split; [exact Hr|]. intros Hs. rewrite Hs in H. simpl in H.
      apply negb_true_iff, negb_false_iff, Z.eqb_eq in H. congruence.
    + intros [Hr H]. split; [exact Hr|]. destruct (sel r); [|reflexivity].
      specialize (H eq_refl). injection H as ->. rewrite Z.eqb_refl. reflexivity.
  - apply min_id_none in Hm. split.
    + intros Hr. split; [exact Hr|]. intros Hs.
      assert (In r (filter sel rows)) by (apply filter_In; auto).
      rewrite Hm in *. contradiction.
    + tauto.
Qed.

(** The pass only deletes: what is left is a filter of the table. *)
Lemma delete_all_but_min_filter sel rows :
  exists q, delete_all_but_min sel rows = filter q rows.
Proof.
  unfold delete_all_but_min. destruct (min_id (filter sel rows)) as [m|].
  - eexists. reflexivity.
  - exists (fun _ => true). induction rows as [|r rows IH]; simpl; congruence.
Qed.

Lemma filter_filter_and {A} (p q : A -> bool) l :
  filter p (filter q l) = filter (fun x => q x && p x) l.
Proof.
  induction l as [|x l IH]; simpl; [reflexivity|].
  destruct (q x); simpl; [destruct (p x)|]; simpl; congruence.
Qed.

Lemma fold_delete_filter (selk : group_key -> session -> bool) keys rows :
  exists q, fold_left (fun rs k => delete_all_but_min (selk k) rs) keys rows = filter q rows.
Proof.
  revert rows. induction keys as [|k keys IH]; intros rows; simpl.
  - exists (fun _ => true). induction rows as [|r rows IHr]; simpl; congruence.
  - destruct (delete_all_but_min_filter (selk k) rows) as [q1 E1].
    destruct (IH (delete_all_but_min (selk k) rows)) as [q2 E2].
    rewrite E2, E1, filter_filter_and. eexists. reflexivity.
Qed.

Lemma filter_length_le {A} (p q : A -> bool) (l : list A) :
  (List.length (filter p (filter q l)) <= List.length (filter p l))%nat.
Proof.
  induction l as [|x l IH]; simpl; [lia|].
  destruct (q x); simpl; destruct (p x); simpl; lia.
Qed.

Lemma unique_ids_filter q rows : unique_ids rows -> unique_ids (filter q rows).
Proof.
  unfold unique_ids. induction rows as [|r rows IH]; simpl; [auto|].
  intros H. inversion H as [|? ? Hn Hnd]; subst.
  destruct (q r); simpl; [constructor|]; auto.
  intros Hin. apply in_map_iff in Hin. destruct Hin as [x [E Hx]].
  apply filter_In in Hx. apply Hn. rewrite <- E. apply in_map. tauto.
Qed.

Lemma unique_ids_NoDup rows : unique_ids rows -> NoDup rows.
Proof. apply NoDup_map_inv. Qed.

Lemma at_most_one {A} (l : list A) :
  NoDup l -> (forall x y, In x l -> In y l -> x = y) -> (List.length l <= 1)%nat.
Proof.
  intros Hnd H. destruct l as [|x [|y l]]; simpl; try lia.
  exfalso. inversion Hnd as [|? ? Hn _]; subst. apply Hn.
  rewrite (H x y); simpl; auto.
Qed.

(** After the [DELETE] the selected rows are at most one. *)
Lemma delete_all_but_min_one sel rows :
  unique_ids rows ->
  (List.length (filter sel (delete_all_but_min sel rows)) <= 1)%nat.
Proof.
  intros Hu.
  assert (Hu' : unique_ids (delete_all_but_min sel rows)).
  { destruct (delete_all_but_min_filter sel rows) as [q ->]. apply unique_ids_filter, Hu. }
  apply at_most_one.
  - apply NoDup_filter, unique_ids_NoDup, Hu'.
  - intros x y Hx Hy. apply filter_In in Hx, Hy.
    destruct Hx as [Hx Sx], Hy as [Hy Sy].
    apply (ScannerProofs.unique_ids_inj _ x y Hu' Hx Hy).
    apply delete_all_but_min_In in Hx, Hy.
    destruct Hx as [_ Hx], Hy as [_ Hy].
    specialize (Hx Sx). specialize (Hy Sy). congruence.
Qed.

(** ** Group keys *)

Lemma group_key_eqb_eq a b : group_key_eqb a b = true <-> a = b.
Proof.
  destruct a as [e1 d1], b as [e2 d2]. unfold group_key_eqb. simpl.
  rewrite andb_true_iff, String.eqb_eq.
  destruct d1 as [x|], d2 as [y|]; try rewrite Z.eqb_eq;
    split; intros H; try (destruct H; discriminate); try discriminate.
  - destruct H; subst; reflexivity.
  - injection H as -> ->. auto.
  - destruct H; subst; reflexivity.
  - injection H as ->. auto.
Qed.

Lemma distinct_keys_In k l : In k (distinct_keys l) <-> In k l.
Proof.
  induction l as [|x l IH]; simpl; [tauto|].
  rewrite filter_In, IH. split.
  - tauto.
  - intros [->|H]; [auto|].
    destruct (group_key_eqb x k) eqn:E.
    + apply group_key_eqb_eq in E. auto.
    + right. split; [exact H | reflexivity].
Qed.

Lemma duplicate_groups_In k keys :
  In k (duplicate_groups keys)
  <-> (1 < List.length (filter (group_key_eqb k) keys))%nat.
Proof.
  unfold duplicate_groups.
  rewrite ScannerProofs.sort_by_In, filter_In, distinct_keys_In, Z.ltb_lt.
  split; [intros [_ H]; lia|]. intros H. split; [|lia].
  destruct (filter (group_key_eqb k) keys) as [|x l] eqn:E; [simpl in H; lia|].
  assert (Hx : In x (filter (group_key_eqb k) keys)) by (rewrite E; simpl; auto).
  apply filter_In in Hx. destruct Hx as [Hx Ek].
  apply group_key_eqb_eq in Ek. subst. exact Hx.
Qed.

(** ** A pass: one [DELETE] per duplicated group *)

Section Pass.

(** [in_table] is the [WHERE] of the grouping query, [key_of] its
    [GROUP BY], [selk k] the [WHERE] of the [DELETE] for the group [k]. *)
Variable in_table : session -> bool.
Variable key_of : session -> group_key.
Variable selk : group_key -> session -> bool.

Hypothesis selk_spec :
  forall k r, selk k r = true <-> in_table r = true /\ key_of r = k /\ snd k <> None.

Abbreviation pass := (Props.pass in_table key_of selk).

Lemma group_count k rows :
  snd k <> None ->
  List.length (filter (group_key_eqb k) (map key_of (filter in_table rows)))
  = List.length (filter (selk k) rows).
Proof.
  intros Hk. induction rows as [|r rows IH]; simpl; [reflexivity|].
  destruct (selk k r) eqn:Es.
  - apply selk_spec in Es. destruct Es as (Ht & Ek & _). rewrite Ht. simpl.
    replace (group_key_eqb k (key_of r)) with true
      by (symmetry; apply group_key_eqb_eq; auto).
    simpl. congruence.
  - destruct (in_table r) eqn:Et; simpl; [|exact IH].
    destruct (group_key_eqb k (key_of r)) eqn:Ek; [|exact IH].
    apply group_key_eqb_eq in Ek.
    assert (selk k r = true) by (apply selk_spec; auto). congruence.
Qed.

Lemma selk_null k r : snd k = None -> selk k r = false.
Proof.
  intros Hk. destruct (selk k r) eqn:E; [|reflexivity].
  apply selk_spec in E. tauto.
Qed.

Lemma filter_none {A} (p : A -> bool) l : (forall x, p x = false) -> filter p l = [].
Proof.
  intros H. induction l as [|x l IH]; simpl; [reflexivity|]. rewrite H. exact IH.
Qed.

Lemma fold_unique keys rows :
  unique_ids rows ->
  unique_ids (fold_left (fun rs k => delete_all_but_min (selk k) rs) keys rows).
Proof.
  intros Hu. destruct (fold_delete_filter selk keys rows) as [q ->].
  apply unique_ids_filter, Hu.
Qed.

(** After the pass no group has two rows. *)
Lemma pass_at_most_one rows k :
  unique_ids rows -> (List.length (filter (selk k) (pass rows)) <= 1)%nat.
Proof.
  intros Hu. destruct (snd k) as [d|] eqn:Hk.
  2:{ rewrite filter_none; [simpl; lia | intros r; apply selk_null; exact Hk]. }
  assert (Hk' : snd k <> None) by congruence.
  unfold Props.pass.
  destruct (in_dec (fun a b : group_key =>
                      let H := group_key_eqb_eq a b in
                      match group_key_eqb a b as x
                            return (x = true <-> a = b) -> {a = b} + {a <> b} with
                      | true => fun H => left (proj1 H eq_refl)
                      | false => fun H => right (fun E => diff_false_true (proj2 H E))
                      end H)
                   k (duplicate_groups (map key_of (filter in_table rows)))) as [Hin|Hout].
  - apply in_split in Hin. destruct Hin as (l1 & l2 & ->).
    rewrite fold_left_app. simpl.
    destruct (fold_delete_filter selk l2
                (delete_all_but_min (selk k)
                   (fold_left (fun rs k0 => delete_all_but_min (selk k0) rs) l1 rows)))
      as [q ->].
    etransitivity; [apply filter_length_le|].
    apply delete_all_but_min_one, fold_unique, Hu.
  - rewrite duplicate_groups_In, group_count in Hout by exact Hk'.
    destruct (fold_delete_filter selk
                (duplicate_groups (map key_of (filter in_table rows))) rows) as [q ->].
    etransitivity; [apply filter_length_le|]. lia.
Qed.

(** A [DELETE] for one group leaves the rows of the other groups. *)
Lemma delete_other_group p k rows :
  (forall r, p r = true -> selk k r = false) ->
  filter p (delete_all_but_min (selk k) rows) = filter p rows.
Proof.
  intros H. unfold delete_all_but_min.
  destruct (min_id (filter (selk k) rows)) as [m|]; [|reflexivity].
  rewrite filter_filter_and. apply filter_ext. intros r.
  destruct (p r) eqn:E; [|apply andb_false_r].
  rewrite (H r E). reflexivity.
Qed.

Lemma fold_other_group p keys rows :
  (forall k r, p r = true -> selk k r = false) ->
  filter p (fold_left (fun rs k => delete_all_but_min (selk k) rs) keys rows)
  = filter p rows.
Proof.
  intros H. revert rows. induction keys as [|k keys IH]; intros rows; simpl.
  - reflexivity.
  - rewrite IH. apply delete_other_group. intros r. apply H.
Qed.

(** The rows a loop of [DELETE]s keeps: in each of the groups it visits,
    the row with the least id. *)
Lemma fold_In keys rows r :
  In r (fold_left (fun rs k => delete_all_but_min (selk k) rs) keys rows)
  <-> In r rows
      /\ forall k, In k keys -> selk k r = true ->
                   min_id (filter (selk k) rows) = Some (userpunchactionid r).
Proof.
  revert rows. induction keys as [|k0 keys IH]; intros rows; simpl.
  - split; [intros H; split; [exact H | intros k []] | tauto].
  - rewrite IH, delete_all_but_min_In. split.
    + intros [[Hr H0] H]. split; [exact Hr|].
      intros k [<-|Hk] Hs; [auto|].
      destruct (selk k0 r) eqn:E0.
      * assert (k = k0).
        { apply selk_spec in Hs, E0. destruct Hs as (_ & <- & _), E0 as (_ & <- & _).
          reflexivity. }
        subst k. auto.
      * rewrite <- (delete_other_group (selk k) k0 rows); [auto|].
        intros x Hx. destruct (selk k0 x) eqn:Ex; [|reflexivity].
        apply selk_spec in Hx, Ex, Hs.
        destruct Hx as (_ & E1 & _), Ex as (_ & E2 & _), Hs as (Ht & E3 & Hn).
        assert (selk k0 r = true) by (apply selk_spec; repeat split; congruence).
        congruence.
    + intros [Hr H]. split; [split; [exact Hr | intros Hs; apply H; auto]|].
      intros k Hk Hs.
      destruct (selk k0 r) eqn:E0.
      * assert (k = k0).
        { apply selk_spec in Hs, E0. destruct Hs as (_ & <- & _), E0 as (_ & <- & _).
          reflexivity. }
        subst k.
        assert (Hm : min_id (filter (selk k0) rows) = Some (userpunchactionid r))
          by (apply H; auto).
        apply min_id_unique.
        -- exists r. split; [|reflexivity]. apply filter_In. split; [|exact Hs].
           apply delete_all_but_min_In. auto.
        -- intros x Hx. apply filter_In in Hx. destruct Hx as [Hx Sx].
           apply delete_all_but_min_In in Hx. destruct Hx as [_ Hx].
           specialize (Hx Sx). rewrite Hm in Hx. injection Hx as Hx. lia.
      * rewrite (delete_other_group (selk k) k0 rows); [apply H; auto|].
        intros x Hx. destruct (selk k0 x) eqn:Ex; [|reflexivity].
        apply selk_spec in Hx, Ex, Hs.
        destruct Hx as (_ & E1 & _), Ex as (_ & E2 & _), Hs as (Ht & E3 & Hn).
        assert (selk k0 r = true) by (apply selk_spec; repeat split; congruence).
        congruence.
Qed.

Lemma min_id_single l r :
  (List.length l <= 1)%nat -> In r l -> min_id l = Some (userpunchactionid r).
Proof.
  destruct l as [|x [|y l]]; simpl; intros Hl Hr; try lia; try contradiction.
  destruct Hr as [->|[]]. reflexivity.
Qed.

(** The rows the pass keeps: the row with the least id of every group. *)
Lemma pass_In rows r :
  In r (pass rows)
  <-> In r rows
      /\ forall k, selk k r = true ->
                   min_id (filter (selk k) rows) = Some (userpunchactionid r).
Proof.
  unfold Props.pass. rewrite fold_In. split; intros [Hr H]; (split; [exact Hr|]).
  - intros k Hs.
    destruct (Nat.ltb_spec 1 (List.length (filter (selk k) rows))) as [Hlt|Hle].
    + apply H; [|exact Hs]. apply duplicate_groups_In.
      rewrite group_count; [exact Hlt|]. apply selk_spec in Hs. tauto.
    + apply min_id_single; [exact Hle|]. apply filter_In. auto.
  - intros k _. apply H.
Qed.

End Pass.

Lemma open_on_spec k r :
  open_on k r = true
  <-> is_null (checkouttime r) = true /\ (employeeid r, checkindate r) = k /\ snd k <> None.
Proof.
  destruct k as [e [d|]]; unfold open_on, date_is; simpl.
  - rewrite !andb_true_iff, String.eqb_eq.
    destruct (checkindate r) as [x|].
    + rewrite Z.eqb_eq. split.
      * intros [[-> ->] H]. repeat split; auto. discriminate.
      * intros (H & [= -> ->] & _). auto.
    + split; [intros [[_ H] _]; discriminate | intros (_ & [=] & _)].
  - split; [discriminate | tauto].
Qed.

Lemma closed_on_spec k r :
  closed_on k r = true
  <-> not_null (checkouttime r) = true /\ (employeeid r, checkoutdate r) = k /\ snd k <> None.
Proof.
  destruct k as [e [d|]]; unfold closed_on, date_is; simpl.
  - rewrite !andb_true_iff, String.eqb_eq.
    destruct (checkoutdate r) as [x|].
    + rewrite Z.eqb_eq. split.
      * intros [[-> ->] H]. repeat split; auto. discriminate.
      * intros (H & [= -> ->] & _). auto.
    + split; [intros [[_ H] _]; discriminate | intros (_ & [=] & _)].
  - split; [discriminate | tauto].
Qed.

Lemma cleanup_open_pass rows :
  cleanup_open rows
  = pass (fun r => is_null (checkouttime r)) (fun r => (employeeid r, checkindate r))
         open_on rows.
Proof. reflexivity. Qed.

Lemma cleanup_closed_pass rows :
  cleanup_closed rows
  = pass (fun r => not_null (checkouttime r)) (fun r => (employeeid r, checkoutdate r))
         closed_on rows.
Proof. reflexivity. Qed.

Lemma closed_not_open k k' r : closed_on k r = true -> open_on k' r = false.
Proof.
  intros H. apply closed_on_spec in H. destruct H as (H & _).
  destruct (open_on k' r) eqn:E; [|reflexivity].
  apply open_on_spec in E. destruct E as (E & _).
  unfold not_null in H. rewrite E in H. discriminate.
Qed.

(** C6 (as amended). After the deduplication pass an employee has at most
    one open session per checkin date and at most one closed session per
    checkout date. Of the open sessions of one employee and checkin date,
    and of the closed sessions of one employee and checkout date, the pass
    keeps the row with the lowest id and deletes the others; it changes no
    row. (An open and a closed session of the same checkin date, or two
    closed sessions with different checkout dates, both stay.) *)
Theorem C6_dedup_pass st :
  unique_ids (actions st) ->
  let rows := actions st in
  let rows' := actions (validate_and_cleanup_duplicates st) in
  (forall e d, (List.length (filter (open_on (e, Some d)) rows') <= 1)%nat)
  /\ (forall e d, (List.length (filter (closed_on (e, Some d)) rows') <= 1)%nat)
  /\ (forall r,
         In r rows'
         <-> In r rows
             /\ (forall k, open_on k r = true ->
                           min_id (filter (open_on k) rows) = Some (userpunchactionid r))
             /\ (forall k, closed_on k r = true ->
                           min_id (filter (closed_on k) rows) = Some (userpunchactionid r))).
Proof.
  intros Hu rows rows'. unfold rows', validate_and_cleanup_duplicates. simpl.
  fold rows.
  assert (Hu1 : unique_ids (cleanup_open rows)).
  { unfold cleanup_open. apply fold_unique, Hu. }
  split; [|split].
  - intros e d. unfold cleanup_closed at 1.
    destruct (fold_delete_filter closed_on
                (duplicate_groups
                   (map (fun r => (employeeid r, checkoutdate r))
                      (filter (fun r => not_null (checkouttime r)) (cleanup_open rows))))
                (cleanup_open rows)) as [q ->].
    etransitivity; [apply filter_length_le|].
    rewrite cleanup_open_pass. apply pass_at_most_one; [apply open_on_spec | exact Hu].
  - intros e d. rewrite cleanup_closed_pass.
    apply pass_at_most_one; [apply closed_on_spec | exact Hu1].
  - intros r. rewrite cleanup_closed_pass, pass_In by apply closed_on_spec.
    rewrite cleanup_open_pass at 1. rewrite pass_In by apply open_on_spec.
    assert (E : forall k, filter (closed_on k) (cleanup_open rows) = filter (closed_on k) rows).
    { intros k. unfold cleanup_open. apply fold_other_group.
      intros k' x Hx. eapply closed_not_open; eauto. }
    split.
    + intros [[Hr Ho] Hc]. split; [exact Hr|]. split; [exact Ho|].
      intros k Hk. rewrite <- E. auto.
    + intros (Hr & Ho & Hc). split; [auto|]. intros k Hk. rewrite E. auto.
Qed.

Lemma C6_dedup_pass_witness :
  unique_ids (actions Samples.duplicate_store)
  /\ (List.length (filter (open_on ("E1", Some Samples.tuesday))
                     (actions (validate_and_cleanup_duplicates Samples.duplicate_store)))
      <= 1)%nat
  /\ In (Samples.open_session 3 Samples.tuesday (hms 9 0 0))
        (actions (validate_and_cleanup_duplicates Samples.duplicate_store)).
Proof.
  assert (Hu : unique_ids (actions Samples.duplicate_store)).
  { unfold unique_ids. simpl. repeat constructor; simpl; intuition discriminate. }
  destruct (C6_dedup_pass Samples.duplicate_store Hu) as (Hopen & _ & Hin).
  split; [exact Hu|]. split; [apply Hopen|].
  apply Hin. split; [simpl; auto|]. split.
  - intros k Hk. apply open_on_spec in Hk. destruct Hk as (_ & <- & _). reflexivity.
  - intros k Hk. apply closed_on_spec in Hk. destruct Hk as (Hk & _). discriminate.
Defined.

(** A closed and an open session of one employee and one checkin date: the
    pass deletes neither, and two rows share the pair afterwards. *)
Lemma C6_open_and_closed_both_stay :
  actions (validate_and_cleanup_duplicates Samples.mixed_store)
  = [Samples.closed_session 1 Samples.monday (hms 9 0 0) Samples.monday (hms 17 0 0);
     Samples.open_session 2 Samples.monday (hms 9 5 0)]
  /\ List.length
       (filter (fun r => String.eqb (employeeid r) "E1" && date_is (checkindate r) Samples.monday)
               (actions (validate_and_cleanup_duplicates Samples.mixed_store)))
     = 2%nat.
Proof. split; vm_compute; reflexivity. Qed.

End DedupProofs.

(* ================================================================== *)
(** * The reconciler: [process_checkout] and [process_checkin] *)
(* ================================================================== *)

Module ReconcilerProofs.
Import Py RedGinger Props.

Section Facts.
Variable master : list biometrics.
Variable now : datetime.

(** [process_checkout] ends in one of the six ways of [checkout_outcome]. *)
Lemma process_checkout_outcome rec force_auto st :
  checkout_outcome master rec force_auto st (process_checkout master rec force_auto st).
Proof.
  unfold process_checkout.
  destruct (is_processed _ st) eqn:Hseen; [apply checkout_seen; exact Hseen|].
  destruct (get_biometrics_data master (user_id rec)) as [bio|] eqn:Hbio;
    [|apply checkout_no_master; exact Hbio].
  destruct (checkout_exists _ _ st) eqn:Hex; [apply checkout_absorbed; exact Hex|].
  destruct (find_checkin_for_checkout _ _ _ st) as [r|] eqn:Hfind;
    [|apply checkout_deferred; exact Hfind].
  destruct (validate_checkout_time_logic _ _ _ _) eqn:Hval; simpl;
    [|eapply checkout_rejected; eauto].
  destruct (checkindate r) as [cd|] eqn:Hcd.
  - pose proof (checkout_applied master rec force_auto st bio r cd Hseen Hbio Hex Hfind) as H.
    rewrite Hcd in H. specialize (H Hval eq_refl).
    change (parse_time_string (PyTime (punch_time rec))) with (punch_time rec).
    destruct (checkout_status _ _ _ _) as [s1 s2]. exact H.
  - unfold validate_checkout_time_logic in Hval. discriminate.
Qed.

(** ** The session [find_checkin_for_checkout] returns *)

Lemma latest_checkin_fold rows best r :
  fold_left (fun best r =>
               match best with
               | None => Some r
               | Some b => if checkintime_geb (checkintime b) (checkintime r)
                           then Some b else Some r
               end) rows best = Some r ->
  best = Some r \/ In r rows.
Proof.
  revert best. induction rows as [|x rows IH]; simpl; intros best H; [auto|].
  apply IH in H. destruct H as [H|H]; [|auto].
  destruct best as [b|].
  - destruct (checkintime_geb _ _); injection H as <-; auto.
  - injection H as <-. auto.
Qed.

Lemma latest_checkin_In rows r : latest_checkin rows = Some r -> In r rows.
Proof.
  intros H. apply latest_checkin_fold in H. destruct H as [H|H]; [discriminate | exact H].
Qed.

Lemma search_checkin_found u pd pt dates st r :
  search_checkin u pd pt dates st = Some r ->
  exists sd,
    In sd dates /\ In r (open_sessions_on u sd st)
    /\ checkin_timestamp sd r < combine pd pt.
Proof.
  induction dates as [|sd dates IH]; simpl; [discriminate|].
  destruct (latest_checkin (open_sessions_on u sd st)) as [c|] eqn:Hl.
  - destruct (Z.ltb_spec (combine sd (parse_time_string (time_col (checkintime c))))
                         (combine pd pt)) as [Hlt|Hge].
    + intros [= <-]. exists sd. split; [auto|]. split; [|exact Hlt].
      apply latest_checkin_In. exact Hl.
    + intros H. destruct (IH H) as (x & ? & ?). exists x. auto.
  - intros H. destruct (IH H) as (x & ? & ?). exists x. auto.
Qed.

Lemma open_sessions_on_In u d st r :
  In r (open_sessions_on u d st)
  <-> In r (actions st) /\ employeeid r = u /\ checkindate r = Some d /\ checkouttime r = None.
Proof.
  unfold open_sessions_on. rewrite filter_In, !andb_true_iff, String.eqb_eq.
  unfold date_is, is_null.
  destruct (checkindate r) as [x|], (checkouttime r) as [y|];
    try rewrite Z.eqb_eq; intuition (try congruence; try discriminate).
Qed.

(** The session matched with a checkout is an open session of the employee,
    checked in on the checkout day or one of the two days before, and its
    checkin timestamp is before the checkout. *)
Lemma find_checkin_for_checkout_found u pd pt st r :
  find_checkin_for_checkout u pd pt st = Some r ->
  In r (actions st) /\ employeeid r = u /\ checkouttime r = None
  /\ exists sd, checkindate r = Some sd /\ pd - 2 <= sd <= pd
                /\ checkin_timestamp sd r < combine pd pt.
Proof.
  intros H. apply search_checkin_found in H. destruct H as (sd & Hsd & Hin & Hlt).
  apply open_sessions_on_In in Hin. destruct Hin as (Hr & He & Hd & Hc).
  repeat split; auto. exists sd. repeat split; auto;
    simpl in Hsd; intuition lia.
Qed.

Lemma validate_in_order cd r pd pt :
  validate_checkout_time_logic (Some cd) (time_col (checkintime r)) pd (PyTime pt) = true
  <-> checkout_in_order cd r pd pt.
Proof.
  unfold validate_checkout_time_logic, checkout_in_order, checkin_timestamp. simpl.
  destruct (Z.leb_spec (combine pd pt) (combine cd (parse_time_string (time_col (checkintime r))))).
  - split; [discriminate | intros [? _]; lia].
  - destruct (Z.eqb_spec cd pd); simpl.
    + destruct (Z.ltb_spec (combine pd pt - combine cd (parse_time_string (time_col (checkintime r)))) 3600).
      * split; [discriminate | intros [_ ?]; lia].
      * split; [intros _; split; [lia | intros _; lia] | reflexivity].
    + split; [intros _; split; [lia | intros ?; contradiction] | reflexivity].
Qed.

Lemma update_by_id_Forall2 (R : session -> session -> Prop) id f rows :
  (forall r, In r rows -> userpunchactionid r = id -> R r (f r)) ->
  (forall r, R r r) ->
  Forall2 R rows (update_by_id id f rows).
Proof.
  intros Hf Hr. unfold update_by_id. apply ScannerProofs.Forall2_map_right.
  intros r Hin. destruct (Z.eqb_spec (userpunchactionid r) id); auto.
Qed.

Lemma Forall2_refl {A} (R : A -> A -> Prop) l : (forall x, R x x) -> Forall2 R l l.
Proof. intros H. induction l; constructor; auto. Qed.

(** C4. Whatever checkout [process_checkout] is given, real or forced, a
    session it writes the checkout to was open, the checkout timestamp is
    after the session's checkin timestamp, and on the same calendar date at
    least 3600 seconds after it; no other row changes, none is added or
    deleted. A session for which the candidate is not in this order is left
    exactly as it was. *)
Theorem C4_checkout_after_checkin rec force_auto st :
  unique_ids (actions st) ->
  let pd := punch_date rec in
  let pt := punch_time rec in
  let st' := snd (process_checkout master rec force_auto st) in
  Forall2
    (fun r r' =>
       r' = r
       \/ exists cd reason status,
            checkindate r = Some cd /\ checkouttime r = None
            /\ checkout_in_order cd r pd pt
            /\ r' = set_checkout pt pd (combine pd pt) reason status r)
    (actions st) (actions st')
  /\ (forall r cd,
         In r (actions st) -> checkindate r = Some cd ->
         ~ checkout_in_order cd r pd pt -> In r (actions st')).
Proof.
  intros Hu pd pt st'. unfold st'.
  destruct (process_checkout_outcome rec force_auto st)
    as [ | | | | | bio c cd Hseen Hbio Hex Hfind Hval Hcd]; simpl;
    try (split; [apply Forall2_refl; auto | auto]).
  apply find_checkin_for_checkout_found in Hfind.
  destruct Hfind as (Hc & He & Hopen & sd & Hsd & _ & _).
  rewrite Hcd in Hval. apply validate_in_order in Hval.
  split.
  - apply update_by_id_Forall2; [|auto].
    intros r Hr Hid. right.
    assert (r = c) by (eapply ScannerProofs.unique_ids_inj; eauto). subst r.
    do 3 eexists. repeat split; eauto; apply Hval.
  - intros r cd' Hr Hd Hbad.
    unfold update_by_id.
    apply in_map_iff. exists r. split; [|exact Hr].
    destruct (Z.eqb_spec (userpunchactionid r) (userpunchactionid c)) as [E|]; [|reflexivity].
    assert (r = c) by (eapply ScannerProofs.unique_ids_inj; eauto). subst r.
    assert (cd' = cd) by congruence. subst cd'.
    exfalso. apply Hbad. exact Hval.
Qed.

End Facts.

Lemma C4_checkout_after_checkin_witness :
  unique_ids (actions Samples.open_store)
  /\ Forall2
       (fun r r' =>
          r' = r
          \/ exists cd reason status,
               checkindate r = Some cd /\ checkouttime r = None
               /\ checkout_in_order cd r Samples.monday (hms 17 0 0)
               /\ r' = set_checkout (hms 17 0 0) Samples.monday
                         (combine Samples.monday (hms 17 0 0)) reason status r)
       (actions Samples.open_store)
       (actions (snd (process_checkout Samples.master1 Samples.checkout_1700 false
                        Samples.open_store)))
  /\ In (Samples.open_session 1 Samples.monday (hms 9 0 0))
        (actions (snd (process_checkout Samples.master1 Samples.checkout_0930 false
                         Samples.open_store))).
Proof.
  assert (Hu : unique_ids (actions Samples.open_store)).
  { unfold unique_ids. simpl. repeat constructor; simpl; intuition discriminate. }
  split; [exact Hu|].
  pose proof (C4_checkout_after_checkin Samples.master1 Samples.checkout_1700 false
                Samples.open_store Hu) as H1.
  cbv zeta in H1. apply proj1 in H1.
  change (punch_date Samples.checkout_1700) with Samples.monday in H1.
  change (punch_time Samples.checkout_1700) with (hms 17 0 0) in H1.
  pose proof (C4_checkout_after_checkin Samples.master1 Samples.checkout_0930 false
                Samples.open_store Hu) as H2.
  cbv zeta in H2. apply proj2 in H2.
  split; [exact H1|].
  apply (H2 (Samples.open_session 1 Samples.monday (hms 9 0 0)) Samples.monday).
  - simpl. auto.
  - reflexivity.
  - unfold checkout_in_order, checkin_timestamp. vm_compute.
    intros [_ H]. apply (H eq_refl). reflexivity.
Defined.

End ReconcilerProofs.

(* ================================================================== *)
(** * Re-application of events: absorption and idempotence *)
(* ================================================================== *)

Module AbsorptionProofs.
Import Py RedGinger Props.

Lemma key_eqb_refl k : key_eqb k k = true.
Proof.
  destruct k as [[[u d] t] kd]. unfold key_eqb.
  rewrite !String.eqb_refl, !Z.eqb_refl. reflexivity.
Qed.

Lemma is_processed_add k st : is_processed k (add_processed k st) = true.
Proof. unfold is_processed, add_processed. simpl. rewrite key_eqb_refl. reflexivity. Qed.

Lemma is_processed_add_other k k' st :
  is_processed k st = true -> is_processed k (add_processed k' st) = true.
Proof. unfold is_processed, add_processed. simpl. intros ->. apply orb_true_r. Qed.

Lemma is_processed_with_actions k st a :
  is_processed k (with_actions st a) = is_processed k st.
Proof. reflexivity. Qed.

Section Facts.
Variable master : list biometrics.
Variable now : datetime.

(** What [process_checkout] leaves behind: either the state it found, or a
    state that remembers the record's key. *)
Lemma process_checkout_same_or_seen rec force st :
  snd (process_checkout master rec force st) = st
  \/ is_processed
       (create_record_key (user_id rec) (punch_date rec) (punch_time rec) "checkout")
       (snd (process_checkout master rec force st)) = true.
Proof.
  destruct (ReconcilerProofs.process_checkout_outcome master rec force st); simpl; auto;
    right; apply is_processed_add.
Qed.

Lemma process_checkout_seen rec force st :
  is_processed
    (create_record_key (user_id rec) (punch_date rec) (punch_time rec) "checkout") st = true ->
  process_checkout master rec force st = (true, st).
Proof. intros H. unfold process_checkout. rewrite H. reflexivity. Qed.

(** The in-memory set only grows. *)
Lemma process_checkout_keeps_seen k rec force st :
  is_processed k st = true ->
  is_processed k (snd (process_checkout master rec force st)) = true.
Proof.
  intros H.
  destruct (ReconcilerProofs.process_checkout_outcome master rec force st); simpl; auto;
    apply is_processed_add_other; auto.
Qed.

Lemma process_checkout_idem rec force st :
  snd (process_checkout master rec force (snd (process_checkout master rec force st)))
  = snd (process_checkout master rec force st).
Proof.
  destruct (process_checkout_same_or_seen rec force st) as [E|E].
  - rewrite E. exact E.
  - rewrite (process_checkout_seen _ _ _ E). reflexivity.
Qed.

(** The three early exits of [process_checkin] when the employee already
    has a session on the date: nothing is inserted, no log is flagged. *)
Lemma process_checkin_absorbed rec st :
  session_exists (user_id rec) (punch_date rec) st = true ->
  let key := create_record_key (user_id rec) (punch_date rec) (punch_time rec) "checkin" in
  process_checkin master now rec st
  = if is_processed key st then (true, st)
    else match get_biometrics_data master (user_id rec) with
         | None => (false, st)
         | Some _ => (true, add_processed key st)
         end.
Proof.
  intros H key. unfold process_checkin. fold key.
  destruct (is_processed key st); [reflexivity|].
  destruct (get_biometrics_data master (user_id rec)); [|reflexivity].
  rewrite H. reflexivity.
Qed.

Lemma process_checkin_seen rec st :
  is_processed
    (create_record_key (user_id rec) (punch_date rec) (punch_time rec) "checkin") st = true ->
  process_checkin master now rec st = (true, st).
Proof. intros H. unfold process_checkin. rewrite H. reflexivity. Qed.

Lemma process_checkin_same_or_seen rec st :
  snd (process_checkin master now rec st) = st
  \/ is_processed
       (create_record_key (user_id rec) (punch_date rec) (punch_time rec) "checkin")
       (snd (process_checkin master now rec st)) = true.
Proof.
  unfold process_checkin.
  destruct (is_processed _ st) eqn:Hseen; [auto|].
  destruct (get_biometrics_data master (user_id rec)) as [bio|]; [|auto].
  destruct (session_exists _ _ st); [right; apply is_processed_add|].
  destruct (calculate_punch_status _ _ true) as [s1 s2].
  right.
  match goal with
  | |- context [find_checkout_for_checkin ?n ?u ?d ?t ?s] =>
      destruct (find_checkout_for_checkin n u d t s)
  end; simpl.
  - apply process_checkout_keeps_seen, is_processed_add.
  - destruct (punch_date rec =? date_of now); simpl; [apply is_processed_add|].
    destruct (_ <? now); simpl;
      [apply process_checkout_keeps_seen|]; apply is_processed_add.
Qed.

Lemma process_checkin_idem rec st :
  snd (process_checkin master now rec (snd (process_checkin master now rec st)))
  = snd (process_checkin master now rec st).
Proof.
  destruct (process_checkin_same_or_seen rec st) as [E|E].
  - rewrite E. exact E.
  - rewrite (process_checkin_seen _ _ E). reflexivity.
Qed.

(** ** The durable checks *)

Lemma existsb_map_same {A} (p : A -> bool) (f : A -> A) l :
  (forall x, p (f x) = p x) -> existsb p (map f l) = existsb p l.
Proof.
  intros H. induction l as [|x l IH]; simpl; [reflexivity|]. rewrite H, IH. reflexivity.
Qed.

Lemma session_exists_update u d st id t cd dt reason status :
  session_exists u d
    (with_actions st (update_by_id id (set_checkout t cd dt reason status) (actions st)))
  = session_exists u d st.
Proof.
  unfold session_exists, update_by_id. simpl. apply existsb_map_same.
  intros r. destruct (userpunchactionid r =? id); reflexivity.
Qed.

(** [process_checkout] neither creates nor removes the session of an
    employee and checkin date. *)
Lemma process_checkout_keeps_session u d rec force st :
  session_exists u d (snd (process_checkout master rec force st)) = session_exists u d st.
Proof.
  destruct (ReconcilerProofs.process_checkout_outcome master rec force st); simpl; auto.
  unfold add_processed. apply session_exists_update.
Qed.

(** A checkout whose employee and date already have a closed session
    changes no session. *)
Lemma process_checkout_absorbed rec force st :
  checkout_exists (user_id rec) (punch_date rec) st = true ->
  actions (snd (process_checkout master rec force st)) = actions st.
Proof.
  intros H. unfold process_checkout.
  destruct (is_processed _ st); [reflexivity|].
  destruct (get_biometrics_data master (user_id rec)); [|reflexivity].
  rewrite H. reflexivity.
Qed.

Lemma get_biometrics_data_employee u b :
  get_biometrics_data master u = Some b -> bm_employeeid b = u.
Proof.
  unfold get_biometrics_data. intros H. apply find_some in H. destruct H as [_ H].
  apply andb_true_iff in H. destruct H as [H _]. apply String.eqb_eq. exact H.
Qed.

(** Once a checkout is written, the check for a closed session of the
    employee and checkout date answers yes. *)
Lemma checkout_exists_after_update c st t d dt reason status :
  In c (actions st) ->
  checkout_exists (employeeid c) d
    (with_actions st
       (update_by_id (userpunchactionid c) (set_checkout t d dt reason status) (actions st)))
  = true.
Proof.
  intros Hc. unfold checkout_exists, update_by_id. simpl.
  apply existsb_exists. exists (set_checkout t d dt reason status c). split.
  - apply in_map_iff. exists c. rewrite Z.eqb_refl. auto.
  - simpl. rewrite String.eqb_refl. unfold date_is. rewrite Z.eqb_refl. reflexivity.
Qed.

Lemma checkout_exists_processed u d st p :
  checkout_exists u d (with_processed st p) = checkout_exists u d st.
Proof. reflexivity. Qed.

Lemma session_exists_processed u d st p :
  session_exists u d (with_processed st p) = session_exists u d st.
Proof. reflexivity. Qed.

(** A checkout that went through once is absorbed by the closed session it
    left, whatever the in-memory set holds afterwards. *)
Lemma process_checkout_durable rec force st p :
  is_processed
    (create_record_key (user_id rec) (punch_date rec) (punch_time rec) "checkout") st = false ->
  fst (process_checkout master rec force st) = true ->
  actions (snd (process_checkout master rec force
                  (with_processed (snd (process_checkout master rec force st)) p)))
  = actions (snd (process_checkout master rec force st)).
Proof.
  intros Hnew Hok.
  destruct (ReconcilerProofs.process_checkout_outcome master rec force st)
    as [Hseen| | Hex | | | bio c cd _ Hbio Hex Hfind Hval Hcd]; simpl in *;
    try discriminate; try congruence.
  - rewrite process_checkout_absorbed; [reflexivity|]. exact Hex.
  - rewrite process_checkout_absorbed; [reflexivity|].
    apply ReconcilerProofs.find_checkin_for_checkout_found in Hfind.
    destruct Hfind as (Hc & He & _).
    rewrite checkout_exists_processed. unfold add_processed.
    rewrite checkout_exists_processed. rewrite <- He.
    apply checkout_exists_after_update. exact Hc.
Qed.

Lemma session_exists_app u d st row lg n p t :
  employeeid row = u -> checkindate row = Some d ->
  session_exists u d (mk_state lg (actions st ++ [row]) n p t) = true.
Proof.
  intros He Hd. unfold session_exists. simpl. rewrite existsb_app. simpl.
  rewrite He, Hd, String.eqb_refl. unfold date_is. rewrite Z.eqb_refl.
  simpl. apply orb_true_r.
Qed.

(** After a checkin went through, the employee has a session on the date. *)
Lemma process_checkin_leaves_session rec st :
  is_processed
    (create_record_key (user_id rec) (punch_date rec) (punch_time rec) "checkin") st = false ->
  fst (process_checkin master now rec st) = true ->
  session_exists (user_id rec) (punch_date rec) (snd (process_checkin master now rec st)) = true.
Proof.
  intros Hnew. unfold process_checkin. rewrite Hnew.
  destruct (get_biometrics_data master (user_id rec)) as [bio|] eqn:Hbio; [|discriminate].
  destruct (session_exists _ _ st) eqn:Hex; [intros _; exact Hex|].
  destruct (calculate_punch_status _ _ true) as [s1 s2]. intros _.
  assert (Hrow : forall lg n p t,
             session_exists (user_id rec) (punch_date rec)
               (mk_state lg (actions st ++ [new_session (next_id st) bio rec s1 s2]) n p t)
             = true).
  { intros. apply session_exists_app; [|reflexivity].
    simpl. apply get_biometrics_data_employee. exact Hbio. }
  match goal with
  | |- context [find_checkout_for_checkin ?n ?u ?d ?t ?s] =>
      destruct (find_checkout_for_checkin n u d t s)
  end; simpl.
  - rewrite process_checkout_keeps_session. apply Hrow.
  - destruct (punch_date rec =? date_of now); simpl; [apply Hrow|].
    destruct (_ <? now); simpl; [|apply Hrow].
    rewrite process_checkout_keeps_session. apply Hrow.
Qed.

Lemma process_checkin_durable rec st p :
  is_processed
    (create_record_key (user_id rec) (punch_date rec) (punch_time rec) "checkin") st = false ->
  fst (process_checkin master now rec st) = true ->
  actions (snd (process_checkin master now rec
                  (with_processed (snd (process_checkin master now rec st)) p)))
  = actions (snd (process_checkin master now rec st)).
Proof.
  intros Hnew Hok.
  pose proof (process_checkin_leaves_session rec st Hnew Hok) as Hex.
  rewrite process_checkin_absorbed by (rewrite session_exists_processed; exact Hex).
  match goal with
  | |- context [if ?b then _ else _] => destruct b
  end; [reflexivity|].
  destruct (get_biometrics_data master (user_id rec)); reflexivity.
Qed.

(** C1 (as amended). An event applied a second time is absorbed: applying
    one checkin, or one checkout, twice in a row leaves the processor in
    the state the first application left; and when the event went through
    the first time, a later application changes no session even if the
    in-memory set of processed keys was lost in between, because the
    session of the (employee, checkin date), respectively the closed
    session of the (employee, checkout date), is found. *)
Theorem C1_reapplied_event_absorbed rec st :
  (forall force,
      snd (process_checkout master rec force (snd (process_checkout master rec force st)))
      = snd (process_checkout master rec force st))
  /\ snd (process_checkin master now rec (snd (process_checkin master now rec st)))
     = snd (process_checkin master now rec st)
  /\ (forall force p,
         is_processed
           (create_record_key (user_id rec) (punch_date rec) (punch_time rec) "checkout") st
         = false ->
         fst (process_checkout master rec force st) = true ->
         actions (snd (process_checkout master rec force
                         (with_processed (snd (process_checkout master rec force st)) p)))
         = actions (snd (process_checkout master rec force st)))
  /\ (forall p,
         is_processed
           (create_record_key (user_id rec) (punch_date rec) (punch_time rec) "checkin") st
         = false ->
         fst (process_checkin master now rec st) = true ->
         actions (snd (process_checkin master now rec
                         (with_processed (snd (process_checkin master now rec st)) p)))
         = actions (snd (process_checkin master now rec st))).
Proof.
  split; [intros force; apply process_checkout_idem|].
  split; [apply process_checkin_idem|].
  split; [intros force p; apply process_checkout_durable|].
  intros p. apply process_checkin_durable.
Qed.

End Facts.

End AbsorptionProofs.

(* ================================================================== *)
(** * A checkin for a day that already has a session *)
(* ================================================================== *)

Module ExistingSessionProofs.
Import Py RedGinger Props.

(** ** westlands.py *)

Lemma update_migration_status_idem e d k s st :
  Westlands.update_migration_status e d k s (Westlands.update_migration_status e d k s st)
  = Westlands.update_migration_status e d k s st.
Proof.
  unfold Westlands.update_migration_status. simpl. f_equal.
  rewrite map_map. apply map_ext. intros l.
  destruct (String.eqb (Westlands.user_id l) e && (Westlands.punch_date l =? d)
            && String.eqb (Westlands.punch_type l) k) eqn:E; simpl; rewrite E; reflexivity.
Qed.

(** The loop that marks once per log marks what a single statement marks. *)
Lemma mark_each_once l ls e d k s st :
  Westlands.mark_each (l :: ls) e d k s st = Westlands.update_migration_status e d k s st.
Proof.
  unfold Westlands.mark_each. simpl.
  induction ls as [|x ls IH]; simpl; [reflexivity|].
  rewrite update_migration_status_idem. exact IH.
Qed.

(** The pipeline of westlands.py on a batch of checkin logs of an employee
    who already has a session on the date: the sessions stay as they are
    and the employee's checkin logs of the date are flagged [Duplicate]. *)
Lemma westlands_existing_checkin gb gsa gsm user_logs current_date st
      first rest bio shift_id shift existing c cs :
  user_logs = first :: rest ->
  gb (Westlands.user_id first) = Some bio ->
  Westlands.bd_statusid bio = "1" ->
  gsa (Westlands.bd_userid bio) current_date = Some shift_id ->
  gsm shift_id = Some shift ->
  Westlands.check_existing_checkin (Westlands.bd_userid bio) current_date st = Some existing ->
  filter (fun l => String.eqb (lower (Westlands.punch_type l)) "checkin") user_logs = c :: cs ->
  filter (fun l => String.eqb (lower (Westlands.punch_type l)) "checkout") user_logs = [] ->
  Westlands.process_user_attendance gb gsa gsm user_logs current_date st
  = Westlands.update_migration_status (Westlands.user_id first) current_date
      "checkin" "Duplicate" st.
Proof.
  intros -> Hbio Hst Hsa Hsm Hex Hci Hco.
  unfold Westlands.process_user_attendance.
  rewrite Hbio, Hst, Hsa, Hsm. cbn [String.eqb Ascii.eqb Bool.eqb negb].
  rewrite Hci, Hco, Hex, mark_each_once.
  destruct (Westlands.check_existing_checkin _ _ _); reflexivity.
Qed.

(** ** redginger.py *)

Lemma absorbed_fetch master now rec st start_date end_date :
  session_exists (user_id rec) (punch_date rec) st = true ->
  get_attendance_logs_by_date_range start_date end_date
    (snd (process_checkin master now rec st))
  = get_attendance_logs_by_date_range start_date end_date st.
Proof.
  intros H. rewrite AbsorptionProofs.process_checkin_absorbed by exact H.
  destruct (is_processed _ st); [reflexivity|].
  destruct (get_biometrics_data master (user_id rec)); reflexivity.
Qed.

(** C7 (as amended). A checkin event whose employee already has a session
    on the date inserts no row and changes no session. redginger.py notes
    the event's key in the in-memory set of the processor and leaves the
    attendance logs as they are: an event that was pending is still
    fetched by the next pass. westlands.py flags the employee's checkin
    logs of the date [Duplicate]. *)
Theorem C7_existing_session_absorbs_checkin :
  (forall master now rec st,
      session_exists (user_id rec) (punch_date rec) st = true ->
      let st' := snd (process_checkin master now rec st) in
      actions st' = actions st
      /\ logs st' = logs st
      /\ next_id st' = next_id st
      /\ (forall start_date end_date,
             get_attendance_logs_by_date_range start_date end_date st'
             = get_attendance_logs_by_date_range start_date end_date st)
      /\ (get_biometrics_data master (user_id rec) <> None ->
          fst (process_checkin master now rec st) = true
          /\ is_processed
               (create_record_key (user_id rec) (punch_date rec) (punch_time rec) "checkin")
               st' = true))
  /\ (forall gb gsa gsm user_logs current_date st first rest bio shift_id shift existing c cs,
         user_logs = first :: rest ->
         gb (Westlands.user_id first) = Some bio ->
         Westlands.bd_statusid bio = "1" ->
         gsa (Westlands.bd_userid bio) current_date = Some shift_id ->
         gsm shift_id = Some shift ->
         Westlands.check_existing_checkin (Westlands.bd_userid bio) current_date st
         = Some existing ->
         filter (fun l => String.eqb (lower (Westlands.punch_type l)) "checkin") user_logs
         = c :: cs ->
         filter (fun l => String.eqb (lower (Westlands.punch_type l)) "checkout") user_logs
         = [] ->
         let st' := Westlands.process_user_attendance gb gsa gsm user_logs current_date st in
         Westlands.actions st' = Westlands.actions st
         /\ Forall2
              (fun l l' =>
                 Westlands.user_id l' = Westlands.user_id l
                 /\ Westlands.punch_date l' = Westlands.punch_date l
                 /\ Westlands.punch_time l' = Westlands.punch_time l
                 /\ Westlands.punch_type l' = Westlands.punch_type l
                 /\ Westlands.device_id l' = Westlands.device_id l
                 /\ Westlands.migration_status l'
                    = if String.eqb (Westlands.user_id l) (Westlands.user_id first)
                         && (Westlands.punch_date l =? current_date)
                         && String.eqb (Westlands.punch_type l) "checkin"
                      then "Duplicate" else Westlands.migration_status l)
              (Westlands.logs st) (Westlands.logs st')).
Proof.
  split.
  - intros master now rec st H st'. unfold st'.
    split; [|split; [|split; [|split]]].
    1-3: rewrite AbsorptionProofs.process_checkin_absorbed by exact H;
      destruct (is_processed _ st); [reflexivity|];
      destruct (get_biometrics_data master (user_id rec)); reflexivity.
    + intros. apply absorbed_fetch. exact H.
    + intros Hbio. rewrite AbsorptionProofs.process_checkin_absorbed by exact H.
      destruct (is_processed _ st) eqn:E; [auto|].
      destruct (get_biometrics_data master (user_id rec)); [|contradiction].
      split; [reflexivity | apply AbsorptionProofs.is_processed_add].
  - intros gb gsa gsm user_logs current_date st first rest bio shift_id shift existing c cs
           Hl Hbio Hst Hsa Hsm Hex Hci Hco st'.
    unfold st'.
    rewrite (westlands_existing_checkin gb gsa gsm user_logs current_date st first rest bio
               shift_id shift existing c cs Hl Hbio Hst Hsa Hsm Hex Hci Hco).
    split; [reflexivity|].
    unfold Westlands.update_migration_status. simpl.
    apply ScannerProofs.Forall2_map_right. intros l _.
    destruct (String.eqb (Westlands.user_id l) (Westlands.user_id first)
              && (Westlands.punch_date l =? current_date)
              && String.eqb (Westlands.punch_type l) "checkin"); simpl; auto 10.
Qed.

Lemma C7_existing_session_absorbs_checkin_witness :
  actions (snd (process_checkin Samples.master1 (Samples.noon Samples.monday)
                  Samples.late_checkin Samples.absorbing_store))
  = actions Samples.absorbing_store
  /\ Westlands.actions
       (Westlands.process_user_attendance Samples.wl_master Samples.wl_allocation
          Samples.wl_shift (Westlands.logs Samples.wl_store) Samples.monday Samples.wl_store)
     = Westlands.actions Samples.wl_store.
Proof.
  destruct C7_existing_session_absorbs_checkin as [rg wl]. split.
  - apply (rg Samples.master1 (Samples.noon Samples.monday) Samples.late_checkin
              Samples.absorbing_store). reflexivity.
  - apply (wl Samples.wl_master Samples.wl_allocation Samples.wl_shift
              (Westlands.logs Samples.wl_store) Samples.monday Samples.wl_store
              (Samples.wl_log "09:10:00" "checkin") [] Samples.wl_bio 7
              (Westlands.mk_shift_data (PyStr "09:00") (PyStr "17:00"))
              (Samples.wl_open_session "09:00:00")
              (Samples.wl_log "09:10:00" "checkin") []); reflexivity.
Defined.

(** In redginger.py a second checkin of a day that has a session stays
    pending in the logs and is fetched again. *)
Lemma C7_redginger_event_stays_pending :
  session_exists "E1" Samples.monday Samples.absorbing_store = true
  /\ map migration_status
       (logs (snd (process_checkin Samples.master1 (Samples.noon Samples.monday)
                     Samples.late_checkin Samples.absorbing_store)))
     = ["No"]
  /\ get_attendance_logs_by_date_range Samples.monday Samples.monday
       (snd (process_checkin Samples.master1 (Samples.noon Samples.monday)
               Samples.late_checkin Samples.absorbing_store))
     = [Samples.late_checkin].
Proof. repeat split; vm_compute; reflexivity. Qed.

End ExistingSessionProofs.

(* ================================================================== *)
(** * The full cycle run twice *)
(* ================================================================== *)

Module CycleProofs.
Import Py RedGinger Props.

Lemma C1_reapplied_event_absorbed_witness :
  fst (process_checkin Samples.master1 (Samples.noon Samples.thursday)
         Samples.monday_checkin Samples.lone_checkin_store) = true
  /\ actions
       (snd (process_checkin Samples.master1 (Samples.noon Samples.thursday)
               Samples.monday_checkin
               (with_processed
                  (snd (process_checkin Samples.master1 (Samples.noon Samples.thursday)
                          Samples.monday_checkin Samples.lone_checkin_store))
                  [])))
     = actions
         (snd (process_checkin Samples.master1 (Samples.noon Samples.thursday)
                 Samples.monday_checkin Samples.lone_checkin_store)).
Proof.
  split; [reflexivity|].
  apply (AbsorptionProofs.C1_reapplied_event_absorbed Samples.master1
           (Samples.noon Samples.thursday) Samples.monday_checkin Samples.lone_checkin_store);
    reflexivity.
Defined.

(** Three pending events of one employee: a Monday checkin, a Tuesday
    checkin, a Tuesday checkout at 23:00; the cycle runs on Thursday noon.
    The first cycle closes the Monday session with the Tuesday checkout and
    leaves the Tuesday session open, with every log flagged applied. The
    second cycle, at the same clock and over the same events, closes the
    Tuesday session with a forced checkout on Wednesday 05:00. *)
Lemma C1_second_cycle_changes_store :
  let now := Samples.noon Samples.thursday in
  let once := sync_incremental Samples.master1 now Samples.fresh_store in
  let twice := sync_incremental Samples.master1 now once in
  map (fun r => (checkindate r, checkoutdate r, checkouttime r, punchoutstatus r))
      (actions once)
  = [(Some Samples.monday, Some Samples.tuesday, Some (hms 23 0 0), Some "manual");
     (Some Samples.tuesday, None, None, None)]
  /\ map migration_status (logs once) = ["Yes"; "Yes"; "Yes"]
  /\ map (fun r => (checkindate r, checkoutdate r, checkouttime r, punchoutstatus r))
         (actions twice)
     = [(Some Samples.monday, Some Samples.tuesday, Some (hms 23 0 0), Some "manual");
        (Some Samples.tuesday, Some Samples.wednesday, Some (hms 5 0 0), Some "auto")]
  /\ actions twice <> actions once.
Proof.
  repeat split; try (vm_compute; reflexivity).
  vm_compute. discriminate.
Qed.

End CycleProofs.

(* ================================================================== *)
(** * The forced checkout *)
(* ================================================================== *)

Module ForcedCheckoutProofs.
Import Py RedGinger Props.

Lemma filter_nil {A} (p : A -> bool) l :
  (forall x, In x l -> p x = false) -> filter p l = [].
Proof.
  induction l as [|x l IH]; simpl; intros H; [reflexivity|].
  rewrite (H x) by auto. apply IH. auto.
Qed.

Lemma mark_migrated_punches p ls : map l_punch (mark_migrated p ls) = map l_punch ls.
Proof.
  unfold mark_migrated. rewrite map_map. apply map_ext.
  intros l. destruct (same_punch p l); reflexivity.
Qed.

Lemma find_checkout_none now u pd pt st :
  no_checkout_logged u pd pt (logs st) ->
  find_checkout_for_checkin now u pd pt st = None.
Proof.
  intros H. unfold find_checkout_for_checkin.
  assert (E1 : filter (fun p => pt <? punch_time p) (checkout_logs_on u pd st) = []).
  { apply filter_nil. intros p Hp. unfold checkout_logs_on in Hp.
    apply filter_In in Hp. destruct Hp as [Hp Hc].
    apply in_map_iff in Hp. destruct Hp as [l [<- Hl]].
    apply andb_true_iff in Hc. destruct Hc as [Hc Hd].
    apply andb_true_iff in Hc. destruct Hc as [Hu Hk].
    apply String.eqb_eq in Hu, Hk. apply Z.eqb_eq in Hd.
    destruct (H l Hl Hu Hk) as [Hn _].
    destruct (Z.ltb_spec pt (punch_time (l_punch l))); [|reflexivity].
    exfalso. apply Hn. auto. }
  assert (E2 : checkout_logs_on u (pd + 1) st = []).
  { unfold checkout_logs_on. apply filter_nil. intros p Hp.
    apply in_map_iff in Hp. destruct Hp as [l [<- Hl]].
    destruct (String.eqb (user_id (l_punch l)) u) eqn:Hu; [|reflexivity].
    destruct (String.eqb (punch_type (l_punch l)) "checkout") eqn:Hk; [|reflexivity].
    apply String.eqb_eq in Hu, Hk. destruct (H l Hl Hu Hk) as [_ Hn].
    simpl. apply Z.eqb_neq. exact Hn. }
  rewrite E1, E2. simpl. destruct (pd <? date_of now); reflexivity.
Qed.

Lemma session_exists_false u d st r :
  session_exists u d st = false -> In r (actions st) ->
  String.eqb (employeeid r) u && date_is (checkindate r) d = false.
Proof.
  unfold session_exists. intros H Hr.
  destruct (String.eqb (employeeid r) u && date_is (checkindate r) d) eqn:E; [|reflexivity].
  assert (existsb (fun r => String.eqb (employeeid r) u && date_is (checkindate r) d)
                  (actions st) = true) by (apply existsb_exists; eauto).
  congruence.
Qed.

Lemma update_fresh_id id f rows row :
  (forall r, In r rows -> userpunchactionid r <> id) ->
  userpunchactionid row = id ->
  update_by_id id f (rows ++ [row]) = (rows ++ [f row])%list.
Proof.
  intros Hfresh Hid. unfold update_by_id. rewrite map_app. simpl.
  rewrite Hid, Z.eqb_refl. f_equal.
  rewrite <- (map_id rows) at 2. apply map_ext_in. intros r Hr.
  destruct (Z.eqb_spec (userpunchactionid r) id); [|reflexivity].
  exfalso. eapply Hfresh; eauto.
Qed.

Section Facts.
Variable master : list biometrics.
Variable now : datetime.

(** The forced checkout handed to [process_checkout] right after the
    insertion of [row] closes [row], and only it. *)
Lemma forced_checkout_closes_new_row st lg n p t u pd pt bio row :
  valid_time pt ->
  get_biometrics_data master u = Some bio ->
  session_exists u pd st = false ->
  (forall r, In r (actions st) -> userpunchactionid r <> next_id st) ->
  existsb (key_eqb (create_record_key u (pd + 1) auto_checkout_time "checkout")) p = false ->
  checkout_exists u (pd + 1) st = false ->
  (forall r, In r (actions st) -> employeeid r = u -> checkindate r = Some (pd + 1) ->
             checkouttime r = None ->
             exists ci, checkintime r = Some ci /\ auto_checkout_time <= ci) ->
  userpunchactionid row = next_id st -> employeeid row = u ->
  checkindate row = Some pd -> checkintime row = Some pt -> checkouttime row = None ->
  actions (snd (process_checkout master (auto_checkout_record u pd) true
                  (mk_state lg (actions st ++ [row]) n p t)))
  = (actions st ++
     [set_checkout auto_checkout_time (pd + 1) (combine (pd + 1) auto_checkout_time)
        "" "auto" row])%list.
Proof.
  intros Hpt Hbio Hnone Hfresh Hkey Hex Hlater Hid He Hd Hci Hco.
  set (s1 := mk_state lg (actions st ++ [row]) n p t).
  assert (Hopen1 : forall c, In c (open_sessions_on u (pd + 1) s1) ->
             exists ci, checkintime c = Some ci /\ auto_checkout_time <= ci).
  { intros c Hc. apply ReconcilerProofs.open_sessions_on_In in Hc.
    destruct Hc as (Hin & Hce & Hcd & Hcc). simpl in Hin.
    apply in_app_iff in Hin. destruct Hin as [Hin|[<-|[]]]; [eauto|].
    rewrite Hd in Hcd. injection Hcd as Hcd. lia. }
  assert (Hopen0 : open_sessions_on u pd s1 = [row]).
  { unfold open_sessions_on. simpl. rewrite filter_app. simpl.
    rewrite He, Hd, Hco, String.eqb_refl. unfold date_is. rewrite Z.eqb_refl. simpl.
    rewrite filter_nil; [reflexivity|].
    intros r Hr. fold (date_is (checkindate r) pd).
    rewrite (session_exists_false u pd st r Hnone Hr). reflexivity. }
  assert (Hfind : find_checkin_for_checkout u (pd + 1) auto_checkout_time s1 = Some row).
  { unfold find_checkin_for_checkout. cbn [search_checkin].
    assert (Hskip : forall k,
       match latest_checkin (open_sessions_on u (pd + 1) s1) with
       | Some checkin_record =>
           if combine (pd + 1) (parse_time_string (time_col (checkintime checkin_record)))
              <? combine (pd + 1) (parse_time_string (PyTime auto_checkout_time))
           then Some checkin_record else k
       | None => k
       end = k).
    { intros k. destruct (latest_checkin _) as [c|] eqn:Hl; [|reflexivity].
      apply ReconcilerProofs.latest_checkin_In in Hl.
      destruct (Hopen1 c Hl) as (ci & Eci & Hle). rewrite Eci. simpl.
      destruct (Z.ltb_spec (combine (pd + 1) ci) (combine (pd + 1) auto_checkout_time));
        [|reflexivity].
      unfold combine in *. lia. }
    rewrite Hskip.
    replace (pd + 1 - 1) with pd by lia. rewrite Hopen0. simpl. rewrite Hci. simpl.
    destruct (Z.ltb_spec (combine pd pt) (combine (pd + 1) auto_checkout_time));
      [reflexivity|].
    unfold combine, auto_checkout_time, hms, valid_time in *. lia. }
  unfold process_checkout. cbn [user_id punch_date punch_time auto_checkout_record].
  unfold is_processed. cbn [processed_records s1]. rewrite Hkey, Hbio.
  assert (Hex1 : checkout_exists u (pd + 1) s1 = false).
  { unfold checkout_exists in *. simpl. rewrite existsb_app, Hex. simpl.
    rewrite Hco. simpl. rewrite !andb_false_r. reflexivity. }
  rewrite Hex1, Hfind, Hd, Hci.
  assert (Hval : validate_checkout_time_logic (Some pd) (time_col (Some pt)) (pd + 1)
                   (PyTime auto_checkout_time) = true).
  { unfold validate_checkout_time_logic. simpl.
    destruct (Z.leb_spec (combine (pd + 1) auto_checkout_time) (combine pd pt)).
    - unfold combine, auto_checkout_time, hms, valid_time in *. lia.
    - replace (pd =? pd + 1) with false by (symmetry; apply Z.eqb_neq; lia).
      reflexivity. }
  rewrite Hval. simpl. rewrite Hid.
  apply update_fresh_id; auto.
Qed.

Lemma no_checkout_logged_marked u pd pt rec ls :
  no_checkout_logged u pd pt ls -> no_checkout_logged u pd pt (mark_migrated rec ls).
Proof.
  intros H l Hl. unfold mark_migrated in Hl. apply in_map_iff in Hl.
  destruct Hl as [l0 [<- Hl0]].
  destruct (same_punch rec l0); simpl; apply (H l0 Hl0).
Qed.

(** [process_checkin] on a new checkin of a day other than today for which
    the logs hold no checkout: the session is inserted, and left open up to
    the deadline. *)
Lemma process_checkin_before_deadline rec st bio :
  is_processed
    (create_record_key (user_id rec) (punch_date rec) (punch_time rec) "checkin") st = false ->
  get_biometrics_data master (user_id rec) = Some bio ->
  session_exists (user_id rec) (punch_date rec) st = false ->
  no_checkout_logged (user_id rec) (punch_date rec) (punch_time rec) (logs st) ->
  now <= combine (punch_date rec + 1) auto_checkout_time ->
  actions (snd (process_checkin master now rec st))
  = (actions st ++
     [new_session (next_id st) bio rec
        (fst (calculate_punch_status (PyTime (punch_time rec))
                (PyStr (bm_shiftstarttime bio)) true))
        (snd (calculate_punch_status (PyTime (punch_time rec))
                (PyStr (bm_shiftstarttime bio)) true))])%list.
Proof.
  intros Hnew Hbio Hnone Hlogs Hdl.
  unfold process_checkin. rewrite Hnew, Hbio, Hnone.
  destruct (calculate_punch_status _ _ true) as [s1 s2].
  rewrite find_checkout_none
    by (unfold add_processed; simpl; apply no_checkout_logged_marked; exact Hlogs).
  destruct (punch_date rec =? date_of now); [reflexivity|].
  destruct (Z.ltb_spec (combine (punch_date rec + 1) auto_checkout_time) now); [lia|].
  reflexivity.
Qed.

Lemma process_checkin_after_deadline rec st bio :
  valid_time (punch_time rec) ->
  is_processed
    (create_record_key (user_id rec) (punch_date rec) (punch_time rec) "checkin") st = false ->
  get_biometrics_data master (user_id rec) = Some bio ->
  session_exists (user_id rec) (punch_date rec) st = false ->
  no_checkout_logged (user_id rec) (punch_date rec) (punch_time rec) (logs st) ->
  punch_date rec <> date_of now ->
  combine (punch_date rec + 1) auto_checkout_time < now ->
  (forall r, In r (actions st) -> userpunchactionid r <> next_id st) ->
  is_processed
    (create_record_key (user_id rec) (punch_date rec + 1) auto_checkout_time "checkout") st
  = false ->
  checkout_exists (user_id rec) (punch_date rec + 1) st = false ->
  (forall r, In r (actions st) -> employeeid r = user_id rec ->
             checkindate r = Some (punch_date rec + 1) -> checkouttime r = None ->
             exists ci, checkintime r = Some ci /\ auto_checkout_time <= ci) ->
  actions (snd (process_checkin master now rec st))
  = (actions st ++
     [set_checkout auto_checkout_time (punch_date rec + 1)
        (combine (punch_date rec + 1) auto_checkout_time) "" "auto"
        (new_session (next_id st) bio rec
           (fst (calculate_punch_status (PyTime (punch_time rec))
                   (PyStr (bm_shiftstarttime bio)) true))
           (snd (calculate_punch_status (PyTime (punch_time rec))
                   (PyStr (bm_shiftstarttime bio)) true)))])%list.
Proof.
  intros Hpt Hnew Hbio Hnone Hlogs Hday Hdl Hfresh Hakey Hex Hlater.
  unfold process_checkin. rewrite Hnew, Hbio, Hnone.
  destruct (calculate_punch_status _ _ true) as [s1 s2].
  rewrite find_checkout_none
    by (unfold add_processed; simpl; apply no_checkout_logged_marked; exact Hlogs).
  replace (punch_date rec =? date_of now) with false by (symmetry; apply Z.eqb_neq; exact Hday).
  destruct (Z.ltb_spec (combine (punch_date rec + 1) auto_checkout_time) now); [|lia].
  unfold add_processed, with_processed. cbn [snd logs actions next_id processed_records last_sync_time].
  apply forced_checkout_closes_new_row with (bio := bio) (pt := punch_time rec); auto.
  - simpl. unfold is_processed in Hakey. rewrite Hakey.
    unfold key_eqb, create_record_key. cbn [String.eqb Ascii.eqb Bool.eqb].
    rewrite !andb_false_r. reflexivity.
  - simpl. apply AbsorptionProofs.get_biometrics_data_employee with (master := master).
    exact Hbio.
Qed.

End Facts.

(** What [auto_checkout] of westlands.py writes. *)
Lemma westlands_auto_checkout u d st :
  Forall2
    (fun r r' =>
       if String.eqb (Westlands.userid r) u && Westlands.date_is (Westlands.checkindate r) d
          && Westlands.is_null (Westlands.checkouttime r)
       then Westlands.checkoutdate r' = Some d
            /\ Westlands.checkouttime r' = Some (PyStr "21:00")
            /\ Westlands.punchoutstatus r' = Some "auto checkout"
            /\ Westlands.punchoutreason r' = Some "auto checkout"
            /\ Westlands.checkindate r' = Westlands.checkindate r
            /\ Westlands.checkintime r' = Westlands.checkintime r
       else r' = r)
    (Westlands.actions st) (Westlands.actions (Westlands.auto_checkout u d st)).
Proof.
  unfold Westlands.auto_checkout. simpl. apply ScannerProofs.Forall2_map_right.
  intros r _.
  destruct (String.eqb (Westlands.userid r) u && Westlands.date_is (Westlands.checkindate r) d
            && Westlands.is_null (Westlands.checkouttime r)); simpl; auto 10.
Qed.

(** C5 (as amended). redginger.py: when [process_checkin] inserts the
    session of a checkin of a day other than today and the logs hold no
    checkout of the employee later that day or on the next day, the session
    is left open as long as the clock is not past 05:00 of the next day;
    past it, the forced checkout closes the session at exactly 05:00:00 of
    the next day with status auto and empty reason, provided the forced
    record's key is not yet in the processed set, no session of the
    employee is already closed on that next day, and the employee has no
    open session of the next day checked in before 05:00. westlands.py
    closes an open session at 21:00 of the checkin day itself with status
    and reason [auto checkout]. *)
Theorem C5_forced_checkout :
  (forall master now rec st bio,
      let u := user_id rec in
      let pd := punch_date rec in
      let pt := punch_time rec in
      let status :=
        calculate_punch_status (PyTime pt) (PyStr (bm_shiftstarttime bio)) true in
      let row := new_session (next_id st) bio rec (fst status) (snd status) in
      valid_time pt ->
      is_processed (create_record_key u pd pt "checkin") st = false ->
      get_biometrics_data master u = Some bio ->
      session_exists u pd st = false ->
      no_checkout_logged u pd pt (logs st) ->
      pd <> date_of now ->
      (now <= combine (pd + 1) auto_checkout_time ->
       actions (snd (process_checkin master now rec st)) = (actions st ++ [row])%list)
      /\ (combine (pd + 1) auto_checkout_time < now ->
          (forall r, In r (actions st) -> userpunchactionid r <> next_id st) ->
          is_processed (create_record_key u (pd + 1) auto_checkout_time "checkout") st
          = false ->
          checkout_exists u (pd + 1) st = false ->
          (forall r, In r (actions st) -> employeeid r = u ->
                     checkindate r = Some (pd + 1) -> checkouttime r = None ->
                     exists ci, checkintime r = Some ci /\ auto_checkout_time <= ci) ->
          actions (snd (process_checkin master now rec st))
          = (actions st ++
             [set_checkout (hms 5 0 0) (pd + 1) (combine (pd + 1) (hms 5 0 0))
                "" "auto" row])%list))
  /\ (forall u d st,
         Forall2
           (fun r r' =>
              if String.eqb (Westlands.userid r) u
                 && Westlands.date_is (Westlands.checkindate r) d
                 && Westlands.is_null (Westlands.checkouttime r)
              then Westlands.checkoutdate r' = Some d
                   /\ Westlands.checkouttime r' = Some (PyStr "21:00")
                   /\ Westlands.punchoutstatus r' = Some "auto checkout"
                   /\ Westlands.punchoutreason r' = Some "auto checkout"
                   /\ Westlands.checkindate r' = Westlands.checkindate r
                   /\ Westlands.checkintime r' = Westlands.checkintime r
              else r' = r)
           (Westlands.actions st) (Westlands.actions (Westlands.auto_checkout u d st))).
Proof.
  split.
  - intros master now rec st bio u pd pt status row Hpt Hnew Hbio Hnone Hlogs Hday.
    split.
    + intros Hdl. apply process_checkin_before_deadline; auto.
    + intros Hdl Hfresh Hakey Hex Hlater.
      apply process_checkin_after_deadline; auto.
  - apply westlands_auto_checkout.
Qed.

Lemma C5_forced_checkout_witness :
  actions (snd (process_checkin Samples.master1 (Samples.noon Samples.thursday)
                  Samples.monday_checkin Samples.lone_checkin_store))
  = [set_checkout (hms 5 0 0) Samples.tuesday (combine Samples.tuesday (hms 5 0 0))
       "" "auto" (Samples.open_session 1 Samples.monday (hms 9 0 0))]
  /\ actions (snd (process_checkin Samples.master1 (combine Samples.tuesday (hms 4 0 0))
                     Samples.monday_checkin Samples.lone_checkin_store))
     = [Samples.open_session 1 Samples.monday (hms 9 0 0)].
Proof.
  destruct C5_forced_checkout as [rg _]. split.
  - apply (rg Samples.master1 (Samples.noon Samples.thursday) Samples.monday_checkin
              Samples.lone_checkin_store Samples.emp1); try reflexivity.
    + vm_compute. split; [discriminate | reflexivity].
    + intros l [<-|[]] _ H. vm_compute in H. discriminate.
    + vm_compute. discriminate.
    + intros r [].
    + intros r [].
  - apply (rg Samples.master1 (combine Samples.tuesday (hms 4 0 0)) Samples.monday_checkin
              Samples.lone_checkin_store Samples.emp1); try reflexivity.
    + vm_compute. split; [discriminate | reflexivity].
    + intros l [<-|[]] _ H. vm_compute in H. discriminate.
    + vm_compute. discriminate.
    + vm_compute. discriminate.
Defined.

(** The forced checkout of westlands.py for a session checked in on Monday
    at 21:30, run at 22:00: Monday 21:00, status and reason
    [auto checkout]. *)
Lemma C5_westlands_closes_same_day :
  map (fun r => (Westlands.checkindate r, Westlands.checkintime r,
                 Westlands.checkoutdate r, Westlands.checkouttime r,
                 Westlands.punchoutstatus r, Westlands.punchoutreason r))
      (Westlands.actions
         (Westlands.process_auto_checkouts (hms 22 0 0) Samples.monday Samples.wl_late_store))
  = [(Some Samples.monday, Some (PyStr "21:30:00"),
      Some Samples.monday, Some (PyStr "21:00"),
      Some "auto checkout", Some "auto checkout")].
Proof. vm_compute. reflexivity. Qed.

End ForcedCheckoutProofs.

(* ================================================================== *)
(** * The break ETL *)
(* ================================================================== *)

Module BreakProofs.
Import Py WestlandsBreak BreakProps.

Lemma punches_insert_In {A} (leb : A -> A -> bool) x y l :
  In y (insert_by leb x l) <-> y = x \/ In y l.
Proof.
  induction l as [|z l IH]; simpl.
  - intuition.
  - destruct (leb x z); simpl; [intuition|]. rewrite IH. intuition.
Qed.

Lemma punches_sort_In {A} (leb : A -> A -> bool) x l : In x (sort_by leb l) <-> In x l.
Proof.
  induction l as [|y l IH]; simpl; [tauto|].
  unfold sort_by in *. simpl. rewrite punches_insert_In, IH. intuition.
Qed.

Lemma filter_map_same {A} (p : A -> bool) (f : A -> A) l :
  (forall x, p (f x) = p x) -> filter p (map f l) = map f (filter p l).
Proof.
  intros H. induction l as [|x l IH]; simpl; [reflexivity|].
  rewrite H. destruct (p x); simpl; rewrite IH; reflexivity.
Qed.

Lemma distinct_In x l : In x (distinct l) <-> In x l.
Proof.
  induction l as [|y l IH]; simpl; [tauto|].
  rewrite filter_In, IH. split; [tauto|].
  intros [->|H]; [auto|].
  destruct (String.eqb_spec y x); [auto|]. right. auto.
Qed.

Lemma distinct_NoDup l : NoDup (distinct l).
Proof.
  induction l as [|y l IH]; simpl; constructor.
  - intros H. apply filter_In in H. destruct H as [_ H].
    rewrite String.eqb_refl in H. discriminate.
  - apply NoDup_filter. exact IH.
Qed.

Section Facts.
Variable TODAY : date.
Variable end_of_day : bool.
Variable fromisoformat : string -> option time.
Variable punch_time_leb : pyval -> pyval -> bool.

Abbreviation process_user := (process_user TODAY end_of_day fromisoformat punch_time_leb).
Abbreviation process_users := (process_users TODAY end_of_day fromisoformat punch_time_leb).
Abbreviation process_type1 := (process_type1 TODAY end_of_day fromisoformat punch_time_leb).
Abbreviation to_time := (to_time fromisoformat).

Lemma same_for_refl uid st : same_for uid st st.
Proof. repeat split. Qed.

Lemma same_for_trans uid a b c : same_for uid a b -> same_for uid b c -> same_for uid a c.
Proof. intros (A1 & A2 & A3) (B1 & B2 & B3). repeat split; congruence. Qed.

Lemma user_meta_employee uid st meta :
  user_meta TODAY uid st = Some meta -> pa_employeeid meta = uid.
Proof.
  unfold user_meta. intros H. apply find_some in H. destruct H as [_ H].
  apply andb_true_iff in H. destruct H as [H _]. apply String.eqb_eq. exact H.
Qed.

Lemma mark_same_for uid uid' ptime st :
  uid' <> uid -> same_for uid st (mark_attendance_migrated TODAY uid' ptime st).
Proof.
  intros Hne. unfold same_for, employee_breaks, employee_logs, mark_attendance_migrated. simpl.
  split; [reflexivity|]. split; [reflexivity|].
  induction (logs st) as [|l ls IH]; simpl; [reflexivity|].
  destruct (String.eqb_spec (user_id l) uid') as [E|E]; simpl.
  - destruct (_ && _); simpl; rewrite E;
      (destruct (String.eqb_spec uid' uid); [contradiction|]); exact IH.
  - rewrite IH. reflexivity.
Qed.

Lemma insert_same_for uid meta s e status st :
  pa_employeeid meta <> uid -> same_for uid st (insert_break meta s e status st).
Proof.
  intros Hne. unfold same_for, employee_breaks, employee_logs, insert_break. simpl.
  split; [reflexivity|]. split; [|reflexivity].
  rewrite filter_app. simpl.
  destruct (String.eqb_spec (pa_employeeid meta) uid); [contradiction|].
  apply app_nil_r.
Qed.

(** The turn of one employee leaves every other employee's breaks and logs. *)
Lemma process_user_other uid uid' punches st st' :
  uid' <> uid -> process_user uid' punches st = Some st' -> same_for uid st st'.
Proof.
  intros Hne. unfold WestlandsBreak.process_user.
  destruct (user_meta TODAY uid' st) as [meta|] eqn:Hm;
    [|intros [= <-]; apply same_for_refl].
  apply user_meta_employee in Hm.
  destruct (existing_break_for_day TODAY uid' st); [intros [= <-]; apply same_for_refl|].
  destruct (sort_by _ punches) as [|p1 [|p2 rest]].
  - intros [= <-]. apply same_for_refl.
  - destruct (to_time (punch_time p1)); [|discriminate].
    destruct end_of_day; intros [= <-]; [|apply same_for_refl].
    eapply same_for_trans; [apply insert_same_for | apply mark_same_for]; congruence.
  - destruct (to_time (punch_time p1)); [|discriminate].
    destruct (to_time (punch_time p2)); [|discriminate].
    destruct (_ && _); intros [= <-]; [|apply same_for_refl].
    eapply same_for_trans; [|apply mark_same_for; exact Hne].
    eapply same_for_trans; [|apply mark_same_for; exact Hne].
    apply insert_same_for. congruence.
Qed.

Lemma process_users_other uid logs0 uids st st' :
  ~ In uid uids -> process_users logs0 uids st = Some st' -> same_for uid st st'.
Proof.
  revert st. induction uids as [|u uids IH]; simpl; intros st Hn H.
  - injection H as <-. apply same_for_refl.
  - destruct (process_user u _ st) as [s1|] eqn:E; [|discriminate].
    eapply same_for_trans.
    + eapply process_user_other; [|exact E]. intros ->. apply Hn. auto.
    + apply IH; [|exact H]. intros Hu. apply Hn. auto.
Qed.

Lemma process_users_app logs0 l1 l2 st :
  process_users logs0 (l1 ++ l2) st
  = match process_users logs0 l1 st with
    | Some s => process_users logs0 l2 s
    | None => None
    end.
Proof.
  revert st. induction l1 as [|u l1 IH]; simpl; intros st; [reflexivity|].
  destruct (process_user u _ st); [apply IH | reflexivity].
Qed.

Lemma existing_break_same uid st st' :
  same_for uid st st' ->
  existing_break_for_day TODAY uid st' = existing_break_for_day TODAY uid st.
Proof.
  intros (_ & H & _). unfold employee_breaks in H. unfold existing_break_for_day.
  assert (E : forall l,
             existsb (fun b => String.eqb (employeeid b) uid && (breakstartdate b =? TODAY)) l
             = existsb (fun b => breakstartdate b =? TODAY)
                       (filter (fun b => String.eqb (employeeid b) uid) l)).
  { induction l as [|b l IH]; simpl; [reflexivity|].
    destruct (String.eqb (employeeid b) uid); simpl; rewrite IH; reflexivity. }
  rewrite !E, H. reflexivity.
Qed.

Lemma user_meta_same uid st st' :
  punch_actions st' = punch_actions st -> user_meta TODAY uid st' = user_meta TODAY uid st.
Proof. intros H. unfold user_meta. rewrite H. reflexivity. Qed.

(** The run does not raise when every fetched punch time can be read. *)
Lemma process_user_returns uid punches st :
  (forall l, In l punches -> to_time (punch_time l) <> None) ->
  exists st', process_user uid punches st = Some st'.
Proof.
  intros Hread. unfold WestlandsBreak.process_user.
  destruct (user_meta TODAY uid st); [|eauto].
  destruct (existing_break_for_day TODAY uid st); [eauto|].
  destruct (sort_by _ punches) as [|p1 [|p2 rest]] eqn:E; [eauto| |].
  - assert (H1 : In p1 punches) by (eapply punches_sort_In; rewrite E; simpl; auto).
    destruct (to_time (punch_time p1)) eqn:T1; [|exfalso; exact (Hread p1 H1 T1)].
    destruct end_of_day; eauto.
  - assert (H1 : In p1 punches) by (eapply punches_sort_In; rewrite E; simpl; auto).
    assert (H2 : In p2 punches) by (eapply punches_sort_In; rewrite E; simpl; auto).
    destruct (to_time (punch_time p1)) eqn:T1; [|exfalso; exact (Hread p1 H1 T1)].
    destruct (to_time (punch_time p2)) eqn:T2; [|exfalso; exact (Hread p2 H2 T2)].
    destruct (_ && _); eauto.
Qed.

Lemma process_users_returns logs0 uids st :
  (forall l, In l logs0 -> to_time (punch_time l) <> None) ->
  exists st', process_users logs0 uids st = Some st'.
Proof.
  intros Hread. revert st. induction uids as [|u uids IH]; simpl; intros st; [eauto|].
  destruct (process_user_returns u (filter (fun l => String.eqb (user_id l) u) logs0) st)
    as [s1 E].
  - intros l Hl. apply filter_In in Hl. apply Hread. tauto.
  - rewrite E. apply IH.
Qed.

Lemma employee_logs_mark uid ptime st :
  employee_logs uid (mark_attendance_migrated TODAY uid ptime st)
  = map (fun l => if String.eqb (user_id l) uid && (punch_date l =? TODAY)
                     && pyval_eqb (punch_time l) ptime
                     && String.eqb (device_id l) DEVICE_ID
                  then mk_log (user_id l) (punch_type l) (punch_date l) (punch_time l)
                         "Yes" (device_id l)
                  else l)
        (employee_logs uid st).
Proof.
  unfold employee_logs, mark_attendance_migrated. simpl.
  apply filter_map_same. intros l.
  destruct (_ && _); reflexivity.
Qed.

Lemma employee_logs_insert uid meta s e status st :
  employee_logs uid (insert_break meta s e status st) = employee_logs uid st.
Proof. reflexivity. Qed.

(** The two [UPDATE]s after an insert act on the employee's logs as they
    do on any state with the same logs of the employee. *)
Lemma employee_logs_marks uid p1 p2 sa st :
  employee_logs uid sa = employee_logs uid st ->
  employee_logs uid (mark_attendance_migrated TODAY uid p2
                       (mark_attendance_migrated TODAY uid p1 sa))
  = employee_logs uid (mark_attendance_migrated TODAY uid p2
                         (mark_attendance_migrated TODAY uid p1 st)).
Proof. intros H. rewrite !employee_logs_mark, H. reflexivity. Qed.

(** The users of the run up to the employee's turn, the turn, the rest. *)
Lemma process_type1_split st uid st' :
  In uid (map user_id (fetch_attendance_break_logs TODAY punch_time_leb st)) ->
  process_type1 st = Some st' ->
  exists sa sb,
    same_for uid st sa
    /\ process_user uid
         (filter (fun l => String.eqb (user_id l) uid)
                 (fetch_attendance_break_logs TODAY punch_time_leb st)) sa = Some sb
    /\ same_for uid sb st'.
Proof.
  intros Hin. unfold WestlandsBreak.process_type1.
  set (logs0 := fetch_attendance_break_logs TODAY punch_time_leb st) in *.
  assert (Hnd := distinct_NoDup (map user_id logs0)).
  apply distinct_In in Hin. apply in_split in Hin. destruct Hin as (l1 & l2 & E).
  rewrite E in *. apply NoDup_remove_2 in Hnd.
  rewrite process_users_app.
  destruct (process_users logs0 l1 st) as [sa|] eqn:Ea; [|discriminate].
  simpl. destruct (process_user uid _ sa) as [sb|] eqn:Eb; [|discriminate].
  intros Hc. exists sa, sb. split; [|split].
  - eapply process_users_other; [|exact Ea]. intros H. apply Hnd, in_or_app. auto.
  - exact Eb.
  - eapply process_users_other; [|exact Hc]. intros H. apply Hnd, in_or_app. auto.
Qed.

(** C10. For an employee with a punch action of the day, no break row of
    the day and two or more pending break punches, the first two in time
    order being [first] and [second] with readable times: the run of
    [process_type1] ends, and if the second punch is strictly after the first and at
    most two hours later, exactly one break row is written for the
    employee, from the first punch to the second with status manual, and
    the logs of the employee are as after the two updates that mark the two
    punch times; otherwise no break row of the employee is written and the
    logs of the employee, the pending punches among them, are as before. *)
Theorem C10_two_punch_break st uid meta first second rest s e :
  (forall l, In l (fetch_attendance_break_logs TODAY punch_time_leb st) ->
             to_time (punch_time l) <> None) ->
  sort_by (fun a b => punch_time_leb (punch_time a) (punch_time b))
    (filter (fun l => String.eqb (user_id l) uid)
            (fetch_attendance_break_logs TODAY punch_time_leb st))
  = first :: second :: rest ->
  user_meta TODAY uid st = Some meta ->
  existing_break_for_day TODAY uid st = false ->
  to_time (punch_time first) = Some s ->
  to_time (punch_time second) = Some e ->
  exists st',
    process_type1 st = Some st'
    /\ (combine (punch_date first) s < combine (punch_date second) e
          <= combine (punch_date first) s + 2 * 3600 ->
        (exists b,
            employee_breaks uid st' = (employee_breaks uid st ++ [b])%list
            /\ break_of b meta (combine (punch_date first) s)
                 (combine (punch_date second) e) "manual")
        /\ employee_logs uid st'
           = employee_logs uid
               (mark_attendance_migrated TODAY uid (punch_time second)
                  (mark_attendance_migrated TODAY uid (punch_time first) st)))
    /\ (~ (combine (punch_date first) s < combine (punch_date second) e
            <= combine (punch_date first) s + 2 * 3600) ->
        employee_breaks uid st' = employee_breaks uid st
        /\ employee_logs uid st' = employee_logs uid st).
Proof.
  intros Hread Hsort Hmeta Hnone Hs He.
  destruct (process_users_returns
              (fetch_attendance_break_logs TODAY punch_time_leb st)
              (distinct (map user_id (fetch_attendance_break_logs TODAY punch_time_leb st)))
              st Hread) as [st' Hrun].
  exists st'. split; [exact Hrun|].
  assert (Hin : In uid (map user_id (fetch_attendance_break_logs TODAY punch_time_leb st))).
  { assert (H1 : In first (first :: second :: rest)) by (simpl; auto).
    rewrite <- Hsort in H1. apply punches_sort_In, filter_In in H1. destruct H1 as [H1 Hu].
    apply String.eqb_eq in Hu. subst uid. apply in_map. exact H1. }
  destruct (process_type1_split st uid st' Hin Hrun) as (sa & sb & Ha & Hstep & Hb).
  unfold WestlandsBreak.process_user in Hstep.
  rewrite (user_meta_same uid st sa) in Hstep by apply Ha.
  rewrite (existing_break_same uid st sa Ha), Hmeta, Hnone, Hsort, Hs, He in Hstep.
  destruct Ha as (_ & Hab & Hal). destruct Hb as (_ & Hbb & Hbl).
  destruct ((combine (punch_date first) s <? combine (punch_date second) e)
            && (combine (punch_date second) e <=? combine (punch_date first) s + 2 * 3600))
    eqn:Egap; injection Hstep as <-.
  - apply andb_true_iff in Egap. destruct Egap as [G1 G2].
    apply Z.ltb_lt in G1. apply Z.leb_le in G2.
    split; [intros _ | intros H; exfalso; apply H; split; assumption].
    split.
    + eexists. rewrite Hbb. unfold employee_breaks at 1. simpl.
      rewrite filter_app. simpl.
      rewrite (user_meta_employee _ _ _ Hmeta), String.eqb_refl.
      fold (employee_breaks uid sa). rewrite Hab.
      split; [reflexivity|]. unfold break_of. simpl.
      rewrite (user_meta_employee _ _ _ Hmeta). reflexivity.
    + rewrite Hbl. apply employee_logs_marks. exact Hal.
  - split; [|intros _; split; congruence].
    intros [G1 G2]. apply Z.ltb_lt in G1. apply Z.leb_le in G2.
    rewrite G1, G2 in Egap. discriminate.
Qed.

End Facts.

Lemma C10_two_punch_break_witness :
  exists st',
    WestlandsBreak.process_type1 Samples.monday false Samples.brk_fromisoformat
      Samples.brk_time_leb Samples.brk_store = Some st'
    /\ (exists b,
          employee_breaks "E1" st' = [b]
          /\ breakstartdatetime b = combine Samples.monday (hms 13 0 0)
          /\ breakenddatetime b = combine Samples.monday (hms 13 30 0)
          /\ break_status b = "manual")
    /\ map migration_status (employee_logs "E1" st') = ["Yes"; "Yes"]
    /\ employee_breaks "E2" st' = []
    /\ map migration_status (employee_logs "E2" st') = ["No"; "No"].
Proof.
  assert (Hread : forall l,
             In l (fetch_attendance_break_logs Samples.monday Samples.brk_time_leb
                     Samples.brk_store) ->
             WestlandsBreak.to_time Samples.brk_fromisoformat (punch_time l) <> None).
  { intros l H. vm_compute in H.
    destruct H as [<-|[<-|[<-|[<-|[]]]]]; discriminate. }
  destruct (C10_two_punch_break Samples.monday false Samples.brk_fromisoformat
              Samples.brk_time_leb Samples.brk_store "E1" (Samples.brk_action "U1" "E1")
              (Samples.brk_log "E1" (hms 13 0 0) "breakin")
              (Samples.brk_log "E1" (hms 13 30 0) "breakout") []
              (hms 13 0 0) (hms 13 30 0) Hread eq_refl eq_refl eq_refl eq_refl eq_refl)
    as (st1 & Hrun & Hyes & _).
  destruct (C10_two_punch_break Samples.monday false Samples.brk_fromisoformat
              Samples.brk_time_leb Samples.brk_store "E2" (Samples.brk_action "U2" "E2")
              (Samples.brk_log "E2" (hms 12 0 0) "breakin")
              (Samples.brk_log "E2" (hms 15 0 0) "breakout") []
              (hms 12 0 0) (hms 15 0 0) Hread eq_refl eq_refl eq_refl eq_refl eq_refl)
    as (st2 & Hrun2 & _ & Hno).
  assert (st2 = st1) by congruence. subst st2.
  exists st1. split; [exact Hrun|].
  destruct Hyes as [(b & Hb & Hof) Hlogs]; [vm_compute; split; [reflexivity | discriminate]|].
  destruct Hno as [Hnb Hnl]; [vm_compute; intros [_ H]; apply H; reflexivity|].
  split; [|split; [|split]].
  - exists b. split; [exact Hb|]. rewrite Hof. repeat split.
  - rewrite Hlogs. reflexivity.
  - rewrite Hnb. reflexivity.
  - rewrite Hnl. reflexivity.
Defined.

End BreakProofs.

(* ================================================================== *)
(** * The checkin rules at their boundaries *)
(* ================================================================== *)

Module ClassifierCoverage.
Import Py.

Lemma redginger_checkin_grace_witness :
  RedGinger.calculate_punch_status (PyStr "09:10:00") (PyStr "09:00:00") true
  = ("ontime", "")
  /\ RedGinger.calculate_punch_status (PyStr "09:10:01") (PyStr "09:00:00") true
     = ("late", "late").
Proof.
  pose proof (ClassifierProofs.redginger_checkin_grace (PyStr "09:10:00") (PyStr "09:00:00"))
    as H1.
  pose proof (ClassifierProofs.redginger_checkin_grace (PyStr "09:10:01") (PyStr "09:00:00"))
    as H2.
  cbv zeta in H1, H2. split.
  - apply H1; vm_compute; first [reflexivity | intro; discriminate].
  - apply H2; vm_compute; first [reflexivity | intro; discriminate].
Defined.

Lemma westlands_checkin_zero_grace_witness :
  Westlands.calculate_punch_status (PyStr "09:00:00") (PyStr "09:00") "checkin"
    PyNone (PyBool false) = Some ("ontime", "ontime")
  /\ Westlands.calculate_punch_status (PyStr "09:00:01") (PyStr "09:00") "checkin"
       PyNone (PyBool false) = Some ("late", "late").
Proof.
  split.
  - apply (ClassifierProofs.westlands_checkin_zero_grace (PyStr "09:00:00") (PyStr "09:00")
             "checkin" PyNone (PyBool false) (hms 9 0 0) (hms 9 0 0));
      try reflexivity.
  - apply (ClassifierProofs.westlands_checkin_zero_grace (PyStr "09:00:01") (PyStr "09:00")
             "checkin" PyNone (PyBool false) (hms 9 0 1) (hms 9 0 0));
      try reflexivity.
Defined.

End ClassifierCoverage.

(* ================================================================== *)
(** * The reconciler: what a single event can and cannot touch *)
(* ================================================================== *)

Module ReconcilerCoverage.
Import Py RedGinger Props.

Lemma update_by_id_ids id f rows :
  (forall r, userpunchactionid (f r) = userpunchactionid r) ->
  map userpunchactionid (update_by_id id f rows) = map userpunchactionid rows.
Proof.
  intros Hf. unfold update_by_id. rewrite map_map. apply map_ext.
  intros r. destruct (userpunchactionid r =? id); [apply Hf | reflexivity].
Qed.

Section Facts.
Variable master : list biometrics.
Variable now : datetime.

(** The session columns [process_checkout] leaves alone; shared by the
    statements on both entry points. *)
Lemma process_checkout_keeps rec force st :
  let st' := snd (process_checkout master rec force st) in
  map userpunchactionid (actions st') = map userpunchactionid (actions st)
  /\ logs st' = logs st /\ next_id st' = next_id st
  /\ last_sync_time st' = last_sync_time st.
Proof.
  simpl. destruct (ReconcilerProofs.process_checkout_outcome master rec force st);
    simpl; repeat split; try reflexivity.
  apply update_by_id_ids. intros r. reflexivity.
Qed.

(** [process_checkout] writes to session rows only: whatever the record,
    forced or not, it inserts and deletes no session (the ids of the table
    stay as they are, in order), writes no attendance log, takes no id from
    the sequence and leaves the sync time. Every checkout is an [UPDATE]. *)
Theorem process_checkout_only_updates rec force st :
  map userpunchactionid (actions (snd (process_checkout master rec force st)))
  = map userpunchactionid (actions st)
  /\ logs (snd (process_checkout master rec force st)) = logs st
  /\ next_id (snd (process_checkout master rec force st)) = next_id st
  /\ last_sync_time (snd (process_checkout master rec force st)) = last_sync_time st.
Proof. apply process_checkout_keeps. Qed.

(** [process_checkin] inserts at most one session: the ids of the table
    afterwards are those before, or those before followed by the next id of
    the sequence, which then moves on by one. *)
Theorem process_checkin_inserts_at_most_one rec st :
  let st' := snd (process_checkin master now rec st) in
  (map userpunchactionid (actions st') = map userpunchactionid (actions st)
   /\ next_id st' = next_id st)
  \/ (map userpunchactionid (actions st')
      = (map userpunchactionid (actions st) ++ [next_id st])%list
      /\ next_id st' = next_id st + 1).
Proof.
  simpl. unfold process_checkin.
  destruct (is_processed _ st); [left; split; reflexivity|].
  destruct (get_biometrics_data master (user_id rec)) as [bio|];
    [|left; split; reflexivity].
  destruct (session_exists _ _ st); [left; split; reflexivity|].
  destruct (calculate_punch_status _ _ true) as [s1 s2].
  right.
  match goal with
  | |- context [find_checkout_for_checkin ?n ?u ?d ?t ?s] =>
      destruct (find_checkout_for_checkin n u d t s)
  end.
  - simpl.
    match goal with
    | |- context [process_checkout master ?r ?f ?s] =>
        destruct (process_checkout_keeps r f s) as (Hi & _ & Hn & _)
    end.
    rewrite Hi, Hn. simpl. rewrite map_app. split; reflexivity.
  - destruct (punch_date rec =? date_of now);
      [simpl; rewrite map_app; split; reflexivity|].
    destruct (_ <? now); [|simpl; rewrite map_app; split; reflexivity].
    simpl.
    match goal with
    | |- context [process_checkout master ?r ?f ?s] =>
        destruct (process_checkout_keeps r f s) as (Hi & _ & Hn & _)
    end.
    rewrite Hi, Hn. simpl. rewrite map_app. split; reflexivity.
Qed.

Lemma process_checkin_keeps_seen k rec st :
  is_processed k st = true ->
  is_processed k (snd (process_checkin master now rec st)) = true.
Proof.
  intros Hk. unfold process_checkin.
  destruct (is_processed (create_record_key _ _ _ _) st); [exact Hk|].
  destruct (get_biometrics_data master (user_id rec)) as [bio|]; [|exact Hk].
  destruct (session_exists _ _ st);
    [simpl; apply AbsorptionProofs.is_processed_add_other; exact Hk|].
  destruct (calculate_punch_status _ _ true) as [s1 s2].
  assert (H1 : forall lg a n t,
             is_processed k
               (add_processed
                  (create_record_key (user_id rec) (punch_date rec) (punch_time rec) "checkin")
                  (mk_state lg a n (processed_records st) t)) = true).
  { intros. apply AbsorptionProofs.is_processed_add_other. exact Hk. }
  match goal with
  | |- context [find_checkout_for_checkin ?n ?u ?d ?t ?s] =>
      destruct (find_checkout_for_checkin n u d t s)
  end.
  - simpl. apply AbsorptionProofs.process_checkout_keeps_seen. apply H1.
  - destruct (punch_date rec =? date_of now); [simpl; apply H1|].
    destruct (_ <? now); [|simpl; apply H1].
    simpl. apply AbsorptionProofs.process_checkout_keeps_seen. apply H1.
Qed.

(** The in-memory set of processed keys only grows, and an event that
    [process_checkout] or [process_checkin] answers [True] for has its key
    in the set afterwards. *)
Theorem processed_keys_only_grow rec force st :
  (forall k, is_processed k st = true ->
             is_processed k (snd (process_checkout master rec force st)) = true
             /\ is_processed k (snd (process_checkin master now rec st)) = true)
  /\ (fst (process_checkout master rec force st) = true ->
      is_processed
        (create_record_key (user_id rec) (punch_date rec) (punch_time rec) "checkout")
        (snd (process_checkout master rec force st)) = true)
  /\ (fst (process_checkin master now rec st) = true ->
      is_processed
        (create_record_key (user_id rec) (punch_date rec) (punch_time rec) "checkin")
        (snd (process_checkin master now rec st)) = true).
Proof.
  split; [|split].
  - intros k Hk. split.
    + apply AbsorptionProofs.process_checkout_keeps_seen. exact Hk.
    + apply process_checkin_keeps_seen. exact Hk.
  - destruct (ReconcilerProofs.process_checkout_outcome master rec force st);
      simpl; intros Hok; try discriminate; try assumption;
      apply AbsorptionProofs.is_processed_add.
  - unfold process_checkin.
    destruct (is_processed _ st) eqn:Hseen; [intros _; exact Hseen|].
    destruct (get_biometrics_data master (user_id rec)) as [bio|]; [|discriminate].
    destruct (session_exists _ _ st);
      [intros _; simpl; apply AbsorptionProofs.is_processed_add|].
    destruct (calculate_punch_status _ _ true) as [s1 s2]. intros _.
    match goal with
    | |- context [find_checkout_for_checkin ?n ?u ?d ?t ?s] =>
        destruct (find_checkout_for_checkin n u d t s)
    end.
    + simpl. apply AbsorptionProofs.process_checkout_keeps_seen.
      apply AbsorptionProofs.is_processed_add.
    + destruct (punch_date rec =? date_of now);
        [simpl; apply AbsorptionProofs.is_processed_add|].
      destruct (_ <? now); [|simpl; apply AbsorptionProofs.is_processed_add].
      simpl. apply AbsorptionProofs.process_checkout_keeps_seen.
      apply AbsorptionProofs.is_processed_add.
Qed.

(** The session [find_checkin_for_checkout] hands to a checkout is a row of
    the table, of the employee, without checkout, checked in on the
    checkout day or one of the two days before, at a timestamp before the
    checkout; and when the employee has no open session on these three
    days, there is none. *)
Theorem matched_checkin_is_open_and_earlier u pd pt st :
  (forall r, find_checkin_for_checkout u pd pt st = Some r ->
             In r (actions st) /\ employeeid r = u /\ checkouttime r = None
             /\ exists sd, checkindate r = Some sd /\ pd - 2 <= sd <= pd
                           /\ checkin_timestamp sd r < combine pd pt)
  /\ ((forall r sd, In r (actions st) -> employeeid r = u -> checkouttime r = None ->
                    checkindate r = Some sd -> ~ pd - 2 <= sd <= pd) ->
      find_checkin_for_checkout u pd pt st = None).
Proof.
  split.
  - intros r. apply ReconcilerProofs.find_checkin_for_checkout_found.
  - intros Hnone.
    destruct (find_checkin_for_checkout u pd pt st) as [r|] eqn:E; [|reflexivity].
    apply ReconcilerProofs.find_checkin_for_checkout_found in E.
    destruct E as (Hr & He & Hc & sd & Hd & Hrange & _).
    exfalso. exact (Hnone r sd Hr He Hc Hd Hrange).
Qed.

(** [get_attendance_logs_by_date_range] returns exactly the punches of the
    logs still flagged [No] whose date lies between the start, raised to
    [min_date] (2025-08-01), and the end: no log of an earlier day is ever
    fetched. *)
Theorem pending_logs_in_range start_date end_date st p :
  In p (get_attendance_logs_by_date_range start_date end_date st)
  <-> exists l, In l (logs st) /\ l_punch l = p /\ migration_status l = "No"
                /\ Z.max start_date min_date <= punch_date p <= end_date.
Proof.
  unfold get_attendance_logs_by_date_range.
  rewrite ScannerProofs.sort_by_In, in_map_iff.
  assert (Hs : (if start_date <? min_date then min_date else start_date)
               = Z.max start_date min_date)
    by (destruct (Z.ltb_spec start_date min_date); lia).
  rewrite Hs.
  split.
  - intros (l & <- & Hl). apply filter_In in Hl. destruct Hl as [Hl Hc].
    apply andb_true_iff in Hc. destruct Hc as [Hc Hm].
    apply andb_true_iff in Hc. destruct Hc as [H1 H2].
    apply Z.leb_le in H1, H2. apply String.eqb_eq in Hm.
    exists l. repeat split; auto.
  - intros (l & Hl & <- & Hm & H1 & H2). exists l. split; [reflexivity|].
    apply filter_In. split; [exact Hl|].
    rewrite Hm. simpl.
    apply andb_true_iff. split; [|reflexivity].
    apply andb_true_iff. split; apply Z.leb_le; assumption.
Qed.

End Facts.

(** A stable insertion sort puts a least element first. *)
Lemma sort_by_head {A} (leb : A -> A -> bool) l x rest :
  sort_by leb l = x :: rest -> In x l.
Proof.
  intros E. apply (ScannerProofs.sort_by_In leb x l). rewrite E. simpl. auto.
Qed.

Section Lookup.
Variable now : datetime.

(** The checkout [find_checkout_for_checkin] pairs a checkin with is a
    checkout log of the employee (whatever its migration flag): one of the
    checkin day later than the checkin, or, for a checkin day before today,
    one of the day after. *)
Theorem paired_checkout_is_later u d t st c :
  find_checkout_for_checkin now u d t st = Some c ->
  (exists l, In l (logs st) /\ l_punch l = c)
  /\ user_id c = u /\ punch_type c = "checkout"
  /\ ((punch_date c = d /\ t < punch_time c)
      \/ (punch_date c = d + 1 /\ d < date_of now)).
Proof.
  unfold find_checkout_for_checkin.
  assert (Hlogs : forall dd x, In x (checkout_logs_on u dd st) ->
            (exists l, In l (logs st) /\ l_punch l = x)
            /\ user_id x = u /\ punch_type x = "checkout" /\ punch_date x = dd).
  { intros dd x Hx. unfold checkout_logs_on in Hx. apply filter_In in Hx.
    destruct Hx as [Hx Hc]. apply in_map_iff in Hx. destruct Hx as (l & <- & Hl).
    apply andb_true_iff in Hc. destruct Hc as [Hc Hd].
    apply andb_true_iff in Hc. destruct Hc as [Hu Hk].
    apply String.eqb_eq in Hu, Hk. apply Z.eqb_eq in Hd.
    repeat split; eauto. }
  destruct (sort_by _ (filter _ (checkout_logs_on u d st))) as [|x rest] eqn:E1.
  - destruct (Z.ltb_spec d (date_of now)); [|discriminate].
    destruct (sort_by _ (checkout_logs_on u (d + 1) st)) as [|y rest] eqn:E2; [discriminate|].
    intros [= <-]. apply sort_by_head in E2.
    destruct (Hlogs _ _ E2) as (Hl & Hu & Hk & Hd). auto 10.
  - intros [= <-]. apply sort_by_head in E1. apply filter_In in E1.
    destruct E1 as [Hx Ht]. apply Z.ltb_lt in Ht.
    destruct (Hlogs _ _ Hx) as (Hl & Hu & Hk & Hd). auto 10.
Qed.

End Lookup.

Lemma processed_keys_only_grow_witness :
  is_processed
    (create_record_key (user_id Samples.checkout_1700) (punch_date Samples.checkout_1700)
       (punch_time Samples.checkout_1700) "checkout")
    (snd (process_checkout Samples.master1 Samples.checkout_1700 false Samples.open_store))
  = true.
Proof.
  pose proof (processed_keys_only_grow Samples.master1 (Samples.noon Samples.monday)
                Samples.checkout_1700 false Samples.open_store) as H.
  destruct H as (_ & H & _). apply H. vm_compute. reflexivity.
Defined.

Lemma matched_checkin_is_open_and_earlier_witness :
  exists r,
    find_checkin_for_checkout "E1" Samples.monday (hms 17 0 0) Samples.open_store = Some r
    /\ employeeid r = "E1" /\ checkouttime r = None.
Proof.
  exists (Samples.open_session 1 Samples.monday (hms 9 0 0)).
  assert (E : find_checkin_for_checkout "E1" Samples.monday (hms 17 0 0) Samples.open_store
              = Some (Samples.open_session 1 Samples.monday (hms 9 0 0)))
    by (vm_compute; reflexivity).
  split; [exact E|].
  destruct (proj1 (matched_checkin_is_open_and_earlier "E1" Samples.monday (hms 17 0 0)
                     Samples.open_store) _ E) as (_ & He & Hc & _).
  split; assumption.
Defined.

Lemma pending_logs_in_range_witness :
  In Samples.late_checkin
     (get_attendance_logs_by_date_range (Samples.monday - 30) Samples.monday
        Samples.absorbing_store).
Proof.
  apply (proj2 (pending_logs_in_range (Samples.monday - 30) Samples.monday
                  Samples.absorbing_store Samples.late_checkin)).
  exists (mk_log Samples.late_checkin "GED7243200199" "No").
  split; [simpl; auto|]. split; [reflexivity|]. split; [reflexivity|].
  vm_compute. split; discriminate.
Defined.

Lemma paired_checkout_is_later_witness :
  punch_date (mk_punch "E1" Samples.tuesday (hms 23 0 0) "checkout") = Samples.tuesday
  /\ hms 9 0 0 < punch_time (mk_punch "E1" Samples.tuesday (hms 23 0 0) "checkout")
  \/ punch_date (mk_punch "E1" Samples.tuesday (hms 23 0 0) "checkout") = Samples.tuesday + 1
     /\ Samples.tuesday < date_of (Samples.noon Samples.thursday).
Proof.
  assert (E : find_checkout_for_checkin (Samples.noon Samples.thursday) "E1" Samples.tuesday
                (hms 9 0 0) Samples.fresh_store
              = Some (mk_punch "E1" Samples.tuesday (hms 23 0 0) "checkout"))
    by (vm_compute; reflexivity).
  exact (proj2 (proj2 (proj2 (paired_checkout_is_later (Samples.noon Samples.thursday) "E1"
                                Samples.tuesday (hms 9 0 0) Samples.fresh_store _ E)))).
Defined.

End ReconcilerCoverage.

(* ================================================================== *)
(** * The repair passes: what they leave behind *)
(* ================================================================== *)

Module PassCoverage.
Import Py RedGinger Props.

Lemma time_anomaly_cleared r : time_anomaly (clear_checkout r) = false.
Proof. unfold time_anomaly. simpl. destruct (checkintime r); reflexivity. Qed.

Lemma with_actions_same st : with_actions st (actions st) = st.
Proof. destruct st; reflexivity. Qed.

Lemma fold_delete_by_id_In (os rows : list session) r :
  In r (fold_left (fun rs o => delete_by_id (userpunchactionid o) rs) os rows)
  <-> In r rows /\ forall o, In o os -> userpunchactionid r <> userpunchactionid o.
Proof.
  revert rows. induction os as [|o os IH]; simpl; intros rows.
  - intuition.
  - rewrite IH. unfold delete_by_id. rewrite filter_In. split.
    + intros [[Hr Hn] Hos]. split; [exact Hr|].
      intros o' [<-|Ho']; [|auto].
      apply negb_true_iff, Z.eqb_neq in Hn. exact Hn.
    + intros [Hr Hos]. split; [split; [exact Hr|]|auto].
      apply negb_true_iff, Z.eqb_neq. auto.
Qed.

(** After [find_and_fix_mismatched_data] no session with a checkout time
    and no checkin time dated 2025-08-01 or later is left; the pass only
    deletes (every row it leaves is a row it found, unchanged) and does not
    write to the attendance logs. *)
Theorem orphaned_checkouts_removed st :
  let st' := find_and_fix_mismatched_data st in
  (forall r, In r (actions st') -> In r (actions st) /\ orphaned_checkout r = false)
  /\ logs st' = logs st.
Proof.
  simpl. split; [|reflexivity].
  intros r. unfold find_and_fix_mismatched_data. simpl.
  match goal with
  | |- In r (fold_left _ ?keys ?rows1) -> _ =>
      destruct (DedupProofs.fold_delete_filter checkin_on keys rows1) as [q ->]
  end.
  intros Hr. apply filter_In in Hr. destruct Hr as [Hr _].
  apply fold_delete_by_id_In in Hr. destruct Hr as [Hr Hn].
  split; [exact Hr|].
  destruct (orphaned_checkout r) eqn:E; [|reflexivity].
  exfalso. apply (Hn r); [|reflexivity].
  apply filter_In. auto.
Qed.

Lemma orphaned_checkouts_removed_witness :
  existsb orphaned_checkout (actions Samples.orphan_store) = true
  /\ existsb orphaned_checkout (actions (find_and_fix_mismatched_data Samples.orphan_store))
     = false.
Proof.
  split; [vm_compute; reflexivity|].
  apply not_true_is_false. intros H. apply existsb_exists in H.
  destruct H as (r & Hr & Ho).
  destruct (proj1 (orphaned_checkouts_removed Samples.orphan_store) r Hr) as [_ Hf].
  congruence.
Defined.

(** A second run of the anomaly scanner finds nothing to repair. *)
Theorem scanner_idempotent st :
  unique_ids (actions st) ->
  validate_and_fix_time_anomalies (validate_and_fix_time_anomalies st)
  = validate_and_fix_time_anomalies st.
Proof.
  intros Hu.
  assert (Hu' : unique_ids (actions (validate_and_fix_time_anomalies st))).
  { rewrite ScannerProofs.scanner_map by exact Hu.
    apply ScannerProofs.unique_ids_map; [|exact Hu].
    intros r. destruct (_ || _); reflexivity. }
  assert (E : actions (validate_and_fix_time_anomalies (validate_and_fix_time_anomalies st))
              = actions (validate_and_fix_time_anomalies st)).
  { rewrite ScannerProofs.scanner_map by exact Hu'.
    rewrite ScannerProofs.scanner_map by exact Hu.
    rewrite map_map. apply map_ext. intros r.
    destruct (time_anomaly r || early_checkout_anomaly r) eqn:Ea.
    - rewrite time_anomaly_cleared, ScannerProofs.early_checkout_anomaly_cleared.
      reflexivity.
    - rewrite Ea. reflexivity. }
  change (validate_and_fix_time_anomalies (validate_and_fix_time_anomalies st))
    with (with_actions (validate_and_fix_time_anomalies st)
            (actions (validate_and_fix_time_anomalies
                        (validate_and_fix_time_anomalies st)))).
  rewrite E. apply with_actions_same.
Qed.

Lemma scanner_idempotent_witness :
  validate_and_fix_time_anomalies (validate_and_fix_time_anomalies Samples.anomalous_store)
  = validate_and_fix_time_anomalies Samples.anomalous_store.
Proof.
  apply scanner_idempotent.
  unfold unique_ids. simpl. repeat constructor; simpl; intuition discriminate.
Defined.

(** ** The deduplication pass *)

Lemma fold_fixed {K} (f : list session -> K -> list session) keys rows :
  (forall k, In k keys -> f rows k = rows) -> fold_left f keys rows = rows.
Proof.
  induction keys as [|k keys IH]; simpl; intros H; [reflexivity|].
  rewrite (H k) by auto. apply IH. auto.
Qed.

Lemma filter_all {A} (p : A -> bool) l :
  (forall x, In x l -> p x = true) -> filter p l = l.
Proof.
  induction l as [|x l IH]; simpl; intros H; [reflexivity|].
  rewrite (H x) by auto. f_equal. apply IH. auto.
Qed.

Lemma delete_nothing sel rows :
  (List.length (filter sel rows) <= 1)%nat -> delete_all_but_min sel rows = rows.
Proof.
  intros Hlen. unfold delete_all_but_min.
  destruct (min_id (filter sel rows)) as [m|] eqn:Em; [|reflexivity].
  apply filter_all. intros r Hr.
  destruct (sel r) eqn:Es; [|reflexivity]. simpl.
  assert (Hf : In r (filter sel rows)) by (apply filter_In; auto).
  rewrite (DedupProofs.min_id_single _ r Hlen Hf) in Em. injection Em as <-.
  rewrite Z.eqb_refl. reflexivity.
Qed.

Section OnePass.
Variable in_table : session -> bool.
Variable key_of : session -> group_key.
Variable selk : group_key -> session -> bool.
Hypothesis selk_spec :
  forall k r, selk k r = true <-> in_table r = true /\ key_of r = k /\ snd k <> None.

(** A table without a duplicated group is left as it is. *)
Lemma pass_fixed rows :
  (forall k, (List.length (filter (selk k) rows) <= 1)%nat) ->
  pass in_table key_of selk rows = rows.
Proof.
  intros Hone. unfold pass. apply fold_fixed. intros k _.
  apply delete_nothing, Hone.
Qed.

(** Of every group the pass keeps a row. *)
Lemma pass_keeps_one rows k r :
  In r rows -> selk k r = true ->
  exists r', In r' (pass in_table key_of selk rows) /\ selk k r' = true.
Proof.
  intros Hr Hk.
  destruct (min_id (filter (selk k) rows)) as [m|] eqn:Em.
  - destruct (DedupProofs.min_id_some _ _ Em) as [(r0 & H0 & Hid) _].
    apply filter_In in H0. destruct H0 as [H0 Hk0].
    exists r0. split; [|exact Hk0].
    apply (DedupProofs.pass_In in_table key_of selk selk_spec). split; [exact H0|].
    intros k' Hk'.
    assert (k' = k).
    { apply selk_spec in Hk0, Hk'. destruct Hk0 as (_ & <- & _).
      destruct Hk' as (_ & <- & _). reflexivity. }
    subst k'. rewrite Em, Hid. reflexivity.
  - apply DedupProofs.min_id_none in Em.
    assert (Hf : In r (filter (selk k) rows)) by (apply filter_In; auto).
    rewrite Em in Hf. destruct Hf.
Qed.

End OnePass.

(** The deduplication pass never removes the last session of a group: for
    an open session of an employee and checkin date an open session of them
    is left, for a closed session of an employee and checkout date a closed
    one, and a session whose date is NULL stays. *)
Theorem dedup_keeps_one_of_each st r :
  In r (actions st) ->
  let rows' := actions (validate_and_cleanup_duplicates st) in
  (forall k, open_on k r = true -> exists r', In r' rows' /\ open_on k r' = true)
  /\ (forall k, closed_on k r = true -> exists r', In r' rows' /\ closed_on k r' = true)
  /\ ((forall k, open_on k r = false /\ closed_on k r = false) -> In r rows').
Proof.
  intros Hr rows'. unfold rows', validate_and_cleanup_duplicates. simpl.
  rewrite DedupProofs.cleanup_closed_pass, DedupProofs.cleanup_open_pass.
  split; [|split].
  - intros k Hk.
    destruct (pass_keeps_one _ _ _ DedupProofs.open_on_spec _ k r Hr Hk) as (r0 & H0 & Hk0).
    exists r0. split; [|exact Hk0].
    apply (DedupProofs.pass_In _ _ _ DedupProofs.closed_on_spec). split; [exact H0|].
    intros k' Hk'. apply DedupProofs.closed_not_open with (k' := k) in Hk'. congruence.
  - intros k Hk.
    apply (pass_keeps_one _ _ _ DedupProofs.closed_on_spec) with (r := r); [|exact Hk].
    apply (DedupProofs.pass_In _ _ _ DedupProofs.open_on_spec). split; [exact Hr|].
    intros k' Hk'. apply DedupProofs.closed_not_open with (k' := k') in Hk. congruence.
  - intros Hnone.
    apply (DedupProofs.pass_In _ _ _ DedupProofs.closed_on_spec). split.
    + apply (DedupProofs.pass_In _ _ _ DedupProofs.open_on_spec). split; [exact Hr|].
      intros k' Hk'. destruct (Hnone k'). congruence.
    + intros k' Hk'. destruct (Hnone k'). congruence.
Qed.

Lemma dedup_keeps_one_of_each_witness :
  exists r',
    In r' (actions (validate_and_cleanup_duplicates Samples.duplicate_store))
    /\ open_on ("E1", Some Samples.tuesday) r' = true.
Proof.
  apply (proj1 (dedup_keeps_one_of_each Samples.duplicate_store
                  (Samples.open_session 4 Samples.tuesday (hms 9 0 0))
                  (or_intror (or_intror (or_introl eq_refl))))).
  reflexivity.
Defined.

(** A second run of the deduplication pass deletes nothing. *)
Theorem dedup_idempotent st :
  unique_ids (actions st) ->
  validate_and_cleanup_duplicates (validate_and_cleanup_duplicates st)
  = validate_and_cleanup_duplicates st.
Proof.
  intros Hu.
  set (rows := actions st).
  assert (Hu1 : unique_ids (cleanup_open rows)).
  { unfold cleanup_open. apply DedupProofs.fold_unique, Hu. }
  set (rows2 := cleanup_closed (cleanup_open rows)).
  assert (Hopen : forall k, (List.length (filter (open_on k) rows2) <= 1)%nat).
  { intros k. unfold rows2, cleanup_closed.
    match goal with
    | |- context [fold_left _ ?keys ?rs] =>
        destruct (DedupProofs.fold_delete_filter closed_on keys rs) as [q ->]
    end.
    etransitivity; [apply DedupProofs.filter_length_le|].
    rewrite DedupProofs.cleanup_open_pass.
    apply DedupProofs.pass_at_most_one; [apply DedupProofs.open_on_spec | exact Hu]. }
  assert (Hclosed : forall k, (List.length (filter (closed_on k) rows2) <= 1)%nat).
  { intros k. unfold rows2. rewrite DedupProofs.cleanup_closed_pass.
    apply DedupProofs.pass_at_most_one; [apply DedupProofs.closed_on_spec | exact Hu1]. }
  assert (E : cleanup_closed (cleanup_open rows2) = rows2).
  { rewrite DedupProofs.cleanup_open_pass, (pass_fixed _ _ _ rows2 Hopen).
    rewrite DedupProofs.cleanup_closed_pass. apply pass_fixed, Hclosed. }
  change (validate_and_cleanup_duplicates (validate_and_cleanup_duplicates st))
    with (with_actions (validate_and_cleanup_duplicates st)
            (cleanup_closed (cleanup_open rows2))).
  rewrite E. apply with_actions_same.
Qed.

Lemma dedup_idempotent_witness :
  validate_and_cleanup_duplicates (validate_and_cleanup_duplicates Samples.duplicate_store)
  = validate_and_cleanup_duplicates Samples.duplicate_store.
Proof.
  apply dedup_idempotent.
  unfold unique_ids. simpl. repeat constructor; simpl; intuition discriminate.
Defined.

End PassCoverage.

(* ================================================================== *)
(** * westlands.py: the auto checkout sweep and the run *)
(* ================================================================== *)

Module PipelineCoverage.
Import Py PipelineProps.

(** The row [auto_checkout] leaves of an open session of the date [d]. *)
Lemma sweep_step u d (rows : list Westlands.session) lg :
  Westlands.auto_checkout u d (Westlands.mk_state lg rows)
  = Westlands.mk_state lg
      (map (fun r =>
              if String.eqb (Westlands.userid r) u
                 && Westlands.date_is (Westlands.checkindate r) d
                 && Westlands.is_null (Westlands.checkouttime r)
              then Westlands.set_checkout (PyStr "21:00") d (d, PyStr "21:00:00")
                     "auto checkout" "auto checkout" r
              else r) rows).
Proof. reflexivity. Qed.

Lemma sweep_fold d (L : list Westlands.session) :
  (forall rec, In rec L -> Westlands.checkindate rec = Some d) ->
  forall rows lg,
    fold_left (fun s record =>
                 match Westlands.checkindate record with
                 | Some d' => Westlands.auto_checkout (Westlands.userid record) d' s
                 | None => s
                 end) L (Westlands.mk_state lg rows)
    = Westlands.mk_state lg
        (map (fun r =>
                if existsb (fun rec => String.eqb (Westlands.userid r) (Westlands.userid rec)) L
                   && Westlands.date_is (Westlands.checkindate r) d
                   && Westlands.is_null (Westlands.checkouttime r)
                then Westlands.set_checkout (PyStr "21:00") d (d, PyStr "21:00:00")
                       "auto checkout" "auto checkout" r
                else r) rows).
Proof.
  induction L as [|rec L IH]; intros HL rows lg.
  - simpl. f_equal. rewrite <- (map_id rows) at 1. apply map_ext. reflexivity.
  - simpl fold_left. rewrite (HL rec) by (simpl; auto).
    rewrite sweep_step, IH by (intros; apply HL; simpl; auto).
    f_equal. rewrite map_map. apply map_ext. intros r.
    simpl existsb.
    destruct (String.eqb (Westlands.userid r) (Westlands.userid rec));
      destruct (Westlands.date_is (Westlands.checkindate r) d) eqn:Ed;
      destruct (Westlands.is_null (Westlands.checkouttime r)) eqn:En;
      simpl; rewrite ?Ed, ?En, ?andb_false_r; simpl; reflexivity.
Qed.

Lemma process_auto_checkouts_map now_time d st :
  (now_time < hms 21 0 0 -> Westlands.process_auto_checkouts now_time d st = st)
  /\ (hms 21 0 0 <= now_time ->
      Westlands.process_auto_checkouts now_time d st
      = Westlands.mk_state (Westlands.logs st)
          (map (fun r =>
                  if Westlands.date_is (Westlands.checkindate r) d
                     && Westlands.is_null (Westlands.checkouttime r)
                  then Westlands.set_checkout (PyStr "21:00") d (d, PyStr "21:00:00")
                         "auto checkout" "auto checkout" r
                  else r) (Westlands.actions st))).
Proof.
  unfold Westlands.process_auto_checkouts.
  change (strptime_HM Westlands.AUTO_CHECKOUT_TIME) with (Some (hms 21 0 0)).
  split; intros H.
  - apply Z.ltb_lt in H. rewrite H. reflexivity.
  - apply Z.ltb_ge in H. rewrite H.
    destruct st as [lg rows]. simpl Westlands.actions. simpl Westlands.logs.
    rewrite (sweep_fold d).
    + f_equal. apply map_ext_in. intros r Hr.
      destruct (Westlands.date_is (Westlands.checkindate r) d
                && Westlands.is_null (Westlands.checkouttime r)) eqn:E.
      * replace (existsb _ _) with true; [rewrite <- andb_assoc, E; reflexivity|].
        symmetry. apply existsb_exists. exists r. split.
        -- apply filter_In. auto.
        -- apply String.eqb_refl.
      * rewrite <- andb_assoc, E, andb_false_r. reflexivity.
    + intros rec Hrec. apply filter_In in Hrec. destruct Hrec as [_ Hrec].
      apply andb_true_iff in Hrec. destruct Hrec as [Hd _].
      unfold Westlands.date_is in Hd.
      destruct (Westlands.checkindate rec) as [x|]; [|discriminate].
      apply Z.eqb_eq in Hd. congruence.
Qed.

(** [process_auto_checkouts]: before 21:00 nothing is written; from 21:00
    on every session of the current date without checkout time, and no
    other, is closed at 21:00 of that date with status and reason
    [auto checkout]; the logs are not written. *)
Theorem auto_checkout_sweep now_time d st :
  (now_time < hms 21 0 0 -> Westlands.process_auto_checkouts now_time d st = st)
  /\ (hms 21 0 0 <= now_time ->
      Westlands.process_auto_checkouts now_time d st
      = Westlands.mk_state (Westlands.logs st)
          (map (fun r =>
                  if Westlands.date_is (Westlands.checkindate r) d
                     && Westlands.is_null (Westlands.checkouttime r)
                  then Westlands.set_checkout (PyStr "21:00") d (d, PyStr "21:00:00")
                         "auto checkout" "auto checkout" r
                  else r) (Westlands.actions st))).
Proof. apply process_auto_checkouts_map. Qed.

Lemma auto_checkout_sweep_witness :
  Westlands.process_auto_checkouts (hms 20 59 59) Samples.monday Samples.wl_late_store
  = Samples.wl_late_store
  /\ map Westlands.checkouttime
       (Westlands.actions
          (Westlands.process_auto_checkouts (hms 21 0 0) Samples.monday
             Samples.wl_late_store))
     = [Some (PyStr "21:00")].
Proof.
  pose proof (auto_checkout_sweep (hms 20 59 59) Samples.monday Samples.wl_late_store) as H1.
  pose proof (auto_checkout_sweep (hms 21 0 0) Samples.monday Samples.wl_late_store) as H2.
  split.
  - apply (proj1 H1). reflexivity.
  - rewrite (proj2 H2) by (vm_compute; discriminate). reflexivity.
Defined.

Lemma wl_insert_by_In {A} (leb : A -> A -> bool) x y l :
  In y (Westlands.insert_by leb x l) <-> y = x \/ In y l.
Proof.
  induction l as [|z l IH]; simpl.
  - intuition.
  - destruct (leb x z); simpl; [intuition|]. rewrite IH. intuition.
Qed.

Lemma wl_sort_by_In {A} (leb : A -> A -> bool) x l :
  In x (Westlands.sort_by leb l) <-> In x l.
Proof.
  induction l as [|y l IH]; simpl; [tauto|].
  unfold Westlands.sort_by in *. simpl. rewrite wl_insert_by_In, IH. intuition.
Qed.

Section Run.
Variable get_biometrics_master_data : string -> option Westlands.bio_data.
Variable get_shift_allocation : string -> date -> option Z.
Variable get_shift_management : Z -> option Westlands.shift_data.
Variable punch_time_leb : pyval -> pyval -> bool.

(** [run]: when the device has no log of the current date, nothing is
    written, the auto checkouts included, whatever the time; when it has
    one and the clock is at 21:00 or later, no session of the current date
    is open after the run. *)
Theorem run_closes_the_day_only_with_logs d now_time st :
  ((forall l, In l (Westlands.logs st) -> Westlands.device_id l = Westlands.DEVICE_ID ->
              Westlands.punch_date l <> d) ->
   Westlands.run get_biometrics_master_data get_shift_allocation get_shift_management
     punch_time_leb d now_time st = st)
  /\ ((exists l, In l (Westlands.logs st) /\ Westlands.device_id l = Westlands.DEVICE_ID
                 /\ Westlands.punch_date l = d) ->
      hms 21 0 0 <= now_time ->
      forall r,
        In r (Westlands.actions
                (Westlands.run get_biometrics_master_data get_shift_allocation
                   get_shift_management punch_time_leb d now_time st)) ->
        Westlands.checkindate r = Some d -> Westlands.checkouttime r <> None).
Proof.
  unfold Westlands.run. split.
  - intros Hnone.
    destruct (Westlands.fetch_attendance_logs punch_time_leb d st) as [|l ls] eqn:E;
      [reflexivity|].
    assert (Hl : In l (Westlands.fetch_attendance_logs punch_time_leb d st))
      by (rewrite E; simpl; auto).
    unfold Westlands.fetch_attendance_logs in Hl.
    apply wl_sort_by_In, filter_In in Hl. destruct Hl as [Hl Hc].
    apply andb_true_iff in Hc. destruct Hc as [Hdev Hd].
    apply String.eqb_eq in Hdev. apply Z.eqb_eq in Hd.
    exfalso. exact (Hnone l Hl Hdev Hd).
  - intros (l & Hl & Hdev & Hd) Hnow.
    destruct (Westlands.fetch_attendance_logs punch_time_leb d st) as [|l0 ls] eqn:E.
    + exfalso.
      assert (Hin : In l (Westlands.fetch_attendance_logs punch_time_leb d st)).
      { unfold Westlands.fetch_attendance_logs. apply wl_sort_by_In, filter_In.
        split; [exact Hl|]. rewrite Hdev, Hd, String.eqb_refl, Z.eqb_refl. reflexivity. }
      rewrite E in Hin. destruct Hin.
    + intros r Hr Hci.
      rewrite (proj2 (process_auto_checkouts_map now_time d _) Hnow) in Hr.
      simpl in Hr. apply in_map_iff in Hr. destruct Hr as (r0 & <- & _).
      destruct (Westlands.date_is (Westlands.checkindate r0) d
                && Westlands.is_null (Westlands.checkouttime r0)) eqn:Ec;
        [simpl; discriminate|].
      rewrite Hci in Ec. simpl in Ec. rewrite Z.eqb_refl in Ec. simpl in Ec.
      destruct (Westlands.checkouttime r0); [discriminate|discriminate].
Qed.

End Run.

(** ** What [process_user_attendance] can touch *)

Lemma grows_by_refl st : grows_by 0 st st.
Proof. split; [lia | reflexivity]. Qed.

Lemma grows_by_trans a b s1 s2 s3 :
  grows_by a s1 s2 -> grows_by b s2 s3 -> grows_by (a + b) s1 s3.
Proof. intros [A1 A2] [B1 B2]. split; [lia | congruence]. Qed.

Lemma update_migration_status_grows e d kind status st :
  grows_by 0 st (Westlands.update_migration_status e d kind status st).
Proof.
  split; [simpl; lia|]. simpl. rewrite map_map. apply map_ext.
  intros l. destruct (_ && _); reflexivity.
Qed.

Lemma mark_each_grows ls e d kind status st :
  grows_by 0 st (Westlands.mark_each ls e d kind status st).
Proof.
  unfold Westlands.mark_each. revert st.
  induction ls as [|l ls IH]; intros st; simpl; [apply grows_by_refl|].
  eapply (grows_by_trans 0 0); [apply update_migration_status_grows | apply IH].
Qed.

Lemma insert_checkin_grows bio shift l st :
  grows_by 1 st (Westlands.insert_checkin bio shift l st).
Proof.
  unfold Westlands.insert_checkin.
  destruct (match Westlands.calculate_punch_status _ _ _ _ _ with
            | Some p => p
            | None => _
            end) as [s1 s2].
  split; [|reflexivity]. simpl. rewrite length_app. reflexivity.
Qed.

Lemma update_checkout_grows u d l shift ot st :
  grows_by 0 st (Westlands.update_checkout u d l shift ot st).
Proof.
  unfold Westlands.update_checkout.
  destruct (match Westlands.calculate_punch_status _ _ _ _ _ with
            | Some p => p
            | None => _
            end) as [s1 s2].
  split; [|reflexivity]. simpl. rewrite length_map. lia.
Qed.

Section Frame.
Variable get_biometrics_master_data : string -> option Westlands.bio_data.
Variable get_shift_allocation : string -> date -> option Z.
Variable get_shift_management : Z -> option Westlands.shift_data.

(** [process_user_attendance] deletes no session and inserts at most one,
    and of the logs it changes nothing but migration flags: no log is
    added or removed, and user, date, time, type and device of each stay. *)
Theorem process_user_attendance_frame user_logs d st :
  let st' := Westlands.process_user_attendance get_biometrics_master_data
               get_shift_allocation get_shift_management user_logs d st in
  grows_by 0 st st' \/ grows_by 1 st st'.
Proof.
  simpl. unfold Westlands.process_user_attendance.
  destruct user_logs as [|first rest]; [left; apply grows_by_refl|].
  destruct (get_biometrics_master_data (Westlands.user_id first)) as [bio|];
    [|left; apply grows_by_refl].
  destruct (negb _); [left; apply grows_by_refl|].
  destruct (get_shift_allocation _ d) as [shift_id|]; [|left; apply grows_by_refl].
  destruct (get_shift_management shift_id) as [shift|]; [|left; apply grows_by_refl].
  set (cins := filter _ (first :: rest)).
  set (couts := filter (fun l => String.eqb (lower (Westlands.punch_type l)) "checkout")
                       (first :: rest)).
  set (st1 := match cins with [] => st | _ :: _ => _ end).
  assert (H2 : grows_by 0 st1
                 (match Westlands.check_existing_checkin (Westlands.bd_userid bio) d st1,
                        couts with
                  | Some existing_record, first_checkout :: extra =>
                      if negb (Westlands.has_checkout existing_record) then
                        Westlands.mark_each extra (Westlands.user_id first) d
                          "checkout" "Duplicate"
                          (Westlands.update_migration_status (Westlands.user_id first) d
                             "checkout" "Yes"
                             (Westlands.update_checkout (Westlands.bd_userid bio) d
                                first_checkout shift
                                (Westlands.overtime_truthy
                                   (Westlands.overtimeid existing_record)) st1))
                      else
                        Westlands.mark_each couts (Westlands.user_id first) d
                          "checkout" "Duplicate" st1
                  | _, _ => st1
                  end)).
  { destruct (Westlands.check_existing_checkin _ d st1) as [ex|]; [|apply grows_by_refl].
    destruct couts as [|c extra]; [apply grows_by_refl|].
    destruct (negb _); [|apply mark_each_grows].
    eapply (grows_by_trans 0 0); [|apply mark_each_grows].
    eapply (grows_by_trans 0 0); [|apply update_migration_status_grows].
    apply update_checkout_grows. }
  assert (H1 : grows_by 0 st st1 \/ grows_by 1 st st1).
  { unfold st1. destruct cins as [|c extra]; [left; apply grows_by_refl|].
    destruct (Westlands.check_existing_checkin _ d st); [left; apply mark_each_grows|].
    right.
    eapply (grows_by_trans 1 0); [|apply mark_each_grows].
    eapply (grows_by_trans 1 0); [|apply update_migration_status_grows].
    apply insert_checkin_grows. }
  destruct H1 as [H1|H1]; [left | right].
  - exact (grows_by_trans 0 0 _ _ _ H1 H2).
  - exact (grows_by_trans 1 0 _ _ _ H1 H2).
Qed.

End Frame.

Lemma run_closes_the_day_only_with_logs_witness :
  Westlands.run Samples.wl_master Samples.wl_allocation Samples.wl_shift
    Samples.brk_time_leb Samples.monday (hms 22 0 0) Samples.wl_late_store
  = Samples.wl_late_store
  /\ existsb (fun r => Westlands.date_is (Westlands.checkindate r) Samples.monday
                       && Westlands.is_null (Westlands.checkouttime r))
       (Westlands.actions
          (Westlands.run Samples.wl_master Samples.wl_allocation Samples.wl_shift
             Samples.brk_time_leb Samples.monday (hms 22 0 0) Samples.wl_store))
     = false.
Proof.
  split.
  - apply (proj1 (run_closes_the_day_only_with_logs Samples.wl_master Samples.wl_allocation
                    Samples.wl_shift Samples.brk_time_leb Samples.monday (hms 22 0 0)
                    Samples.wl_late_store)).
    intros l [].
  - apply not_true_is_false. intros H. apply existsb_exists in H.
    destruct H as (r & Hr & Hopen). apply andb_true_iff in Hopen.
    destruct Hopen as [Hd Hn].
    assert (Hci : Westlands.checkindate r = Some Samples.monday).
    { unfold Westlands.date_is in Hd. destruct (Westlands.checkindate r); [|discriminate].
      apply Z.eqb_eq in Hd. congruence. }
    apply (proj2 (run_closes_the_day_only_with_logs Samples.wl_master Samples.wl_allocation
                    Samples.wl_shift Samples.brk_time_leb Samples.monday (hms 22 0 0)
                    Samples.wl_store)) with (r := r); auto.
    + exists (Samples.wl_log "09:10:00" "checkin"). split; [simpl; auto|].
      split; reflexivity.
    + vm_compute. discriminate.
    + destruct (Westlands.checkouttime r); [discriminate | reflexivity].
Defined.

End PipelineCoverage.

(* ================================================================== *)
(** * The break ETL: single punches, skipped employees, the auto breaks *)
(* ================================================================== *)

Module BreakCoverage.
Import Py WestlandsBreak BreakProps.

Lemma date_of_combine d t : valid_time t -> date_of (combine d t) = d.
Proof.
  unfold valid_time, date_of, combine. intros H.
  rewrite Z.mul_comm, Z.div_add_l by lia. rewrite Z.div_small by lia. lia.
Qed.

Lemma max_id_ge (bs : list break_row) acc :
  acc <= fold_left (fun m b => Z.max m (breakpunchactionid b)) bs acc
  /\ forall b, In b bs ->
       breakpunchactionid b <= fold_left (fun m b => Z.max m (breakpunchactionid b)) bs acc.
Proof.
  revert acc. induction bs as [|x bs IH]; intros acc; simpl.
  - split; [lia | intros b []].
  - destruct (IH (Z.max acc (breakpunchactionid x))) as [H1 H2]. split; [lia|].
    intros b [<-|Hb]; [lia | auto].
Qed.

(** The id [insert_break] gives a row is above every id of the table, so a
    table with pairwise different ids keeps them so. *)
Theorem break_ids_stay_unique meta s e status st :
  (forall b, In b (breaks st) -> breakpunchactionid b < next_breakpunchactionid st)
  /\ (NoDup (map breakpunchactionid (breaks st)) ->
      NoDup (map breakpunchactionid (breaks (insert_break meta s e status st)))).
Proof.
  assert (Hlt : forall b, In b (breaks st) ->
                  breakpunchactionid b < next_breakpunchactionid st).
  { intros b Hb. unfold next_breakpunchactionid.
    destruct (max_id_ge (breaks st) 0) as [_ H]. specialize (H b Hb). lia. }
  split; [exact Hlt|].
  intros Hnd. unfold insert_break. simpl. rewrite map_app. simpl.
  apply NoDup_app; [exact Hnd | repeat constructor; intros [] |].
  intros x Hx [<-|[]]. apply in_map_iff in Hx. destruct Hx as (b & Hid & Hb).
  specialize (Hlt b Hb). lia.
Qed.

Lemma break_ids_stay_unique_witness :
  NoDup (map breakpunchactionid
           (breaks (insert_break (Samples.brk_action "U1" "E1")
                      (combine Samples.monday (hms 13 0 0))
                      (combine Samples.monday (hms 13 30 0)) "manual"
                      (insert_break (Samples.brk_action "U2" "E2")
                         (combine Samples.monday (hms 12 0 0))
                         (combine Samples.monday (hms 12 30 0)) "manual"
                         Samples.brk_store)))).
Proof.
  apply break_ids_stay_unique. apply break_ids_stay_unique. constructor.
Defined.

Section Facts.
Variable TODAY : date.
Variable end_of_day : bool.
Variable fromisoformat : string -> option time.
Variable punch_time_leb : pyval -> pyval -> bool.

(** An employee with a punch action of the day, no break row of the day and
    exactly one pending break punch, of readable time: before the end of
    the day [process_type1] writes nothing for the employee and the punch
    stays pending; at the end of the day it writes one break row from the
    punch to 30 minutes later with status auto and flags the punch. *)
Theorem single_punch_break st uid meta p s :
  (forall l, In l (fetch_attendance_break_logs TODAY punch_time_leb st) ->
             to_time fromisoformat (punch_time l) <> None) ->
  sort_by (fun a b => punch_time_leb (punch_time a) (punch_time b))
    (filter (fun l => String.eqb (user_id l) uid)
            (fetch_attendance_break_logs TODAY punch_time_leb st))
  = [p] ->
  user_meta TODAY uid st = Some meta ->
  existing_break_for_day TODAY uid st = false ->
  to_time fromisoformat (punch_time p) = Some s ->
  exists st',
    process_type1 TODAY end_of_day fromisoformat punch_time_leb st = Some st'
    /\ (end_of_day = false ->
        employee_breaks uid st' = employee_breaks uid st
        /\ employee_logs uid st' = employee_logs uid st)
    /\ (end_of_day = true ->
        (exists b,
            employee_breaks uid st' = (employee_breaks uid st ++ [b])%list
            /\ break_of b meta (combine (punch_date p) s)
                 (combine (punch_date p) s + 60 * 30) "auto")
        /\ employee_logs uid st'
           = employee_logs uid (mark_attendance_migrated TODAY uid (punch_time p) st)).
Proof.
  intros Hread Hsort Hmeta Hnone Hs.
  destruct (BreakProofs.process_users_returns TODAY end_of_day fromisoformat punch_time_leb
              (fetch_attendance_break_logs TODAY punch_time_leb st)
              (distinct (map user_id (fetch_attendance_break_logs TODAY punch_time_leb st)))
              st Hread) as [st' Hrun].
  exists st'. split; [exact Hrun|].
  assert (Hin : In uid (map user_id (fetch_attendance_break_logs TODAY punch_time_leb st))).
  { assert (H1 : In p [p]) by (simpl; auto).
    rewrite <- Hsort in H1. apply BreakProofs.punches_sort_In, filter_In in H1.
    destruct H1 as [H1 Hu]. apply String.eqb_eq in Hu. subst uid.
    apply in_map. exact H1. }
  destruct (BreakProofs.process_type1_split TODAY end_of_day fromisoformat punch_time_leb
              st uid st' Hin Hrun) as (sa & sb & Ha & Hstep & Hb).
  unfold WestlandsBreak.process_user in Hstep.
  rewrite (BreakProofs.user_meta_same TODAY uid st sa) in Hstep by apply Ha.
  rewrite (BreakProofs.existing_break_same TODAY uid st sa Ha), Hmeta, Hnone, Hsort, Hs
    in Hstep.
  destruct Ha as (_ & Hab & Hal). destruct Hb as (_ & Hbb & Hbl).
  destruct end_of_day; injection Hstep as <-.
  - split; [discriminate|]. intros _. split.
    + eexists. rewrite Hbb. unfold employee_breaks at 1. simpl.
      rewrite filter_app. simpl.
      rewrite (BreakProofs.user_meta_employee _ _ _ _ Hmeta), String.eqb_refl.
      fold (employee_breaks uid sa). rewrite Hab.
      split; [reflexivity|]. unfold break_of. simpl.
      rewrite (BreakProofs.user_meta_employee _ _ _ _ Hmeta). reflexivity.
    + rewrite Hbl, !BreakProofs.employee_logs_mark, BreakProofs.employee_logs_insert, Hal.
      reflexivity.
  - split; [|discriminate]. intros _. split; congruence.
Qed.


End Facts.

(** ** [process_type2] *)

Lemma existing_break_grows TODAY e st st' added :
  breaks st' = (breaks st ++ added)%list ->
  existing_break_for_day TODAY e st = true -> existing_break_for_day TODAY e st' = true.
Proof.
  unfold existing_break_for_day. intros -> H. rewrite existsb_app, H. reflexivity.
Qed.

Lemma existing_break_shrinks TODAY e st st' added :
  breaks st' = (breaks st ++ added)%list ->
  existing_break_for_day TODAY e st' = false -> existing_break_for_day TODAY e st = false.
Proof.
  unfold existing_break_for_day. intros -> H. rewrite existsb_app in H.
  apply orb_false_iff in H. tauto.
Qed.

Lemma type2_fold TODAY (L : list punch_action) :
  forall s,
    let step := fun s meta =>
      if existing_break_for_day TODAY (pa_employeeid meta) s then s
      else insert_break meta (combine TODAY AUTO_BREAK_START)
             (combine TODAY AUTO_BREAK_START + 60 * AUTO_BREAK_DURATION_MIN) "auto" s in
    let s' := fold_left step L s in
    logs s' = logs s /\ punch_actions s' = punch_actions s
    /\ (exists added,
          breaks s' = (breaks s ++ added)%list
          /\ Forall (fun b =>
                       break_status b = "auto"
                       /\ breakstartdatetime b = combine TODAY AUTO_BREAK_START
                       /\ breakenddatetime b
                          = combine TODAY AUTO_BREAK_START + 60 * AUTO_BREAK_DURATION_MIN
                       /\ breakstartdate b = TODAY
                       /\ existing_break_for_day TODAY (employeeid b) s = false
                       /\ exists meta, In meta L /\ employeeid b = pa_employeeid meta)
                    added
          /\ NoDup (map employeeid added))
    /\ (forall meta, In meta L ->
                     existing_break_for_day TODAY (pa_employeeid meta) s' = true).
Proof.
  induction L as [|m L IH]; intros s; cbv zeta; cbn [fold_left].
  - split; [reflexivity|]. split; [reflexivity|]. split; [|intros meta []].
    exists []. rewrite app_nil_r. repeat split; constructor.
  - destruct (existing_break_for_day TODAY (pa_employeeid m) s) eqn:Em.
    + destruct (IH s) as (Hl & Hp & (added & Hb & Hall & Hnd) & Hex).
      cbv zeta in Hl, Hp, Hb, Hex.
      split; [exact Hl|]. split; [exact Hp|]. split.
      * exists added. split; [exact Hb|]. split; [|exact Hnd].
        eapply Forall_impl; [|exact Hall]. simpl.
        intros b (A1 & A2 & A3 & A4 & A5 & meta & Hm & A6).
        repeat split; auto. exists meta. auto.
      * intros meta [<-|Hm]; [|auto].
        eapply existing_break_grows; eauto.
    + set (s1 := insert_break m (combine TODAY AUTO_BREAK_START)
                   (combine TODAY AUTO_BREAK_START + 60 * AUTO_BREAK_DURATION_MIN)
                   "auto" s).
      destruct (IH s1) as (Hl & Hp & (added & Hb & Hall & Hnd) & Hex).
      cbv zeta in Hl, Hp, Hb, Hex.
      assert (Hd : date_of (combine TODAY AUTO_BREAK_START) = TODAY)
        by (apply date_of_combine; unfold valid_time, AUTO_BREAK_START, hms; lia).
      assert (E1 : existing_break_for_day TODAY (pa_employeeid m) s1 = true).
      { unfold existing_break_for_day, s1, insert_break. simpl.
        rewrite existsb_app. simpl. rewrite String.eqb_refl, Hd, Z.eqb_refl. simpl.
        apply orb_true_r. }
      split; [exact Hl|]. split; [exact Hp|]. split.
      * eexists (_ :: added). split; [|split].
        -- rewrite Hb. unfold s1 at 1. unfold insert_break. simpl.
           rewrite <- app_assoc. reflexivity.
        -- constructor.
           ++ simpl. repeat split; auto. exists m. auto.
           ++ eapply Forall_impl; [|exact Hall]. simpl.
              intros b (A1 & A2 & A3 & A4 & A5 & meta & Hm & A6).
              repeat split; auto.
              ** eapply (existing_break_shrinks TODAY _ s s1); [reflexivity | exact A5].
              ** exists meta. auto.
        -- simpl. constructor; [|exact Hnd].
           intros Hin. apply in_map_iff in Hin. destruct Hin as (b & Hbe & Hbin).
           rewrite Forall_forall in Hall.
           destruct (Hall b Hbin) as (_ & _ & _ & _ & A5 & _).
           rewrite Hbe in A5. congruence.
      * intros meta [<-|Hm]; [|auto].
        eapply existing_break_grows; eauto.
Qed.

(** [process_type2]: before the end of the day nothing is written. At the
    end of the day the logs and the break rows found stay as they are, and
    the rows appended are automatic breaks 13:00-13:30 of the day, one for
    each employee who has a punch action of the day and had no break row of
    the day, and no two for the same employee; afterwards every employee
    with a punch action of the day has a break row of the day. *)
Theorem auto_breaks_at_end_of_day TODAY st :
  process_type2 TODAY false st = st
  /\ (let st' := process_type2 TODAY true st in
      logs st' = logs st /\ punch_actions st' = punch_actions st
      /\ (exists added,
            breaks st' = (breaks st ++ added)%list
            /\ Forall (auto_break_of TODAY st) added
            /\ NoDup (map employeeid added))
      /\ (forall meta, In meta (punch_actions st) -> pa_checkindate meta = Some TODAY ->
                       existing_break_for_day TODAY (pa_employeeid meta) st' = true)).
Proof.
  split; [reflexivity|].
  unfold process_type2. simpl negb. cbv iota.
  match goal with
  | |- context [fold_left _ ?L st] =>
      destruct (type2_fold TODAY L st) as (Hl & Hp & (added & Hb & Hall & Hnd) & Hex)
  end.
  simpl. split; [exact Hl|]. split; [exact Hp|]. split.
  - exists added. split; [exact Hb|]. split; [|exact Hnd].
    eapply Forall_impl; [|exact Hall]. simpl.
    intros b (A1 & A2 & A3 & A4 & A5 & meta & Hm & A6).
    apply filter_In in Hm. destruct Hm as [Hm Hc].
    unfold auto_break_of. repeat split; auto.
    exists meta. split; [exact Hm|]. split; [|exact A6].
    destruct (pa_checkindate meta) as [x|]; [|discriminate].
    apply Z.eqb_eq in Hc. congruence.
  - intros meta Hm Hc. apply Hex. apply filter_In. split; [exact Hm|].
    rewrite Hc. apply Z.eqb_refl.
Qed.

Lemma auto_breaks_at_end_of_day_witness :
  existing_break_for_day Samples.monday "E2"
    (process_type2 Samples.monday true Samples.brk_store) = true.
Proof.
  destruct (auto_breaks_at_end_of_day Samples.monday Samples.brk_store) as (_ & H).
  cbv zeta in H. destruct H as (_ & _ & _ & H).
  apply (H (Samples.brk_action "U2" "E2")); [simpl; auto | reflexivity].
Defined.

(** ** [main] *)

Lemma process_user_punch_actions TODAY eod iso leb uid punches st st' :
  process_user TODAY eod iso leb uid punches st = Some st' ->
  punch_actions st' = punch_actions st.
Proof.
  unfold process_user.
  destruct (user_meta TODAY uid st); [|intros [= <-]; reflexivity].
  destruct (existing_break_for_day TODAY uid st); [intros [= <-]; reflexivity|].
  destruct (sort_by _ punches) as [|p1 [|p2 rest]].
  - intros [= <-]. reflexivity.
  - destruct (to_time iso (punch_time p1)); [|discriminate].
    destruct eod; intros [= <-]; reflexivity.
  - destruct (to_time iso (punch_time p1)); [|discriminate].
    destruct (to_time iso (punch_time p2)); [|discriminate].
    destruct (_ && _); intros [= <-]; reflexivity.
Qed.

Lemma process_users_punch_actions TODAY eod iso leb logs0 uids :
  forall st st',
    process_users TODAY eod iso leb logs0 uids st = Some st' ->
    punch_actions st' = punch_actions st.
Proof.
  induction uids as [|u uids IH]; simpl; intros st st' H.
  - injection H as <-. reflexivity.
  - destruct (process_user TODAY eod iso leb u _ st) as [s1|] eqn:E; [|discriminate].
    rewrite (IH _ _ H). eapply process_user_punch_actions. exact E.
Qed.

(** A run of [main] whose second step finds the end of the day reached
    leaves no employee with a punch action of the day without a break row
    of the day, whatever the break punches were, provided every fetched
    punch time is readable (otherwise the run raises and nothing is
    committed). *)
Theorem main_gives_everyone_a_break TODAY eod iso leb st :
  (forall l, In l (fetch_attendance_break_logs TODAY leb st) ->
             to_time iso (punch_time l) <> None) ->
  exists st',
    main TODAY eod true iso leb st = Some st'
    /\ forall meta, In meta (punch_actions st) -> pa_checkindate meta = Some TODAY ->
                    existing_break_for_day TODAY (pa_employeeid meta) st' = true.
Proof.
  intros Hread. unfold main, process_type1.
  destruct (BreakProofs.process_users_returns TODAY eod iso leb
              (fetch_attendance_break_logs TODAY leb st)
              (distinct (map user_id (fetch_attendance_break_logs TODAY leb st)))
              st Hread) as [st1 Hrun].
  rewrite Hrun. eexists. split; [reflexivity|].
  intros meta Hm Hc.
  rewrite <- (process_users_punch_actions _ _ _ _ _ _ _ _ Hrun) in Hm.
  unfold process_type2. simpl negb. cbv iota.
  match goal with
  | |- context [fold_left _ ?L st1] =>
      destruct (type2_fold TODAY L st1) as (_ & _ & _ & Hex)
  end.
  apply Hex. apply filter_In. split; [exact Hm|].
  rewrite Hc. apply Z.eqb_refl.
Qed.

Lemma main_gives_everyone_a_break_witness :
  exists st',
    main Samples.monday false true Samples.brk_fromisoformat Samples.brk_time_leb
      Samples.brk_store = Some st'
    /\ existing_break_for_day Samples.monday "E2" st' = true.
Proof.
  destruct (main_gives_everyone_a_break Samples.monday false Samples.brk_fromisoformat
              Samples.brk_time_leb Samples.brk_store) as (st1 & Hrun & H).
  - intros l Hl. vm_compute in Hl.
    destruct Hl as [<-|[<-|[<-|[<-|[]]]]]; discriminate.
  - exists st1. split; [exact Hrun|].
    apply (H (Samples.brk_action "U2" "E2")); [simpl; auto | reflexivity].
Defined.

Lemma single_punch_break_witness :
  exists st',
    process_type1 Samples.monday true Samples.brk_fromisoformat Samples.brk_time_leb
      Samples.brk_single_store = Some st'
    /\ (exists b,
          employee_breaks "E1" st' = [b]
          /\ breakstartdatetime b = combine Samples.monday (hms 13 0 0)
          /\ breakenddatetime b = combine Samples.monday (hms 13 30 0)
          /\ break_status b = "auto")
    /\ map migration_status (employee_logs "E1" st') = ["Yes"].
Proof.
  assert (Hread : forall l,
             In l (fetch_attendance_break_logs Samples.monday Samples.brk_time_leb
                     Samples.brk_single_store) ->
             to_time Samples.brk_fromisoformat (punch_time l) <> None).
  { intros l H. vm_compute in H. destruct H as [<-|[]]. discriminate. }
  destruct (single_punch_break Samples.monday true Samples.brk_fromisoformat
              Samples.brk_time_leb Samples.brk_single_store "E1"
              (Samples.brk_action "U1" "E1")
              (Samples.brk_log "E1" (hms 13 0 0) "breakin") (hms 13 0 0)
              Hread eq_refl eq_refl eq_refl eq_refl)
    as (st1 & Hrun & _ & Hauto).
  exists st1. split; [exact Hrun|].
  destruct (Hauto eq_refl) as [(b & Hb & Hof) Hlogs].
  split.
  - exists b. split; [exact Hb|]. rewrite Hof. repeat split.
  - rewrite Hlogs. reflexivity.
Defined.


End BreakCoverage.

(* ================================================================== *)
(** * The cycle and the attendance logs *)
(* ================================================================== *)

Module CycleCoverage.
Import Py RedGinger Props.

Lemma only_flags_refl st : only_flags st st.
Proof. unfold only_flags. apply ReconcilerProofs.Forall2_refl. auto. Qed.

Lemma only_flags_same st st' : logs st' = logs st -> only_flags st st'.
Proof. unfold only_flags. intros ->. apply ReconcilerProofs.Forall2_refl. auto. Qed.

Lemma only_flags_trans a b c : only_flags a b -> only_flags b c -> only_flags a c.
Proof.
  unfold only_flags. generalize (logs a) (logs b) (logs c). clear.
  intros la lb lc H. revert lc. induction H as [|x y la lb Hxy H IH]; intros lc H2.
  - inversion H2. constructor.
  - inversion H2 as [|y' z lb' lc' Hyz H3]; subst. constructor; [|apply IH; exact H3].
    destruct Hxy as (A1 & A2 & A3). destruct Hyz as (B1 & B2 & B3).
    split; [congruence|]. split; [congruence|].
    destruct B3 as [B3|B3]; [|auto]. rewrite B3. exact A3.
Qed.

Lemma only_flags_marked p st st' :
  logs st' = mark_migrated p (logs st) -> only_flags st st'.
Proof.
  unfold only_flags. intros ->. unfold mark_migrated.
  apply ScannerProofs.Forall2_map_right. intros l _.
  destruct (same_punch p l); simpl; auto.
Qed.

Lemma only_flags_fold {A} (f : state -> A -> state) l :
  (forall s x, only_flags s (f s x)) -> forall st, only_flags st (fold_left f l st).
Proof.
  intros Hf. induction l as [|x l IH]; intros st; simpl; [apply only_flags_refl|].
  eapply only_flags_trans; [apply Hf | apply IH].
Qed.

Section Facts.
Variable master : list biometrics.
Variable now : datetime.

Lemma process_checkout_flags rec force st :
  only_flags st (snd (process_checkout master rec force st)).
Proof.
  apply only_flags_same.
  apply (ReconcilerCoverage.process_checkout_keeps master rec force st).
Qed.

Lemma process_checkin_flags rec st :
  only_flags st (snd (process_checkin master now rec st)).
Proof.
  unfold process_checkin.
  destruct (is_processed _ st); [apply only_flags_refl|].
  destruct (get_biometrics_data master (user_id rec)) as [bio|]; [|apply only_flags_refl].
  destruct (session_exists _ _ st); [apply only_flags_same; reflexivity|].
  destruct (calculate_punch_status _ _ true) as [s1 s2].
  match goal with
  | |- context [find_checkout_for_checkin ?n ?u ?d ?t ?s] =>
      destruct (find_checkout_for_checkin n u d t s)
  end.
  - simpl. eapply only_flags_trans; [|apply process_checkout_flags].
    apply (only_flags_marked rec). reflexivity.
  - destruct (punch_date rec =? date_of now);
      [simpl; apply (only_flags_marked rec); reflexivity|].
    destruct (_ <? now); [|simpl; apply (only_flags_marked rec); reflexivity].
    simpl. eapply only_flags_trans; [|apply process_checkout_flags].
    apply (only_flags_marked rec). reflexivity.
Qed.

Lemma process_user_records_flags records :
  forall seen st, only_flags st (process_user_records master now records seen st).
Proof.
  induction records as [|r records IH]; intros seen st; simpl; [apply only_flags_refl|].
  destruct (is_checkin r).
  - destruct (existsb (Z.eqb (punch_date r)) seen); [apply IH|].
    destruct (process_checkin master now r st) as [ok st1] eqn:E.
    eapply only_flags_trans; [|apply IH].
    change st1 with (snd (ok, st1)). rewrite <- E. apply process_checkin_flags.
  - destruct (is_checkout r); [|apply IH].
    eapply only_flags_trans; [apply process_checkout_flags | apply IH].
Qed.

Lemma cross_day_user_flags records :
  forall st, only_flags st (cross_day_user master now records st).
Proof.
  induction records as [|r records IH]; intros st; cbn [cross_day_user];
    [apply only_flags_refl|].
  eapply only_flags_trans; [|apply IH].
  destruct (is_checkin r); [|apply only_flags_refl].
  destruct (find _ (firstn 9 records)) as [c|]; [|apply only_flags_refl].
  destruct (_ <? _); [|apply only_flags_refl].
  destruct (process_checkin master now r st) as [ok st1] eqn:E.
  assert (H1 : only_flags st st1).
  { change st1 with (snd (ok, st1)). rewrite <- E. apply process_checkin_flags. }
  destruct ok; [|exact H1].
  eapply only_flags_trans; [exact H1 | apply process_checkout_flags].
Qed.

Lemma auto_checkout_step_flags st r :
  only_flags st (auto_checkout_step master now st r).
Proof.
  unfold auto_checkout_step.
  destruct (checkindate r) as [cd|]; [|apply only_flags_refl].
  destruct (_ <? now); [|apply only_flags_refl].
  destruct (pending_checkout (employeeid r) cd st) as [c|].
  - destruct (process_checkout master c false st) as [ok st1] eqn:E.
    assert (H1 : only_flags st st1).
    { change st1 with (snd (ok, st1)). rewrite <- E. apply process_checkout_flags. }
    destruct ok; [|exact H1].
    eapply only_flags_trans; [exact H1|].
    apply (only_flags_marked c). reflexivity.
  - destruct (auto_checkout_exists _ _ st); [apply only_flags_refl|].
    apply process_checkout_flags.
Qed.

Lemma process_dates_flags n :
  forall d st, only_flags st (process_dates master now n d st).
Proof.
  induction n as [|n IH]; intros d st; simpl; [apply only_flags_refl|].
  eapply only_flags_trans; [|apply IH].
  unfold process_attendance_by_date. apply only_flags_fold.
  intros s x. apply process_user_records_flags.
Qed.

(** A whole cycle writes nothing to the attendance logs but migration
    flags set to [Yes]: no log is added or removed, and punch and device
    of every log stay; the sync time is the clock afterwards. *)
Theorem cycle_only_flags_logs st :
  only_flags st (sync_incremental master now st)
  /\ last_sync_time (sync_incremental master now st) = Some now.
Proof.
  assert (H4 : forall s d1 d2,
             only_flags s (handle_cross_day_scenarios master now d1 d2 s)).
  { intros s d1 d2. unfold handle_cross_day_scenarios. apply only_flags_fold.
    intros s' x. apply cross_day_user_flags. }
  assert (H6 : forall s,
             only_flags s (process_auto_checkouts_for_incomplete_records master now s)).
  { intros s. unfold process_auto_checkouts_for_incomplete_records.
    apply only_flags_fold. apply auto_checkout_step_flags. }
  assert (H7 : forall s,
             only_flags s (with_last_sync_time (validate_and_cleanup_duplicates s)
                             (Some now))).
  { intros s. apply only_flags_same. reflexivity. }
  unfold sync_incremental.
  destruct (get_date_range_to_process now _) as [start_date end_date].
  split; [|reflexivity].
  eapply only_flags_trans; [|apply H7].
  eapply only_flags_trans; [|apply H6].
  eapply only_flags_trans; [|apply process_dates_flags].
  eapply only_flags_trans; [|apply H4].
  apply only_flags_same. reflexivity.
Qed.

End Facts.

End CycleCoverage.
